(** * MovieVikings: a shallow embedding of the content pipeline, the TMDB
    client, the badge evaluator, the friend requests and the provider refresh.

    The Python sources are embedded function by function.  Python values that
    come from JSON are a [json] tree; operations that can raise return a
    [res]; code that talks to the database threads the tables explicitly. *)

From Stdlib Require Import ZArith QArith Qcanon Lia Lqa Ascii String.
From stdpp Require Import base tactics option list strings numbers pretty sorting.

Local Open Scope string_scope.
Local Open Scope list_scope.
Local Open Scope Z_scope.

(** ** Python prelude *)

(** The exception classes the embedded code raises or catches. *)
Inductive exn : Set :=
| KeyError
| TypeError
| AttributeError
| ValueError
| ZeroDivisionError
| RequestException
| PageNotAnInteger
| EmptyPage
| DoesNotExist
| MultipleObjectsReturned
| IntegrityError
| UnboundLocalError
| IndexError.

Global Instance exn_eq_dec : EqDecision exn.
Proof. solve_decision. Defined.

(** A computation that returns a value or raises. *)
Inductive res (A : Type) : Type :=
| Ok (a : A)
| Raise (e : exn).
Global Arguments Ok {A} a.
Global Arguments Raise {A} e.

Global Instance res_ret : MRet res := fun _ a => Ok a.
Global Instance res_bind : MBind res := fun _ _ f m =>
  match m with
  | Ok a => f a
  | Raise e => Raise e
  end.

(** A [for] loop whose body can raise, over an accumulator. *)
Fixpoint for_each {X S} (body : S → X → res S) (xs : list X) (s : S) : res S :=
  match xs with
  | [] => Ok s
  | x :: xs' => s' ← body s x; for_each body xs' s'
  end.

(** JSON documents as Python sees them after [response.json()]: [dict]
    (insertion ordered), [list], [str], [int], [float], [bool] and [None].
    A float is held by its exact value. *)
#[warnings="-register-all"] Inductive json : Type :=
| JNull
| JBool (b : bool)
| JInt (z : Z)
| JFloat (q : Qc)
| JStr (s : string)
| JList (l : list json)
| JDict (d : list (string * json)).

(** [bool(x)]. *)
Definition truthy (v : json) : bool :=
  match v with
  | JNull => false
  | JBool b => b
  | JInt z => negb (z =? 0)
  | JFloat q => negb (bool_decide (q = 0%Qc))
  | JStr s => negb (String.eqb s "")
  | JList l => match l with [] => false | _ => true end
  | JDict d => match d with [] => false | _ => true end
  end.

(** Lookup in an insertion-ordered dict. *)
Fixpoint assoc {V} (k : string) (d : list (string * V)) : option V :=
  match d with
  | [] => None
  | (k', v) :: d' => if String.eqb k k' then Some v else assoc k d'
  end.

(** [x.get(k, default)]: only a dict has the method. *)
Definition py_get_default (x : json) (k : string) (dflt : json) : res json :=
  match x with
  | JDict d => Ok (default dflt (assoc k d))
  | _ => Raise AttributeError
  end.

(** [x.get(k)]. *)
Definition py_get (x : json) (k : string) : res json := py_get_default x k JNull.

(** [x[k]] for a string key. *)
Definition py_index (x : json) (k : string) : res json :=
  match x with
  | JDict d => match assoc k d with Some v => Ok v | None => Raise KeyError end
  | _ => Raise TypeError
  end.

Definition chars (s : string) : list json :=
  (fun c => JStr (String c EmptyString)) <$> String.list_ascii_of_string s.

(** [iter(x)]: a list yields its elements, a dict its keys, a str its
    characters; the other values are not iterable. *)
Definition py_iter (x : json) : res (list json) :=
  match x with
  | JList l => Ok l
  | JDict d => Ok ((fun kv => JStr kv.1) <$> d)
  | JStr s => Ok (chars s)
  | _ => Raise TypeError
  end.

(** The text of a float.  The digits Python prints are not modelled: the
    text is the fraction, one text per value. *)
Definition float_repr (q : Qc) : string :=
  pretty (Qnum q) +:+ "/" +:+ pretty (Zpos (Qden q)).

(** [repr(x)] and [str(x)] of a JSON value, used by the f-strings that build
    endpoints and by the text columns.  Quotes inside a string are not
    escaped. *)
Fixpoint py_repr (v : json) : string :=
  match v with
  | JNull => "None"
  | JBool b => if b then "True" else "False"
  | JInt z => pretty z
  | JFloat q => float_repr q
  | JStr s => "'" +:+ s +:+ "'"
  | JList l => "[" +:+ String.concat ", " (map py_repr l) +:+ "]"
  | JDict d =>
      "{" +:+ String.concat ", "
                (map (λ kv, "'" +:+ fst kv +:+ "': " +:+ py_repr (snd kv)) d)
      +:+ "}"
  end.

Definition py_str (v : json) : string :=
  match v with JStr s => s | _ => py_repr v end.

(** *** [int(x)] *)

(** A str of the model is a sequence of ASCII characters.  For a str with
    other characters [int()] and [str.isdigit()] consult the Unicode tables
    of spaces and digits, which are not modelled; the statements that depend
    on how such a str is read ask for [is_ascii]. *)
Definition is_ascii (s : string) : bool :=
  forallb (λ c, (nat_of_ascii c <? 128)%nat) (list_ascii_of_string s).

(** The ASCII characters [int()] strips: tab to carriage return, and the
    space. *)
Definition is_space (c : ascii) : bool :=
  let n := nat_of_ascii c in
  (n =? 32)%nat || ((9 <=? n)%nat && (n <=? 13)%nat).

Definition digit_of (c : ascii) : option Z :=
  let n := nat_of_ascii c in
  if ((48 <=? n)%nat && (n <=? 57)%nat)%bool then Some (Z.of_nat n - 48) else None.

Definition is_digit (c : ascii) : bool :=
  match digit_of c with Some _ => true | None => false end.

Fixpoint lstrip (s : list ascii) : list ascii :=
  match s with
  | c :: s' => if is_space c then lstrip s' else s
  | [] => []
  end.

Definition strip (s : list ascii) : list ascii := rev (lstrip (rev (lstrip s))).

(** Decimal digits, a single underscore allowed between two digits. *)
Fixpoint digits_value (acc : Z) (after_digit : bool) (s : list ascii) : option Z :=
  match s with
  | [] => if after_digit then Some acc else None
  | c :: s' =>
      match digit_of c with
      | Some d => digits_value (10 * acc + d) true s'
      | None =>
          if (Ascii.eqb c "_"%char && after_digit)%bool
          then digits_value acc false s'
          else None
      end
  end.

(** [sys.get_int_max_str_digits()], at its default. *)
Definition MAX_STR_DIGITS : nat := 4300.

(** [int(s)]: a numeral with more digits than the limit is refused like a
    text that is no numeral. *)
Definition int_of_str (s : string) : res Z :=
  let body := strip (list_ascii_of_string s) in
  let parsed :=
    match body with
    | c :: rest =>
        if Ascii.eqb c "-"%char then Z.opp <$> digits_value 0 false rest
        else if Ascii.eqb c "+"%char then digits_value 0 false rest
        else digits_value 0 false body
    | [] => None
    end in
  match parsed with
  | Some z =>
      if (MAX_STR_DIGITS <? length (List.filter is_digit body))%nat then Raise ValueError
      else Ok z
  | None => Raise ValueError
  end.

(** [s.isdigit()] *)
Definition isdigit (s : string) : bool :=
  match list_ascii_of_string s with
  | [] => false
  | cs => forallb is_digit cs
  end.

(** A page argument as the views pass it: the [int] default, the raw [str]
    of the query string, or [None]. *)
Inductive pyarg : Type :=
| PyInt (z : Z)
| PyStr (s : string)
| PyNone.

Definition py_int (x : pyarg) : res Z :=
  match x with
  | PyInt z => Ok z
  | PyStr s => int_of_str s
  | PyNone => Raise TypeError
  end.

(** A page argument inside the model: an [int], [None], or a str of ASCII
    characters. *)
Definition ascii_arg (x : pyarg) : Prop :=
  match x with
  | PyStr s => is_ascii s = true
  | _ => True
  end.

(** [l[lo:hi]] with Python's clamping and negative indices. *)
Definition slice_bound (len i : Z) : Z :=
  if i <? 0 then Z.max 0 (i + len) else Z.min i len.

Definition py_slice {A} (l : list A) (lo hi : Z) : list A :=
  let len := Z.of_nat (length l) in
  let lo' := slice_bound len lo in
  let hi' := slice_bound len hi in
  take (Z.to_nat (hi' - lo')) (drop (Z.to_nat lo') l).

(** ** utils.py: pagination *)

Module Pagination.

(** django.core.paginator.Paginator, with its defaults [orphans=0] and
    [allow_empty_first_page=True]. *)
Record Paginator (A : Type) : Type := mkPaginator {
  object_list : list A;
  per_page : Z;
  orphans : Z;
  allow_empty_first_page : bool
}.
Global Arguments mkPaginator {A}.
Global Arguments object_list {A}.
Global Arguments per_page {A}.
Global Arguments orphans {A}.
Global Arguments allow_empty_first_page {A}.

Record Page (A : Type) : Type := mkPage {
  page_object_list : list A;
  number : Z
}.
Global Arguments mkPage {A}.
Global Arguments page_object_list {A}.
Global Arguments number {A}.

Section Paginator.
Context {A : Type}.

Definition new_paginator (items : list A) (items_per_page : Z) : Paginator A :=
  mkPaginator items items_per_page 0 true.

Definition count (p : Paginator A) : Z := Z.of_nat (length (object_list p)).

(** [ceil(hits / per_page)]. *)
Definition ceil_div (a b : Z) : res Z :=
  if b =? 0 then Raise ZeroDivisionError else Ok (- ((- a) / b)).

Definition num_pages (p : Paginator A) : res Z :=
  if ((count p =? 0) && negb (allow_empty_first_page p))%bool then Ok 0
  else ceil_div (Z.max 1 (count p - orphans p)) (per_page p).

Definition validate_number (p : Paginator A) (num : pyarg) : res Z :=
  match py_int num with
  | Raise TypeError | Raise ValueError => Raise PageNotAnInteger
  | Raise e => Raise e
  | Ok n =>
      if n <? 1 then Raise EmptyPage
      else
        np ← num_pages p;
        if n >? np then Raise EmptyPage else Ok n
  end.

Definition page (p : Paginator A) (num : pyarg) : res (Page A) :=
  n ← validate_number p num;
  let bottom := (n - 1) * per_page p in
  let top := bottom + per_page p in
  let top := if top + orphans p >=? count p then count p else top in
  Ok (mkPage (py_slice (object_list p) bottom top) n).

(** utils.paginate_results *)
Definition paginate_results (items : list A) (page_number : pyarg)
    (items_per_page : Z) : res (Page A) :=
  let paginator := new_paginator items items_per_page in
  match page paginator page_number with
  | Raise PageNotAnInteger => page paginator (PyInt 1)
  | Raise EmptyPage => np ← num_pages paginator; page paginator (PyInt np)
  | r => r
  end.

(** The number of pages of a set of [n] items, [pp] per page, as a number. *)
Definition pages_of (n pp : Z) : Z := - ((- Z.max 1 n) / pp).

(** The items the page numbered [k] shows. *)
Definition page_items (items : list A) (pp k : Z) : list A :=
  take (Z.to_nat pp) (drop (Z.to_nat ((k - 1) * pp)) items).

(** views.profile_view, the pagination of the watched tab and of the
    watchlist tab: twelve items per page, and only [EmptyPage] is caught. *)
Definition profile_page (items : list A) (page_number : pyarg) : res (Page A) :=
  let paginator := new_paginator items 12 in
  match page paginator page_number with
  | Raise EmptyPage => np ← num_pages paginator; page paginator (PyInt np)
  | r => r
  end.

(** The items a request for a page shows. *)
Definition shown (items : list A) (page_number : pyarg) (items_per_page : Z) : list A :=
  match paginate_results items page_number items_per_page with
  | Ok page_obj => page_object_list page_obj
  | Raise _ => []
  end.

End Paginator.

(** The set of the repository's pagination test: thirty items. *)
Definition thirty : list Z := Z.of_nat <$> seq 0 30.

End Pagination.

(** ** [list.sort] *)

(** [l.sort(key=key)] and [l.sort(key=key, reverse=True)] compare keys with
    [<] only and are stable: records with equal keys keep their order, also
    under [reverse=True].  The embedding is the stable insertion sort with
    that contract. *)
Section PySort.
Context {A K : Type} (key : A → K) (lt : K → K → Prop) `{!RelDecision lt}.

(** [x] goes in front of the first record it need not follow. *)
Fixpoint insert_by (follows : K → K → bool) (x : A) (l : list A) : list A :=
  match l with
  | [] => [x]
  | y :: l' =>
      if follows (key x) (key y) then y :: insert_by follows x l'
      else x :: l
  end.

(** Ascending: [x] has to follow [y] when [key y < key x]. *)
Definition py_sort (l : list A) : list A :=
  foldr (insert_by (λ kx ky, bool_decide (lt ky kx))) [] l.

(** Descending ([reverse=True]): [x] has to follow [y] when [key x < key y]. *)
Definition py_sort_reverse (l : list A) : list A :=
  foldr (insert_by (λ kx ky, bool_decide (lt kx ky))) [] l.

(** Sorted from high to low: no record is below a later one. *)
Definition descending : list A → Prop :=
  StronglySorted (λ x y, ¬ lt (key x) (key y)).

End PySort.

(** ** utils.py and views.popular: the content aggregation pipeline *)

Module Content.

Definition date : Type := Z * Z * Z.

(** models.StreamingProvider *)
Record StreamingProvider : Type := mkStreamingProvider {
  name : string;
  tmdb_id : Z;
  logo_path : option string
}.

(** models.MovieProvider / models.TVShowProvider, as prefetched into
    [providers_list]. *)
Record ProviderInfo : Type := mkProviderInfo {
  provider : StreamingProvider;
  region : string;
  type : string
}.

(** models.BaseContent with the prefetched [providers_list]. *)
Record BaseContent : Type := mkBaseContent {
  bc_tmdb_id : Z;
  bc_title : string;
  bc_overview : option string;
  bc_poster_path : option string;
  bc_popularity : option Qc;
  bc_rating : option Qc;
  bc_vote_count : option Z;
  bc_providers_list : list ProviderInfo
}.

(** models.Movie *)
Record Movie : Type := mkMovie {
  movie_base : BaseContent;
  release_date : option date;
  runtime : option Z
}.

(** models.TVShow *)
Record TVShow : Type := mkTVShow {
  tv_base : BaseContent;
  first_air_date : option date;
  last_air_date : option date
}.

Inductive item : Type :=
| IMovie (m : Movie)
| ITV (t : TVShow).

Definition base (it : item) : BaseContent :=
  match it with IMovie m => movie_base m | ITV t => tv_base t end.

(** [item.release_date]: only a Movie has the attribute. *)
Definition get_release_date (it : item) : res (option date) :=
  match it with IMovie m => Ok (release_date m) | ITV _ => Raise AttributeError end.

(** [getattr(item, 'first_air_date', None)] *)
Definition getattr_first_air_date (it : item) : option date :=
  match it with IMovie _ => None | ITV t => first_air_date t end.

Record ProviderData : Type := mkProviderData {
  provider_name : string;
  pd_logo_path : option string;
  provider_id : Z
}.

Record Providers : Type := mkProviders {
  flatrate : list ProviderData;
  rent : list ProviderData;
  buy : list ProviderData;
  available : bool
}.

(** The dict [process_content_item] returns. *)
Record ContentDict : Type := mkContentDict {
  id : string;
  title : string;
  overview : option string;
  poster_url : option string;
  rating : Qc;
  vote_count : Z;
  cd_release_date : option date;
  media_type : string;
  popularity : Qc;
  streaming_providers : Providers;
  in_watchlist : bool
}.

Definition startswith (p s : string) : bool := String.prefix p s.

Section Settings.
(** [settings.MEDIA_URL] *)
Context (MEDIA_URL : string).

Definition get_poster_url (poster_path : option string) : option string :=
  match poster_path with
  | None => None
  | Some p =>
      if String.eqb p "" then None
      else if startswith "posters/" p then Some (MEDIA_URL +:+ p)
      else if (startswith "http://" p || startswith "https://" p)%bool then Some p
      else Some ("https://image.tmdb.org/t/p/w500" +:+ p)
  end.

Definition get_provider_logo_url (logo_path : option string) : option string :=
  match logo_path with
  | None => None
  | Some p =>
      if (String.eqb p "" || String.eqb p "None")%bool then None
      else
        let base_url := "https://image.tmdb.org/t/p/w92" in
        if startswith "/" p then Some (base_url +:+ p)
        else Some (base_url +:+ "/" +:+ p)
  end.

Definition empty_providers : Providers := mkProviders [] [] [] false.

(** One pass of the loop of [_extract_providers_for_item].  The dict
    [providers] has the keys flatrate, rent, buy and available: a row whose
    type is ['available'] passes the [in] test and appends to a [bool]. *)
Definition add_provider (providers : Providers) (provider_info : ProviderInfo)
    : res Providers :=
  let logo_url := get_provider_logo_url (logo_path (provider provider_info)) in
  let provider_data :=
    mkProviderData (name (provider provider_info)) logo_url
      (tmdb_id (provider provider_info)) in
  let t := type provider_info in
  if String.eqb t "flatrate" then
    Ok (mkProviders (flatrate providers ++ [provider_data]) (rent providers)
          (buy providers) (available providers))
  else if String.eqb t "rent" then
    Ok (mkProviders (flatrate providers) (rent providers ++ [provider_data])
          (buy providers) (available providers))
  else if String.eqb t "buy" then
    Ok (mkProviders (flatrate providers) (rent providers)
          (buy providers ++ [provider_data]) (available providers))
  else if String.eqb t "available" then Raise AttributeError
  else Ok providers.

Definition nonempty {X} (l : list X) : bool :=
  match l with [] => false | _ => true end.

Definition _extract_providers_for_item (it : item) : res Providers :=
  providers ← for_each add_provider (bc_providers_list (base it)) empty_providers;
  Ok (mkProviders (flatrate providers) (rent providers) (buy providers)
        (nonempty (flatrate providers) || nonempty (rent providers)
         || nonempty (buy providers))).

Definition process_content_item (it : item) (watchlist_ids : list string)
    (media_type : string) : res ContentDict :=
  providers ← _extract_providers_for_item it;
  let poster_url := get_poster_url (bc_poster_path (base it)) in
  let rating := default 0%Qc (bc_rating (base it)) in
  let popularity := default 0%Qc (bc_popularity (base it)) in
  release_date ←
    (if String.eqb media_type "movie" then get_release_date it
     else Ok (getattr_first_air_date it));
  Ok {| id := pretty (bc_tmdb_id (base it));
        title := bc_title (base it);
        overview := bc_overview (base it);
        poster_url := poster_url;
        rating := rating;
        vote_count := default 0 (bc_vote_count (base it));
        cd_release_date := release_date;
        media_type := media_type;
        popularity := popularity;
        streaming_providers := providers;
        in_watchlist :=
          bool_decide (pretty (bc_tmdb_id (base it)) ∈ watchlist_ids) |}.

(** The sort key of [popular]: the tuple [(popularity, rating)]. *)
Definition sort_key (x : ContentDict) : Qc * Qc := (popularity x, rating x).

(** [<] on tuples of two floats. *)
Definition tuple_lt (a b : Qc * Qc) : Prop :=
  (a.1 < b.1)%Qc ∨ (a.1 = b.1 ∧ (a.2 < b.2)%Qc).

Global Instance tuple_lt_dec : RelDecision tuple_lt.
Proof. intros a b. unfold tuple_lt. apply _. Defined.

Definition ITEMS_PER_PAGE : Z := 15.

(** views.popular, from the query results to the sorted list. *)
Definition all_content_dicts (movies_qs : list Movie) (tv_shows_qs : list TVShow)
    (watchlist_ids : list string) : res (list ContentDict) :=
  movies ← mapM (λ it, process_content_item (IMovie it) watchlist_ids "movie") movies_qs;
  shows ← mapM (λ it, process_content_item (ITV it) watchlist_ids "tv") tv_shows_qs;
  Ok (py_sort_reverse sort_key tuple_lt (movies ++ shows)).

(** views.popular, up to the page handed to the template. *)
Definition popular (movies_qs : list Movie) (tv_shows_qs : list TVShow)
    (watchlist_ids : list string) (page_number : pyarg)
    : res (Pagination.Page ContentDict) :=
  dicts ← all_content_dicts movies_qs tv_shows_qs watchlist_ids;
  Pagination.paginate_results dicts page_number ITEMS_PER_PAGE.

End Settings.
(** The offer types the views can group: every type but ['available']. *)
Definition groupable (b : BaseContent) : Prop :=
  Forall (λ provider_info, type provider_info ≠ "available") (bc_providers_list b).

(** The records of the repository's sorting test, each on one provider. *)
Definition example_content (tmdb popularity rating : Z) : BaseContent :=
  mkBaseContent tmdb "title" None None
    (Some (Qc_of_Z popularity)) (Some (Qc_of_Z rating)) (Some 0)
    [mkProviderInfo (mkStreamingProvider "Netflix" 8 (Some "/netflix.jpg")) "US" "flatrate"].

Definition example_movies : list Movie :=
  [mkMovie (example_content 101 10 8) None None;
   mkMovie (example_content 102 100 7) None None].

Definition example_shows : list TVShow :=
  [mkTVShow (example_content 201 50 9) None None;
   mkTVShow (example_content 202 100 6) None None].

(** *** utils.get_validated_region *)

(** models.REGION_CHOICES *)
Definition REGION_CHOICES : list (string * string) :=
  [("NO", "Norway"); ("US", "United States"); ("GB", "United Kingdom");
   ("DE", "Germany"); ("FR", "France"); ("SE", "Sweden"); ("DK", "Denmark")].

Section Region.
(** [str.upper] *)
Context (upper : string → string).

(** utils.get_validated_region, on [request.GET.get('region', None)]. *)
Definition get_validated_region (region_param : option string) : string :=
  let default_region := "US" in
  match region_param with
  | Some region_param =>
      if negb (String.eqb region_param "") then
        let region_param_upper := upper region_param in
        let valid_regions := REGION_CHOICES.*1 in
        if bool_decide (region_param_upper ∈ valid_regions) then region_param_upper
        else default_region
      else default_region
  | None => default_region
  end.

End Region.

(** *** utils.get_popular_movies and utils.get_popular_tv_shows *)

Definition NEWS_GENRE_ID : Z := 10763.
Definition TALK_GENRE_ID : Z := 10767.

(** A row of the movie table with the rows of its [streaming_info]
    relation. *)
Record MovieRow : Type := mkMovieRow {
  mr_movie : Movie;
  mr_streaming_info : list ProviderInfo
}.

(** A row of the show table with the TMDB ids of its genres and the rows of
    its [streaming_info] relation. *)
Record TVShowRow : Type := mkTVShowRow {
  tr_show : TVShow;
  tr_genres : list Z;
  tr_streaming_info : list ProviderInfo
}.

(** [filter(streaming_info__region=region)]: some related row is of the
    region. *)
Definition in_region (selected_region : string) (streaming_info : list ProviderInfo) : bool :=
  existsb (λ provider_info, String.eqb (region provider_info) selected_region) streaming_info.

(** [filter(streaming_info__provider__tmdb_id__in=ids)]: a second [filter]
    call, so the related row it finds need not be the one of the region. *)
Definition has_provider (selected_provider_ids : list Z) (streaming_info : list ProviderInfo)
    : bool :=
  existsb (λ provider_info,
      bool_decide (tmdb_id (provider provider_info) ∈ selected_provider_ids))
    streaming_info.

(** [Prefetch('streaming_info', queryset=....filter(region=region),
    to_attr='providers_list')] *)
Definition prefetch (selected_region : string) (b : BaseContent)
    (streaming_info : list ProviderInfo) : BaseContent :=
  mkBaseContent (bc_tmdb_id b) (bc_title b) (bc_overview b) (bc_poster_path b)
    (bc_popularity b) (bc_rating b) (bc_vote_count b)
    (List.filter (λ provider_info, String.eqb (region provider_info) selected_region)
       streaming_info).

(** utils.get_popular_movies; [limit] is not used. *)
Definition get_popular_movies (table : list MovieRow) (selected_region : string) (limit : Z)
    (selected_provider_ids : list Z) : list Movie :=
  let movies_qs := List.filter (λ r, in_region selected_region (mr_streaming_info r)) table in
  let movies_qs :=
    if nonempty selected_provider_ids
    then List.filter (λ r, has_provider selected_provider_ids (mr_streaming_info r)) movies_qs
    else movies_qs in
  (λ r, mkMovie (prefetch selected_region (movie_base (mr_movie r)) (mr_streaming_info r))
          (release_date (mr_movie r)) (runtime (mr_movie r)))
    <$> movies_qs.

(** utils.get_popular_tv_shows; a show with the news genre or with the talk
    genre is excluded. *)
Definition get_popular_tv_shows (table : list TVShowRow) (selected_region : string)
    (limit : Z) (selected_provider_ids : list Z) : list TVShow :=
  let tv_shows_qs :=
    List.filter (λ r, negb (bool_decide (NEWS_GENRE_ID ∈ tr_genres r)
                            || bool_decide (TALK_GENRE_ID ∈ tr_genres r)))
      table in
  let tv_shows_qs :=
    List.filter (λ r, in_region selected_region (tr_streaming_info r)) tv_shows_qs in
  let tv_shows_qs :=
    if nonempty selected_provider_ids
    then List.filter (λ r, has_provider selected_provider_ids (tr_streaming_info r)) tv_shows_qs
    else tv_shows_qs in
  (λ r, mkTVShow (prefetch selected_region (tv_base (tr_show r)) (tr_streaming_info r))
          (first_air_date (tr_show r)) (last_air_date (tr_show r)))
    <$> tv_shows_qs.

Definition INITIAL_FETCH_LIMIT : Z := 3000.

(** The loop of views.popular over [request.GET.getlist('provider')]: a
    parameter that passes the digit test is converted with [int()]. *)
Definition parse_provider_ids (selected_provider_ids_str : list string) : res (list Z) :=
  for_each (λ selected_provider_ids pid_str,
      if isdigit pid_str then
        pid ← int_of_str pid_str;
        Ok (selected_provider_ids ++ [pid])
      else Ok selected_provider_ids)
    selected_provider_ids_str [].

Section View.
Context (MEDIA_URL : string) (upper : string → string).

(** The [try] block of views.popular, from the parameters of the request
    to the page: the region parameter, the provider parameters and the page
    parameter.  The queries for the filter form that follow the pagination
    are left out. *)
Definition popular_try (movie_table : list MovieRow) (tv_table : list TVShowRow)
    (region_param : option string) (selected_provider_ids_str : list string)
    (watchlist_ids : list string) (page_number : pyarg)
    : res (Pagination.Page ContentDict) :=
  let selected_region := get_validated_region upper region_param in
  selected_provider_ids ← parse_provider_ids selected_provider_ids_str;
  let movies_qs :=
    get_popular_movies movie_table selected_region INITIAL_FETCH_LIMIT selected_provider_ids in
  let tv_shows_qs :=
    get_popular_tv_shows tv_table selected_region INITIAL_FETCH_LIMIT selected_provider_ids in
  popular MEDIA_URL movies_qs tv_shows_qs watchlist_ids page_number.

(** views.popular: the page handed to the template, or [None] on the error
    page of the [except] block.  That block converts the provider
    parameters again, outside any [try]: an exception there leaves the
    view. *)
Definition popular_page (movie_table : list MovieRow) (tv_table : list TVShowRow)
    (region_param : option string) (selected_provider_ids_str : list string)
    (watchlist_ids : list string) (page_number : pyarg)
    : res (option (Pagination.Page ContentDict)) :=
  match popular_try movie_table tv_table region_param selected_provider_ids_str
          watchlist_ids page_number with
  | Ok page_obj => Ok (Some page_obj)
  | Raise _ =>
      error_selected_ids ← parse_provider_ids selected_provider_ids_str;
      Ok None
  end.

End View.

(** *** Vocabulary for the statements about the provider buckets *)

(** The entry [_extract_providers_for_item] makes of a row. *)
Definition provider_data_of (provider_info : ProviderInfo) : ProviderData :=
  mkProviderData (name (provider provider_info))
    (get_provider_logo_url (logo_path (provider provider_info)))
    (tmdb_id (provider provider_info)).

(** The entries of the rows of one offer type, in the order of the rows. *)
Definition offers (offer : string) (l : list ProviderInfo) : list ProviderData :=
  provider_data_of <$> List.filter (λ provider_info, String.eqb (type provider_info) offer) l.

(** The offer types the update command writes and the model allows. *)
Definition offer_types : list string := ["flatrate"; "rent"; "buy"].

(** Two catalogue tables: a movie offered in the US and in Norway, and two
    shows offered in the US, one of them a talk show. *)
Definition example_movie_table : list MovieRow :=
  [mkMovieRow (mkMovie (example_content 101 10 8) None None)
     [mkProviderInfo (mkStreamingProvider "Netflix" 8 (Some "/netflix.jpg")) "US" "flatrate";
      mkProviderInfo (mkStreamingProvider "Viaplay" 76 (Some "viaplay.jpg")) "NO" "rent"]].

Definition example_tv_table : list TVShowRow :=
  [mkTVShowRow (mkTVShow (example_content 201 50 9) None None) [18]
     [mkProviderInfo (mkStreamingProvider "Netflix" 8 (Some "/netflix.jpg")) "US" "buy"];
   mkTVShowRow (mkTVShow (example_content 202 100 6) None None) [10767]
     [mkProviderInfo (mkStreamingProvider "Netflix" 8 (Some "/netflix.jpg")) "US" "flatrate"]].

End Content.

(** ** tmdb_client.py *)

Module Tmdb.

(** [s.lower()] on ASCII. *)
Definition lower_ascii (c : ascii) : ascii :=
  let n := nat_of_ascii c in
  if ((65 <=? n)%nat && (n <=? 90)%nat)%bool then ascii_of_nat (n + 32) else c.

Fixpoint lower (s : string) : string :=
  match s with
  | EmptyString => EmptyString
  | String c s' => String (lower_ascii c) (lower s')
  end.

(** [sub in s] on strings. *)
Fixpoint contains (sub s : string) : bool :=
  if String.prefix sub s then true
  else match s with
       | EmptyString => false
       | String _ s' => contains sub s'
       end.

(** [x.lower()]: a str method. *)
Definition py_lower (x : json) : res string :=
  match x with JStr s => Ok (lower s) | _ => Raise AttributeError end.

(** [x[0]] *)
Definition py_first (x : json) : res json :=
  match x with
  | JList (v :: _) => Ok v
  | JList [] => Raise IndexError
  | JStr s => match chars s with v :: _ => Ok v | [] => Raise IndexError end
  | JDict _ => Raise KeyError
  | _ => Raise TypeError
  end.

(** [x[:3]] *)
Definition py_first_three (x : json) : res json :=
  match x with
  | JList l => Ok (JList (take 3 l))
  | JStr s => Ok (JStr (String.substring 0 3 s))
  | _ => Raise TypeError
  end.

(** [len(x)] *)
Definition py_len (x : json) : res Z :=
  match x with
  | JList l => Ok (Z.of_nat (length l))
  | JDict d => Ok (Z.of_nat (length d))
  | JStr s => Ok (Z.of_nat (String.length s))
  | _ => Raise TypeError
  end.

(** The key a value has in a [set]: [True], [1] and [1.0] are the same
    member, lists and dicts are unhashable. *)
Inductive hkey : Type :=
| HNone
| HInt (z : Z)
| HFloat (q : Qc)
| HStr (s : string).

Global Instance hkey_eq_dec : EqDecision hkey.
Proof. solve_decision. Defined.

Definition py_hash (v : json) : res hkey :=
  match v with
  | JNull => Ok HNone
  | JBool b => Ok (HInt (if b then 1 else 0))
  | JInt z => Ok (HInt z)
  | JFloat q => Ok (if Qden q =? 1 then HInt (Qnum q) else HFloat q)%positive
  | JStr s => Ok (HStr s)
  | JList _ | JDict _ => Raise TypeError
  end.

(** A request: the endpoint and the query parameters. *)
Definition request : Type := string * list (string * json).

(** The JSON [search] returns. *)
Record SearchResults : Type := mkSearchResults {
  query : string;
  results : list json
}.

Definition no_results_item : json :=
  JDict [("title", JStr "No results found"); ("poster_path", JNull);
         ("id", JInt 0); ("media_type", JStr "movie");
         ("overview", JStr "No description available.");
         ("popularity", JInt 0); ("rating", JInt 0); ("vote_count", JInt 0)].

(** [TMDBClient.PROVIDER_URLS]: for each provider its [base_url] and its
    [search_url].  Every [search_url] ends with its one field, [{title}],
    and is held without it. *)
Definition PROVIDER_URLS : list (string * (string * string)) :=
  [("Netflix", ("https://www.netflix.com/no/", "https://www.netflix.com/search?q="));
   ("HBO Max", ("https://www.hbomax.com/no/en",
                "https://www.hbomax.com/no/en/search?query="));
   ("Disney Plus", ("https://www.disneyplus.com/no/",
                    "https://www.disneyplus.com/search?q="));
   ("Viaplay", ("https://viaplay.no/", "https://viaplay.no/search?query="));
   ("Amazon Prime Video", ("https://www.primevideo.com/",
                           "https://www.primevideo.com/search/?phrase="));
   ("Apple TV Plus", ("https://tv.apple.com/no", "https://tv.apple.com/no/search?term="));
   ("TV 2 Play", ("https://play.tv2.no/", "https://play.tv2.no/programmer?q="))].

(** [s.replace(' ', '+')] *)
Fixpoint replace_spaces (s : string) : string :=
  match s with
  | EmptyString => EmptyString
  | String c s' => String (if Ascii.eqb c " " then "+"%char else c) (replace_spaces s')
  end.

(** [d[k] = v] on an insertion-ordered dict: a key that is there keeps its
    place. *)
Fixpoint assoc_set (k : string) (v : json) (d : list (string * json))
    : list (string * json) :=
  match d with
  | [] => [(k, v)]
  | (k', v') :: d' => if String.eqb k k' then (k, v) :: d' else (k', v') :: assoc_set k v d'
  end.

(** [x[k] = v] for a string key. *)
Definition py_setitem (x : json) (k : string) (v : json) : res json :=
  match x with
  | JDict d => Ok (JDict (assoc_set k v d))
  | _ => Raise TypeError
  end.

(** One pass of the de-duplication loop of [search]. *)
Definition dedup_step (acc : list json * list hkey) (it : json)
    : res (list json * list hkey) :=
  let '(unique_results, seen_ids) := acc in
  item_id ← py_get it "id";
  if truthy item_id then
    k ← py_hash item_id;
    if bool_decide (k ∈ seen_ids) then Ok acc
    else Ok (unique_results ++ [it], seen_ids ++ [k])
  else Ok acc.

Section Client.
(** [_make_request]: the cache in front of the upstream API.  An answer is
    cached under its endpoint and parameters and a failure propagates to the
    caller of the client, so during one call of the client a request has one
    outcome: the JSON body, or the exception of [requests]. *)
Context (_make_request : request → res json).

Definition _transform_collection_details (collection_details : json) : res json :=
  movies ← py_get_default collection_details "parts" (JList []);
  n ← py_len movies;
  Ok (JDict [("page", JInt 1); ("total_results", JInt n);
             ("total_pages", JInt 1); ("results", movies)]).

Definition get_collection_movies (query : string) : res json :=
  collection_search ← _make_request ("search/collection", [("query", JStr query)]);
  found ← py_get collection_search "results";
  if negb (truthy found) then Ok (JDict [])
  else
    colls ← (r ← py_index collection_search "results"; py_iter r);
    matching_collections ←
      for_each (λ acc coll,
          nm ← (n ← py_get_default coll "name" (JStr ""); py_lower n);
          Ok (if contains (lower query) nm then acc ++ [coll] else acc))
        colls [];
    chosen_collection ←
      match matching_collections with
      | c :: _ => Ok c
      | [] => r ← py_index collection_search "results"; py_first r
      end;
    collection_id ← py_index chosen_collection "id";
    collection_details ← _make_request ("collection/" +:+ py_str collection_id, []);
    _transform_collection_details collection_details.

Definition keyword_search (query : string) : res json :=
  keyword_search ← _make_request ("search/keyword", [("query", JStr query)]);
  found ← py_get keyword_search "results";
  if negb (truthy found) then Ok (JDict [])
  else
    top_keywords ← (r ← py_index keyword_search "results"; py_first_three r);
    keywords ← py_iter top_keywords;
    results ←
      for_each (λ (_ : option json) keyword,
          keyword_id ← py_index keyword "id";
          r ← _make_request ("discover/movie", [("with_keywords", keyword_id)]);
          Ok (Some r))
        keywords None;
    match results with
    | Some r => Ok r
    | None => Raise UnboundLocalError
    end.

(** What [search] appends for one sub-search: nothing unless the sub-result
    is truthy and has a truthy ["results"], else the members of that value. *)
Definition extend_with (aggregated : list json) (sub_result : json) : res (list json) :=
  if truthy sub_result then
    found ← py_get sub_result "results";
    if truthy found then
      more ← py_iter found;
      Ok (aggregated ++ more)
    else Ok aggregated
  else Ok aggregated.

Definition search (query : string) (search_type : string) (page : Z)
    : res SearchResults :=
  if negb (bool_decide (search_type ∈ ["movie"; "tv"; "multi"])) then Raise ValueError
  else
    let aggregated := [] in
    collection_result ← get_collection_movies query;
    aggregated ← extend_with aggregated collection_result;
    keyword_result ← keyword_search query;
    aggregated ← extend_with aggregated keyword_result;
    title_search ←
      _make_request ("search/" +:+ search_type,
                     [("query", JStr query); ("page", JInt page)]);
    aggregated ← extend_with aggregated title_search;
    '(unique_results, _) ← for_each dedup_step aggregated ([], []);
    match unique_results with
    | [] => Ok (mkSearchResults query [no_results_item])
    | _ => Ok (mkSearchResults query unique_results)
    end.

(** [TMDBClient.get_provider_url]: the key of [PROVIDER_URLS.get] has to be
    hashable, and [title.replace] is a str method. *)
Definition get_provider_url (provider_name title : json) : res json :=
  k ← py_hash provider_name;
  match k with
  | HStr provider_name =>
      match assoc provider_name PROVIDER_URLS with
      | Some (base_url, search_url) =>
          if negb (String.eqb search_url "") then
            match title with
            | JStr title => Ok (JStr (search_url +:+ replace_spaces title))
            | _ => Raise AttributeError
            end
          else Ok (JStr base_url)
      | None => Ok (JStr "")
      end
  | _ => Ok (JStr "")
  end.

(** The local function [process_providers] of [process_content_item]. *)
Definition process_providers (title provider_list : json) : res (list json) :=
  if negb (truthy provider_list) then Ok []
  else
    ps ← py_iter provider_list;
    for_each (λ acc p,
        provider_name ← py_get p "provider_name";
        if truthy provider_name then
          logo_path ← py_get p "logo_path";
          if truthy logo_path then
            provider_url ← get_provider_url provider_name title;
            Ok (acc ++ [JDict [("provider_name", provider_name); ("logo_path", logo_path);
                               ("provider_url", provider_url)]])
          else Ok acc
        else Ok acc)
      ps [].

(** The [try] block of [TMDBClient.process_content_item]. *)
Definition content_item (item : json) (region : string) : res json :=
  media_type ← py_get_default item "media_type" (JStr "movie");
  media_id ← py_get item "id";
  name ← py_get_default item "name" (JStr "");
  title ← py_get_default item "title" name;
  let endpoint := py_str media_type +:+ "/" +:+ py_str media_id in
  details ← _make_request (endpoint, [("append_to_response", JStr "credits")]);
  let streaming_info :=
    match (providers ← _make_request (endpoint +:+ "/watch/providers", []);
           results ← py_get_default providers "results" (JDict []);
           py_get_default results region (JDict [])) with
    | Ok streaming_info => streaming_info
    | Raise _ => JDict []
    end in
  flatrate ← py_get_default streaming_info "flatrate" (JList []);
  flatrate_providers ← process_providers title flatrate;
  rent ← py_get_default streaming_info "rent" (JList []);
  rent_providers ← process_providers title rent;
  poster_path ← py_get item "poster_path";
  overview ← py_get_default item "overview" (JStr "No description available.");
  popularity ← py_get_default item "popularity" (JInt 0);
  rating ← py_get_default details "vote_average" (JInt 0);
  vote_count ← py_get_default details "vote_count" (JInt 0);
  Ok (JDict
        [("title", title);
         ("poster_url",
          if truthy poster_path
          then JStr ("https://image.tmdb.org/t/p/w500" +:+ py_str poster_path)
          else JNull);
         ("id", media_id);
         ("media_type", media_type);
         ("overview", overview);
         ("popularity", popularity);
         ("rating", rating);
         ("vote_count", vote_count);
         ("streaming_providers",
          JDict [("flatrate", JList flatrate_providers); ("rent", JList rent_providers);
                 ("available",
                  JBool (match flatrate_providers, rent_providers with
                         | [], [] => false
                         | _, _ => true
                         end))])]).

(** The [except] block of [TMDBClient.process_content_item]. *)
Definition unavailable_item (item : json) : res json :=
  name ← py_get_default item "name" (JStr "Unknown Title");
  title ← py_get_default item "title" name;
  media_id ← py_get_default item "id" (JInt 0);
  media_type ← py_get_default item "media_type" (JStr "unknown");
  Ok (JDict
        [("title", title);
         ("poster_url", JNull);
         ("id", media_id);
         ("media_type", media_type);
         ("overview", JStr "Information unavailable.");
         ("popularity", JInt 0);
         ("rating", JInt 0);
         ("vote_count", JInt 0);
         ("streaming_providers",
          JDict [("flatrate", JList []); ("rent", JList []); ("available", JBool false)])]).

(** [TMDBClient.process_content_item] *)
Definition process_content_item (item : json) (region : string) : res json :=
  match content_item item region with
  | Ok result => Ok result
  | Raise _ => unavailable_item item
  end.

(** One pass of the loop of views.search: the result to append, if any. *)
Definition search_result (region : string) (item : json) : res (option json) :=
  media_type ← py_get item "media_type";
  if match media_type with
     | JStr s => String.eqb s "movie" || String.eqb s "tv"
     | _ => false
     end
  then
    result ← process_content_item item region;
    media_id ← py_index result "id";
    result ← py_setitem result "id" (JStr (py_str media_id));
    Ok (Some result)
  else Ok None.

(** The loop of views.search; an exception ends it, and the results
    appended so far stay. *)
Fixpoint search_results (region : string) (items : list json) (acc : list json)
    : list json :=
  match items with
  | [] => acc
  | item :: items' =>
      match search_result region item with
      | Ok (Some result) => search_results region items' (acc ++ [result])
      | Ok None => search_results region items' acc
      | Raise _ => acc
      end
  end.

(** views.search, from the query and the region to the list handed to the
    template, with the credentials of the client set. *)
Definition search_view (query region : string) : list json :=
  if String.eqb query "" then []
  else
    match search query "multi" 1 with
    | Ok response => search_results region (results response) []
    | Raise _ => []
    end.

End Client.

(** *** Vocabulary for the statements about [search] *)

(** The id under which [search] remembers an item: the truthy, hashable
    value of its ["id"]. *)
Definition item_key (it : json) : option hkey :=
  match py_get it "id" with
  | Ok v => if truthy v then
              match py_hash v with Ok k => Some k | Raise _ => None end
            else None
  | Raise _ => None
  end.







(** *** Example upstreams *)

Definition movie_item (i : Z) (title : string) : json :=
  JDict [("id", JInt i); ("title", JStr title)].

Definition results_body (items : list json) : json :=
  JDict [("page", JInt 1); ("results", JList items)].

Definition example_keywords : list json :=
  [JDict [("id", JInt 31); ("name", JStr "matrix")];
   JDict [("id", JInt 32); ("name", JStr "simulation")]].

(** The upstream of the repository's search test, spelled out per endpoint:
    one collection with one member, two keywords with one movie each, and a
    title search that repeats the member of the collection. *)
Definition example_api : request → res json := λ '(endpoint, params),
  if String.eqb endpoint "search/collection" then
    Ok (results_body [JDict [("id", JInt 10); ("name", JStr "The Matrix Collection")]])
  else if String.eqb endpoint "collection/10" then
    Ok (JDict [("id", JInt 10); ("parts", JList [movie_item 1 "Collection Movie"])])
  else if String.eqb endpoint "search/keyword" then
    Ok (results_body example_keywords)
  else if String.eqb endpoint "discover/movie" then
    match assoc "with_keywords" params with
    | Some (JInt 31) => Ok (results_body [movie_item 3 "Keyword Movie 0"])
    | Some (JInt 32) => Ok (results_body [movie_item 2 "Keyword Movie 1"])
    | _ => Raise RequestException
    end
  else if String.eqb endpoint "search/movie" then
    Ok (results_body [movie_item 1 "Collection Movie"; movie_item 4 "Matrix"])
  else Raise RequestException.


End Tmdb.

(** ** models.py: friend requests *)

Module Social.

(** A user is referred to by primary key. *)
Definition user : Type := Z.

(** models.FriendRequest *)
Record FriendRequest : Type := mkFriendRequest {
  pk : Z;
  from_user : user;
  to_user : user;
  status : string
}.

(** The tables the friend operations read and write. *)
Record db : Type := mkDb {
  users : list user;
  friend_requests : list FriendRequest
}.

(** The next value of the auto-increment primary key. *)
Definition next_pk (rows : list FriendRequest) : Z :=
  1 + foldr Z.max 0 (pk <$> rows).

(** [(Q(from_user=a) & Q(to_user=b)) | (Q(from_user=b) & Q(to_user=a))] *)
Definition between (a b : user) (r : FriendRequest) : bool :=
  ((from_user r =? a) && (to_user r =? b)) || ((from_user r =? b) && (to_user r =? a)).

(** [FriendRequest.objects.create(from_user=a, to_user=b)]: status defaults
    to ['pending']; [unique_together = ('from_user', 'to_user')]. *)
Definition create (a b : user) (d : db) : res unit * db :=
  if existsb (λ r, (from_user r =? a) && (to_user r =? b)) (friend_requests d)
  then (Raise IntegrityError, d)
  else (Ok (),
        mkDb (users d)
          (friend_requests d ++ [mkFriendRequest (next_pk (friend_requests d)) a b "pending"])).

(** [User.send_friend_request] *)
Definition send_friend_request (self to : user) (d : db) : res bool * db :=
  if self =? to then (Ok false, d)
  else
    match List.filter (between self to) (friend_requests d) with
    | _ :: _ => (Ok false, d)
    | [] =>
        match create self to d with
        | (Ok _, d') => (Ok true, d')
        | (Raise e, d') => (Raise e, d')
        end
    end.

(** [objects.get] over the rows that match the lookup. *)
Definition get {R} (matching : list R) : res R :=
  match matching with
  | [] => Raise DoesNotExist
  | [r] => Ok r
  | _ => Raise MultipleObjectsReturned
  end.

(** [request.save()]: the row with that primary key is overwritten. *)
Definition save (r : FriendRequest) (d : db) : db :=
  mkDb (users d)
    ((λ r', if pk r' =? pk r then r else r') <$> friend_requests d).

Definition set_status (new_status : string) (self from : user) (d : db)
    : res bool * db :=
  match get (List.filter
               (λ r, (from_user r =? from) && (to_user r =? self)
                     && String.eqb (status r) "pending")
               (friend_requests d)) with
  | Ok request =>
      let request :=
        mkFriendRequest (pk request) (from_user request) (to_user request) new_status in
      (Ok true, save request d)
  | Raise DoesNotExist => (Ok false, d)
  | Raise e => (Raise e, d)
  end.

(** [User.accept_friend_request] *)
Definition accept_friend_request (self from : user) (d : db) : res bool * db :=
  set_status "accepted" self from d.

(** [User.reject_friend_request] *)
Definition reject_friend_request (self from : user) (d : db) : res bool * db :=
  set_status "rejected" self from d.

(** [User.unfriend] *)
Definition unfriend (self other : user) (d : db) : bool * db :=
  let rows :=
    List.filter (λ r, negb (between self other r && String.eqb (status r) "accepted"))
      (friend_requests d) in
  let rows := List.filter (λ r, negb (between self other r)) rows in
  (true, mkDb (users d) rows).

(** [User.get_friends] *)
Definition get_friends (self : user) (d : db) : list user :=
  let accepted_sent :=
    to_user <$> List.filter
      (λ r, (from_user r =? self) && String.eqb (status r) "accepted")
      (friend_requests d) in
  let accepted_received :=
    from_user <$> List.filter
      (λ r, (to_user r =? self) && String.eqb (status r) "accepted")
      (friend_requests d) in
  let friend_ids := accepted_sent ++ accepted_received in
  List.filter (λ u, bool_decide (u ∈ friend_ids)) (users d).

(** [User.get_pending_requests] *)
Definition get_pending_requests (self : user) (d : db) : list FriendRequest :=
  List.filter (λ r, (to_user r =? self) && String.eqb (status r) "pending")
    (friend_requests d).

(** A well-formed table of requests: the primary keys are distinct and two
    users have at most one row between them, in either direction. *)
Definition well_formed (d : db) : Prop :=
  NoDup (pk <$> friend_requests d)
  ∧ ∀ a b, (length (List.filter (between a b) (friend_requests d)) ≤ 1)%nat.

(** A request of user 1 that user 2 has not answered yet. *)
Definition pending_db : db :=
  mkDb [1; 2; 3] [mkFriendRequest 1 1 2 "pending"].

(** Three users; the third has befriended the first. *)
Definition example_db : db :=
  mkDb [1; 2; 3] [mkFriendRequest 1 3 1 "accepted"].

End Social.

(** ** views.profile_view: counters and badges *)

Module Badges.

Definition user : Type := Z.

(** models.WatchedMovie *)
Record WatchedMovie : Type := mkWatchedMovie {
  wm_user : user;
  media_id : string;
  media_type : string;
  rating : option Z;
  runtime : option Z;
  review : option string
}.

(** models.Badge *)
Record Badge : Type := mkBadge {
  badge_pk : Z;
  badge_name : string;
  requirement_count : Z;
  requirement_type : string
}.

(** models.UserBadge *)
Record UserBadge : Type := mkUserBadge {
  ub_user : user;
  ub_badge : Z
}.

Global Instance UserBadge_eq_dec : EqDecision UserBadge.
Proof. solve_decision. Defined.

Record db : Type := mkDb {
  watched_movies : list WatchedMovie;
  badges : list Badge;
  user_badges : list UserBadge
}.

(** [qs.count()] after a filter. *)
Definition count {R} (p : R → bool) (rows : list R) : Z :=
  Z.of_nat (length (List.filter p rows)).

Definition is_type (t : string) (w : WatchedMovie) : bool :=
  String.eqb (media_type w) t.

Definition runtime_isnull (w : WatchedMovie) : bool :=
  match runtime w with None => true | Some _ => false end.

(** [qs.aggregate(total=Sum('runtime'))['total']]: [None] over no rows. *)
Definition sum_runtime (rows : list WatchedMovie) : option Z :=
  match rows with
  | [] => None
  | _ => Some (foldr Z.add 0 (omap runtime rows))
  end.

(** The counters of [profile_view]. *)
Record counters : Type := mkCounters {
  watched_movie_count : Z;
  watched_tv_count : Z;
  reviews_written : Z;
  total_watch_minutes : Z;
  total_watch_hours : Z;
  remaining_minutes : Z
}.

Definition compute_counters (u : user) (d : db) : counters :=
  let watched_items := List.filter (λ w, wm_user w =? u) (watched_movies d) in
  let watched_movie_count := count (is_type "movie") watched_items in
  let watched_tv_count := count (is_type "tv") watched_items in
  let total_watch_minutes :=
    match sum_runtime (List.filter (λ w, negb (runtime_isnull w)) watched_items) with
    | Some total => if total =? 0 then 0 else total
    | None => 0
    end in
  let items_without_runtime := List.filter runtime_isnull watched_items in
  let movies_without_runtime := count (is_type "movie") items_without_runtime in
  let tv_without_runtime := count (is_type "tv") items_without_runtime in
  let estimated_minutes := movies_without_runtime * 120 + tv_without_runtime * 400 in
  let total_watch_minutes := total_watch_minutes + estimated_minutes in
  let total_watch_hours := total_watch_minutes / 60 in
  let remaining_minutes := total_watch_minutes mod 60 in
  let reviews_written :=
    count (λ w, match review w with Some r => negb (String.eqb r "") | None => false end)
      watched_items in
  mkCounters watched_movie_count watched_tv_count reviews_written
    total_watch_minutes total_watch_hours remaining_minutes.

(** [UserBadge.objects.get_or_create(user=u, badge=badge)] *)
Definition get_or_create (u : user) (badge : Badge) (d : db) : res unit * db :=
  match List.filter (λ ub, (ub_user ub =? u) && (ub_badge ub =? badge_pk badge))
          (user_badges d) with
  | [] =>
      (Ok (), mkDb (watched_movies d) (badges d)
                (user_badges d ++ [mkUserBadge u (badge_pk badge)]))
  | [_] => (Ok (), d)
  | _ => (Raise MultipleObjectsReturned, d)
  end.

(** [Badge.objects.filter(requirement_type=t).order_by('requirement_count')] *)
Definition badges_of_type (t : string) (d : db) : list Badge :=
  py_sort requirement_count Z.lt
    (List.filter (λ b, String.eqb (requirement_type b) t) (badges d)).

(** One of the four award loops. *)
Fixpoint award_loop (u : user) (counter : Z) (bs : list Badge) (d : db) : res unit * db :=
  match bs with
  | [] => (Ok (), d)
  | badge :: bs' =>
      if counter >=? requirement_count badge then
        match get_or_create u badge d with
        | (Ok _, d') => award_loop u counter bs' d'
        | (Raise e, d') => (Raise e, d')
        end
      else award_loop u counter bs' d
  end.

Definition then_ (m : res unit * db) (k : db → res unit * db) : res unit * db :=
  match m with
  | (Ok _, d) => k d
  | (Raise e, d) => (Raise e, d)
  end.

(** The badge evaluator, for given values of the four counters.  The four
    querysets are lazy: each is evaluated when its loop starts. *)
Definition award_badges (u : user)
    (watched_movie_count watched_tv_count reviews_written total_watch_hours : Z)
    (d : db) : res unit * db :=
  then_ (award_loop u watched_movie_count (badges_of_type "movies_watched" d) d) (λ d,
  then_ (award_loop u watched_tv_count (badges_of_type "tv_shows_watched" d) d) (λ d,
  then_ (award_loop u reviews_written (badges_of_type "reviews_written" d) d) (λ d,
  award_loop u total_watch_hours (badges_of_type "watch_hours" d) d))).

(** The evaluator as [profile_view] runs it. *)
Definition evaluate_badges (u : user) (d : db) : res unit * db :=
  let c := compute_counters u d in
  award_badges u (watched_movie_count c) (watched_tv_count c)
    (reviews_written c) (total_watch_hours c) d.

(** The watch time in the words of the specification: every watched entry
    counts its stored runtime, or 120 minutes for a movie and 400 minutes
    for a TV show when it has none; the minutes are converted to hours. *)
Definition entry_minutes (w : WatchedMovie) : Z :=
  match runtime w with
  | Some minutes => minutes
  | None =>
      if String.eqb (media_type w) "movie" then 120
      else if String.eqb (media_type w) "tv" then 400
      else 0
  end.

Definition spec_watch_hours (u : user) (d : db) : Z :=
  foldr Z.add 0 (entry_minutes <$> List.filter (λ w, wm_user w =? u) (watched_movies d)) / 60.

(** The grant rows [get_or_create(user=u, badge=k)] looks at. *)
Definition grants_of (u : user) (k : Z) (d : db) : list UserBadge :=
  List.filter (λ ub, (ub_user ub =? u) && (ub_badge ub =? k)) (user_badges d).

(** A badge whose threshold the counter of its kind has reached. *)
Definition earned (movies shows reviews hours : Z) (b : Badge) : Prop :=
  (requirement_type b = "movies_watched" ∧ requirement_count b ≤ movies)
  ∨ (requirement_type b = "tv_shows_watched" ∧ requirement_count b ≤ shows)
  ∨ (requirement_type b = "reviews_written" ∧ requirement_count b ≤ reviews)
  ∨ (requirement_type b = "watch_hours" ∧ requirement_count b ≤ hours).

(** What a step of the evaluator may do to the database: the grants so far
    stay where they are, the other tables are untouched. *)
Definition extends (d d' : db) : Prop :=
  watched_movies d' = watched_movies d
  ∧ badges d' = badges d
  ∧ user_badges d `prefix_of` user_badges d'.

(** A viewer with three watched entries and a bronze badge, and a second
    viewer. *)
Definition example_db : db :=
  mkDb
    [mkWatchedMovie 1 "603" "movie" (Some 5) (Some 150) (Some "great");
     mkWatchedMovie 1 "604" "movie" None None None;
     mkWatchedMovie 1 "1399" "tv" None None (Some "");
     mkWatchedMovie 2 "605" "movie" None (Some 90) None]
    [mkBadge 7 "Movie Buff" 10 "movies_watched";
     mkBadge 8 "First Steps" 1 "movies_watched";
     mkBadge 9 "Marathon" 10 "watch_hours"]
    [mkUserBadge 1 7].

End Badges.

(** ** management/commands/update_watch_providers.py *)

Module Providers.

(** models.StreamingProvider *)
Record StreamingProvider : Type := mkStreamingProvider {
  sp_pk : Z;
  sp_name : string;
  sp_tmdb_id : Z;
  sp_logo_path : string;
  sp_display_priority : Z
}.

(** models.MovieProvider and models.TVShowProvider: the content item and the
    provider are foreign keys, held by primary key.  The four columns are
    [unique_together] and make up the availability tuple; the row's own
    primary key and its [updated_at] stamp are not read by the code and are
    left out. *)
Record Availability : Type := mkAvailability {
  content : Z;
  provider : Z;
  region : string;
  type : string
}.

Global Instance Availability_eq_dec : EqDecision Availability.
Proof. solve_decision. Defined.

(** The two availability tables. *)
Inductive table : Set := MovieProvider | TVShowProvider.

(** The database connection: the tables, and the flag Django sets when a
    statement fails inside an atomic block. *)
Record conn : Type := mkConn {
  streaming_providers : list StreamingProvider;
  movie_providers : list Availability;
  tvshow_providers : list Availability;
  needs_rollback : bool
}.

Definition rows (t : table) (c : conn) : list Availability :=
  match t with
  | MovieProvider => movie_providers c
  | TVShowProvider => tvshow_providers c
  end.

Definition set_rows (t : table) (l : list Availability) (c : conn) : conn :=
  match t with
  | MovieProvider =>
      mkConn (streaming_providers c) l (tvshow_providers c) (needs_rollback c)
  | TVShowProvider =>
      mkConn (streaming_providers c) (movie_providers c) l (needs_rollback c)
  end.

Definition set_streaming_providers (l : list StreamingProvider) (c : conn) : conn :=
  mkConn l (movie_providers c) (tvshow_providers c) (needs_rollback c).

Definition set_needs_rollback (b : bool) (c : conn) : conn :=
  mkConn (streaming_providers c) (movie_providers c) (tvshow_providers c) b.

Definition mark_for_rollback : conn → conn := set_needs_rollback true.

(** Code that runs against the connection and can raise. *)
Definition M (A : Type) : Type := conn → res A * conn.

Global Instance M_ret : MRet M := λ _ a c, (Ok a, c).
Global Instance M_bind : MBind M := λ _ _ f m c,
  match m c with
  | (Ok a, c') => f a c'
  | (Raise e, c') => (Raise e, c')
  end.

Definition lift {A} (r : res A) : M A := λ c, (r, c).

Definition raise {A} (e : exn) : M A := λ c, (Raise e, c).

(** [try: body  except Exception as e: handler] *)
Definition try_except {A} (body : M A) (handler : exn → M A) : M A := λ c,
  match body c with
  | (Ok a, c') => (Ok a, c')
  | (Raise e, c') => handler e c'
  end.

(** [@transaction.atomic] as the outermost block: the flag is reset on
    entry; the writes are committed when the block is left without an
    exception and the connection is not marked for rollback, and undone
    otherwise. *)
Definition atomic {A} (body : M A) : M A := λ c,
  let c := set_needs_rollback false c in
  match body c with
  | (Ok a, c') => if needs_rollback c' then (Ok a, c) else (Ok a, c')
  | (Raise e, _) => (Raise e, c)
  end.

(** [for x in xs: body] *)
Fixpoint for_ {X} (body : X → M unit) (xs : list X) : M unit :=
  match xs with
  | [] => mret ()
  | x :: xs' => _ ← body x; for_ body xs'
  end.

(** The value an [IntegerField] sends to the database. *)
Definition to_int_field (v : json) : res (option Z) :=
  match v with
  | JNull => Ok None
  | JBool b => Ok (Some (if b then 1 else 0))
  | JInt z => Ok (Some z)
  | JFloat q => Ok (Some (Z.quot (Qnum q) (Zpos (Qden q))))
  | JStr s => z ← int_of_str s; Ok (Some z)
  | JList _ | JDict _ => Raise TypeError
  end.

(** The value a [CharField] sends to the database. *)
Definition to_char_field (v : json) : option string :=
  match v with
  | JNull => None
  | _ => Some (py_str v)
  end.

Definition next_pk (l : list StreamingProvider) : Z :=
  1 + foldr Z.max 0 (sp_pk <$> l).

(** [StreamingProvider.objects.get_or_create(tmdb_id=..., defaults={...})].
    The insert runs in a savepoint of its own, so its failure leaves the
    enclosing block unmarked; every column is [NOT NULL]. *)
Definition StreamingProvider_get_or_create (tmdb_id name logo_path display_priority : json)
    : M StreamingProvider := λ c,
  match to_int_field tmdb_id with
  | Raise e => (Raise e, c)
  | Ok lookup =>
      match List.filter (λ p, bool_decide (Some (sp_tmdb_id p) = lookup))
              (streaming_providers c) with
      | [p] => (Ok p, c)
      | _ :: _ :: _ => (Raise MultipleObjectsReturned, c)
      | [] =>
          match to_int_field display_priority with
          | Raise e => (Raise e, c)
          | Ok priority =>
              match lookup, to_char_field name, to_char_field logo_path, priority with
              | Some i, Some n, Some l, Some d =>
                  let p := mkStreamingProvider (next_pk (streaming_providers c)) n i l d in
                  (Ok p, set_streaming_providers (streaming_providers c ++ [p]) c)
              | _, _, _, _ => (Raise IntegrityError, c)
              end
          end
      end
  end.

(** [Command.get_or_create_provider] *)
Definition get_or_create_provider (provider_data : json) : M StreamingProvider :=
  tmdb_id ← lift (py_index provider_data "provider_id");
  name ← lift (py_index provider_data "provider_name");
  logo_path ← lift (py_get_default provider_data "logo_path" (JStr ""));
  display_priority ← lift (py_get_default provider_data "display_priority" (JInt 0));
  StreamingProvider_get_or_create tmdb_id name logo_path display_priority.

(** [MovieProvider.objects.filter(movie=movie).delete()] *)
Definition delete_for (t : table) (item : Z) : M unit := λ c,
  (Ok (), set_rows t (List.filter (λ r, negb (content r =? item)) (rows t c)) c).

(** [MovieProvider.objects.create(movie=..., provider=..., region=..., type=...)]:
    a row that breaks [unique_together] raises and marks the block. *)
Definition create (t : table) (item : Z) (p : StreamingProvider) (region type : string)
    : M unit := λ c,
  let row := mkAvailability item (sp_pk p) region type in
  if bool_decide (row ∈ rows t c) then (Raise IntegrityError, mark_for_rollback c)
  else (Ok (), set_rows t (rows t c ++ [row]) c).

Definition ALLOWED_REGIONS : list string := ["NO"; "US"; "GB"; "DE"; "FR"; "SE"; "DK"].

(** [d.items()] *)
Definition py_items (x : json) : res (list (string * json)) :=
  match x with
  | JDict d => Ok d
  | _ => Raise AttributeError
  end.

(** One of the three loops over an offer type of a region. *)
Definition process_offers (t : table) (item : Z) (region : string) (region_data : json)
    (offer : string) : M unit :=
  offers ← lift (l ← py_get_default region_data offer (JList []); py_iter l);
  for_ (λ provider_data,
      provider ← get_or_create_provider provider_data;
      create t item provider region offer)
    offers.

Definition process_region (t : table) (item : Z) (entry : string * json) : M unit :=
  let '(region, region_data) := entry in
  if negb (bool_decide (region ∈ ALLOWED_REGIONS)) then mret ()
  else
    _ ← process_offers t item region region_data "flatrate";
    _ ← process_offers t item region region_data "rent";
    process_offers t item region region_data "buy".

(** The [try] block of [update_movie_providers] and [update_tv_providers]. *)
Definition replace_rows (t : table) (item : Z) (providers_data : json) : M bool :=
  _ ← delete_for t item;
  regions ← lift (py_items providers_data);
  _ ← for_ (process_region t item) regions;
  mret true.

Definition update_providers (t : table) (item : Z) (providers_data : json) : M bool :=
  atomic (try_except (replace_rows t item providers_data) (λ _, mret false)).

(** [Command.update_movie_providers] *)
Definition update_movie_providers : Z → json → M bool := update_providers MovieProvider.

(** [Command.update_tv_providers] *)
Definition update_tv_providers : Z → json → M bool := update_providers TVShowProvider.

(** A content item of the batch: primary key and TMDB id. *)
Record Item : Type := mkItem {
  item_pk : Z;
  item_tmdb_id : Z
}.

Section Handle.
(** [Command.fetch_watch_providers]: every failure is caught there and
    answered with the empty dict. *)
Context (fetch_watch_providers : string → Z → json).

(** One of the two loops of [Command.handle], over the items in the order of
    the queryset; the state is the pair of counters [(updated, skipped)]. *)
Fixpoint handle_loop (t : table) (media_type : string) (items : list Item)
    (counts : Z * Z) : conn → (Z * Z) * conn := λ c,
  match items with
  | [] => (counts, c)
  | it :: items' =>
      let providers_data := fetch_watch_providers media_type (item_tmdb_id it) in
      let '(updated, skipped) := counts in
      if truthy providers_data then
        match update_providers t (item_pk it) providers_data c with
        | (Ok true, c') => handle_loop t media_type items' (updated + 1, skipped) c'
        | (_, c') => handle_loop t media_type items' (updated, skipped + 1) c'
        end
      else handle_loop t media_type items' (updated, skipped + 1) c
  end.

End Handle.

(** The availability rows of one content item. *)
Definition rows_of (t : table) (item : Z) (c : conn) : list Availability :=
  List.filter (λ r, content r =? item) (rows t c).

(** *** Vocabulary for the statements about the refresh *)

(** [replace_rows] after its first statement. *)
Definition after_delete (t : table) (item : Z) (providers_data : json) : M bool :=
  regions ← lift (py_items providers_data);
  _ ← for_ (process_region t item) regions;
  mret true.

(** The providers with a given [tmdb_id], as [get_or_create] looks them up. *)
Definition lookup (k : option Z) (l : list StreamingProvider) : list StreamingProvider :=
  List.filter (λ p, bool_decide (Some (sp_tmdb_id p) = k)) l.

(** Every lookup that finds something in [l] finds the same in [l']. *)
Definition preserved (l l' : list StreamingProvider) : Prop :=
  ∀ k, lookup k l ≠ [] → lookup k l' = lookup k l.

Definition other (t : table) : table :=
  match t with MovieProvider => TVShowProvider | TVShowProvider => MovieProvider end.

(** What the loops of an update of [item] in table [t] may do to the rows:
    the other table and the rows of other items stay, and the rows of
    [item] stay free of duplicates. *)
Definition frame (t : table) (item : Z) (c c' : conn) : Prop :=
  rows (other t) c' = rows (other t) c
  ∧ List.filter (λ r, negb (content r =? item)) (rows t c')
    = List.filter (λ r, negb (content r =? item)) (rows t c)
  ∧ (NoDup (rows_of t item c) → NoDup (rows_of t item c')).

(** A step can be replayed against the provider table a run leaves behind:
    it keeps the lookups that succeed, respects [frame], and, started again
    with a provider table that preserves the one it produced, it ends with
    the same outcome and the same rows and adds no provider. *)
Definition stable {A} (t : table) (item : Z) (m : M A) : Prop :=
  ∀ c r c', m c = (r, c') →
    preserved (streaming_providers c) (streaming_providers c')
    ∧ frame t item c c'
    ∧ match r with
      | Ok _ =>
          ∀ l, preserved (streaming_providers c') l →
            m (set_streaming_providers l c) = (r, set_streaming_providers l c')
      | Raise _ =>
          m (set_streaming_providers (streaming_providers c') c) = (r, c')
      end.

(** *** The rows a response lists *)

(** The provider entries a region lists under an offer type. *)
Definition listed_offers (region_data : json) (offer : string) : list json :=
  match (l ← py_get_default region_data offer (JList []); py_iter l) with
  | Ok offers => offers
  | Raise _ => []
  end.

(** The primary key under which the provider table [l] holds the one
    provider with the id of an entry. *)
Definition provider_pk (l : list StreamingProvider) (provider_data : json) : option Z :=
  match (v ← py_index provider_data "provider_id"; to_int_field v) with
  | Ok k => match lookup k l with [p] => Some (sp_pk p) | _ => None end
  | Raise _ => None
  end.

(** The row of an entry, for the providers of [l]. *)
Definition offer_row (l : list StreamingProvider) (item : Z) (region offer : string)
    (provider_data : json) : option Availability :=
  (λ pk, mkAvailability item pk region offer) <$> provider_pk l provider_data.

(** The rows of a region: its flatrate entries, its rent entries and its
    buy entries, each in the order of the response; nothing for a region
    that is not allowed. *)
Definition region_rows (l : list StreamingProvider) (item : Z) (entry : string * json)
    : list Availability :=
  if bool_decide (entry.1 ∈ ALLOWED_REGIONS) then
    omap (offer_row l item entry.1 "flatrate") (listed_offers entry.2 "flatrate")
    ++ omap (offer_row l item entry.1 "rent") (listed_offers entry.2 "rent")
    ++ omap (offer_row l item entry.1 "buy") (listed_offers entry.2 "buy")
  else [].

(** The availability rows a response lists for an item, region after
    region in the order of the response. *)
Definition response_rows (l : list StreamingProvider) (item : Z) (providers_data : json)
    : list Availability :=
  match providers_data with
  | JDict d => concat (region_rows l item <$> d)
  | _ => []
  end.

(** A step that does not raise appends to the table [t] the rows [expected]
    gives for any provider table that preserves the one it leaves, and
    leaves the connection unmarked if it was. *)
Definition writes {A} (t : table) (m : M A) (expected : list StreamingProvider → list Availability)
    : Prop :=
  ∀ c a c', m c = (Ok a, c') →
    preserved (streaming_providers c) (streaming_providers c')
    ∧ needs_rollback c' = needs_rollback c
    ∧ ∀ l, preserved (streaming_providers c') l → rows t c' = rows t c ++ expected l.

(** A property of the connection that a step keeps, whatever its outcome. *)
Definition preserves {A} (I : conn → Prop) (m : M A) : Prop :=
  ∀ c r c', m c = (r, c') → I c → I c'.

(** A row the update command writes: an allowed region and one of the three
    offer types. *)
Definition allowed_row (r : Availability) : Prop :=
  region r ∈ ALLOWED_REGIONS ∧ type r ∈ ["flatrate"; "rent"; "buy"].

(** The provider table respects its keys: [tmdb_id] is unique, and so is
    the primary key. *)
Definition providers_unique (c : conn) : Prop :=
  NoDup (sp_tmdb_id <$> streaming_providers c)
  ∧ NoDup (sp_pk <$> streaming_providers c).

(** The state in which the loops of an update start: the connection is
    unmarked and the rows of the item are deleted. *)
Definition start_of_update (t : table) (item : Z) (c : conn) : conn :=
  set_rows t
    (List.filter (λ r, negb (content r =? item)) (rows t (set_needs_rollback false c)))
    (set_needs_rollback false c).

(** *** Example data *)

Definition netflix : json :=
  JDict [("logo_path", JStr "/netflix.jpg"); ("provider_id", JInt 8);
         ("provider_name", JStr "Netflix"); ("display_priority", JInt 0)].

Definition hbo_max : json :=
  JDict [("logo_path", JStr "/hbo.jpg"); ("provider_id", JInt 384);
         ("provider_name", JStr "HBO Max"); ("display_priority", JInt 3)].

(** An entry without ["provider_id"]. *)
Definition nameless : json :=
  JDict [("logo_path", JStr "/x.jpg"); ("provider_name", JStr "Mystery")].

Definition complete_response : json :=
  JDict [("US", JDict [("link", JStr "https://www.themoviedb.org/movie/603/watch");
                       ("flatrate", JList [netflix; hbo_max]);
                       ("buy", JList [netflix])]);
         ("JP", JDict [("flatrate", JList [netflix])])].

(** The second flatrate entry of the US lacks its id. *)
Definition broken_response : json :=
  JDict [("US", JDict [("flatrate", JList [netflix; nameless; hbo_max])])].

(** The same provider twice under one offer. *)
Definition repeated_response : json :=
  JDict [("US", JDict [("flatrate", JList [netflix; netflix])])].

Definition disney : StreamingProvider :=
  mkStreamingProvider 1 "Disney Plus" 337 "/disney.jpg" 0.

(** Two movies (primary keys 42 and 43), each available on Disney Plus. *)
Definition example_conn : conn :=
  mkConn [disney]
    [mkAvailability 42 1 "US" "flatrate"; mkAvailability 43 1 "US" "rent"]
    [] false.

(** Movie 43 has TMDB id 603 and a complete response, movie 42 has TMDB id
    604 and the broken one. *)
Definition example_batch : list Item := [mkItem 43 603; mkItem 42 604].

Definition example_fetch : string → Z → json := λ _ tmdb_id,
  if tmdb_id =? 603 then complete_response else broken_response.

End Providers.

(** * Theorems *)

(** ** Pagination *)

Module PaginationFacts.
Import Pagination.

Section Facts.
Context {A : Type}.
Implicit Types (items : list A) (pp k : Z).
Local Abbreviation len items := (Z.of_nat (length items)).

Lemma py_int_raises arg e :
  py_int arg = Raise e → e = TypeError ∨ e = ValueError.
Proof.
  destruct arg as [z|s|]; simpl; [discriminate| |intros [= <-]; by left].
  unfold int_of_str. intros H. right.
  repeat case_match; simplify_eq; done.
Qed.

Lemma pages_of_pos n pp : 1 ≤ pp → 1 ≤ pages_of n pp.
Proof.
  intros Hpp. unfold pages_of.
  assert ((- Z.max 1 n) / pp < 0); [|lia].
  apply Z.div_lt_upper_bound; lia.
Qed.

Lemma pages_of_last n pp : 1 ≤ pp → (pages_of n pp - 1) * pp < Z.max 1 n.
Proof.
  intros Hpp. unfold pages_of.
  pose proof (Z.div_mod (- Z.max 1 n) pp ltac:(lia)) as Hdm.
  pose proof (Z.mod_pos_bound (- Z.max 1 n) pp ltac:(lia)) as Hb.
  nia.
Qed.

Lemma num_pages_new items pp :
  1 ≤ pp → num_pages (new_paginator items pp) = Ok (pages_of (len items) pp).
Proof.
  intros Hpp. unfold num_pages, ceil_div, count; simpl.
  rewrite andb_false_r. destruct (Z.eqb_spec pp 0); [lia|].
  unfold pages_of. do 3 f_equal. lia.
Qed.

Lemma slice_page items pp k :
  1 ≤ pp → 1 ≤ k → (k - 1) * pp < Z.max 1 (len items) →
  let bottom := (k - 1) * pp in
  let top := bottom + pp in
  py_slice items bottom
    (if top + 0 >=? Z.of_nat (length items) then Z.of_nat (length items) else top)
  = page_items items pp k.
Proof.
  intros Hpp Hk Hlt bottom top. unfold py_slice, page_items, slice_bound.
  fold bottom. assert (0 ≤ bottom) by (unfold bottom; nia).
  destruct (Z.ltb_spec bottom 0); [lia|].
  rewrite (Z.min_l bottom) by lia.
  destruct (Z.geb_spec (top + 0) (len items)).
  - destruct (Z.ltb_spec (Z.of_nat (length items)) 0); [lia|].
    rewrite Z.min_id.
    rewrite !take_ge; [done|..]; rewrite length_drop; unfold top in *; lia.
  - destruct (Z.ltb_spec top 0); [lia|].
    do 2 f_equal; unfold top in *; lia.
Qed.

Lemma page_in_range items pp k :
  1 ≤ pp → 1 ≤ k ≤ pages_of (len items) pp →
  page (new_paginator items pp) (PyInt k) = Ok (mkPage (page_items items pp k) k).
Proof.
  intros Hpp [Hk1 Hk2]. unfold page, validate_number. simpl.
  destruct (Z.ltb_spec k 1); [lia|].
  rewrite num_pages_new by done. simpl.
  destruct (Z.gtb_spec k (pages_of (len items) pp)); [lia|]. simpl.
  unfold count; simpl. f_equal. f_equal.
  apply slice_page; [done..|].
  pose proof (pages_of_last (len items) pp Hpp). nia.
Qed.

Lemma page_not_integer items pp arg e :
  py_int arg = Raise e → page (new_paginator items pp) arg = Raise PageNotAnInteger.
Proof.
  intros H. unfold page, validate_number. rewrite H.
  by destruct (py_int_raises _ _ H) as [-> | ->].
Qed.

Lemma page_empty items pp arg n :
  1 ≤ pp → py_int arg = Ok n → n < 1 ∨ pages_of (len items) pp < n →
  page (new_paginator items pp) arg = Raise EmptyPage.
Proof.
  intros Hpp H Hn. unfold page, validate_number. rewrite H.
  destruct (Z.ltb_spec n 1); [done|].
  rewrite num_pages_new by done. simpl.
  destruct (Z.gtb_spec n (pages_of (len items) pp)); [done|lia].
Qed.

Lemma page_valid items pp arg n :
  1 ≤ pp → py_int arg = Ok n → 1 ≤ n ≤ pages_of (len items) pp →
  page (new_paginator items pp) arg = Ok (mkPage (page_items items pp n) n).
Proof.
  intros Hpp H Hn. rewrite <- (page_in_range items pp n) by done.
  unfold page, validate_number. by rewrite H.
Qed.

(** The three outcomes of [paginate_results], by the value of the argument. *)
Lemma paginate_results_cases items pp arg :
  1 ≤ pp →
  let np := pages_of (len items) pp in
  paginate_results items arg pp =
    match py_int arg with
    | Raise _ => Ok (mkPage (page_items items pp 1) 1)
    | Ok n =>
        if ((1 <=? n) && (n <=? np))%bool
        then Ok (mkPage (page_items items pp n) n)
        else Ok (mkPage (page_items items pp np) np)
    end.
Proof.
  intros Hpp np. unfold paginate_results.
  pose proof (pages_of_pos (len items) pp Hpp) as Hnp. fold np in Hnp.
  destruct (py_int arg) as [n|e] eqn:Harg.
  - destruct (Z.leb_spec 1 n); simpl; [destruct (Z.leb_spec n np); simpl|].
    + by rewrite (page_valid items pp arg n).
    + rewrite (page_empty items pp arg n) by (done || (right; fold np; lia)).
      rewrite num_pages_new by done. simpl. by apply page_in_range; [|fold np; lia].
    + rewrite (page_empty items pp arg n) by (done || (left; lia)).
      rewrite num_pages_new by done. simpl. by apply page_in_range; [|fold np; lia].
  - rewrite (page_not_integer items pp arg e) by done.
    by apply page_in_range; [|fold np; lia].
Qed.

(** C3: with a positive page size, [paginate_results] never raises and clamps:
    an argument [int()] rejects gives page 1, a number above the page count
    gives the last page, and 0 gives a page inside the valid range.  What
    [int()] rejects is stated for the arguments of the model: an [int],
    [None], or a str of ASCII characters. *)
Theorem paginate_results_clamps items pp :
  1 ≤ pp →
  let np := pages_of (len items) pp in
  (∀ arg e, ascii_arg arg → py_int arg = Raise e →
     paginate_results items arg pp = Ok (mkPage (page_items items pp 1) 1))
  ∧ (∀ arg n, py_int arg = Ok n → np < n →
     paginate_results items arg pp = Ok (mkPage (page_items items pp np) np))
  ∧ (∃ pg, paginate_results items (PyInt 0) pp = Ok pg
       ∧ 1 ≤ number pg ≤ np
       ∧ page_object_list pg = page_items items pp (number pg))
  ∧ (∀ arg, ∃ pg, paginate_results items arg pp = Ok pg ∧ 1 ≤ number pg ≤ np).
Proof.
  intros Hpp np.
  pose proof (pages_of_pos (len items) pp Hpp) as Hnp. fold np in Hnp.
  repeat split.
  - intros arg e _ H. rewrite paginate_results_cases by done. by rewrite H.
  - intros arg n H Hn. rewrite paginate_results_cases by done. rewrite H.
    fold np. destruct (Z.leb_spec n np); [lia|]. by rewrite andb_false_r.
  - exists (mkPage (page_items items pp np) np).
    rewrite paginate_results_cases by done. simpl. fold np. repeat split; lia.
  - intros arg. rewrite paginate_results_cases by done. fold np.
    destruct (py_int arg) as [n|e]; [|eexists; split; [done|simpl; lia]].
    destruct (Z.leb_spec 1 n), (Z.leb_spec n np); simpl;
      (eexists; split; [done|simpl; lia]).
Qed.

(** C10: a page number that is zero or negative selects the last page. *)
Theorem paginate_results_nonpositive_last items pp arg n :
  1 ≤ pp → py_int arg = Ok n → n ≤ 0 →
  let np := pages_of (len items) pp in
  paginate_results items arg pp = Ok (mkPage (page_items items pp np) np).
Proof.
  intros Hpp H Hn np. rewrite paginate_results_cases by done. rewrite H.
  by destruct (Z.leb_spec 1 n); [lia|].
Qed.

End Facts.

Lemma paginate_results_clamps_witness :
  1 ≤ 10
  ∧ paginate_results thirty (PyStr "abc") 10 = Ok (mkPage (Z.of_nat <$> seq 0 10) 1)
  ∧ paginate_results thirty (PyStr (String (ascii_of_nat 28) "5")) 10
    = Ok (mkPage (Z.of_nat <$> seq 0 10) 1)
  ∧ paginate_results thirty (PyInt 5) 10 = Ok (mkPage (Z.of_nat <$> seq 20 10) 3).
Proof.
  assert (H : 1 ≤ 10) by lia.
  destruct (paginate_results_clamps thirty 10 H) as (Hstr & Hhigh & _).
  split; [exact H|]. split; [|split].
  - exact (Hstr (PyStr "abc") ValueError eq_refl eq_refl).
  - exact (Hstr (PyStr (String (ascii_of_nat 28) "5")) ValueError eq_refl eq_refl).
  - refine (Hhigh (PyInt 5) 5 eq_refl _). vm_compute. reflexivity.
Defined.

Lemma paginate_results_nonpositive_last_witness :
  paginate_results thirty (PyStr "0") 10 = Ok (mkPage (Z.of_nat <$> seq 20 10) 3)
  ∧ paginate_results thirty (PyInt (-4)) 10 = Ok (mkPage (Z.of_nat <$> seq 20 10) 3).
Proof.
  split.
  - refine (paginate_results_nonpositive_last thirty 10 (PyStr "0") 0 _ eq_refl _); lia.
  - refine (paginate_results_nonpositive_last thirty 10 (PyInt (-4)) (-4) _ eq_refl _); lia.
Defined.

(** A page argument that is a separator character and a digit is no numeral
    for [int()]: it gives page 1, not the last page. *)
Example separator_is_not_stripped :
  py_int (PyStr (String (ascii_of_nat 28) "0")) = Raise ValueError
  ∧ paginate_results thirty (PyStr (String (ascii_of_nat 28) "0")) 10
    = Ok (mkPage (Z.of_nat <$> seq 0 10) 1).
Proof. split; reflexivity. Qed.

(** A numeral of 4301 digits is refused. *)
Example long_numeral_is_refused :
  int_of_str (String.string_of_list_ascii (repeat "1"%char 4301)) = Raise ValueError
  ∧ ∃ n, int_of_str (String.string_of_list_ascii (repeat "1"%char 4300)) = Ok n.
Proof. split; [by vm_compute|]. eexists. by vm_compute. Qed.

End PaginationFacts.

(** ** Sorting *)

Section PySortFacts.
Context {A K : Type} (key : A → K) (lt : K → K → Prop) `{!RelDecision lt}.

(** [lt] behaves like [<] on a total order with ties. *)
Hypothesis lt_asym : ∀ a b, lt a b → ¬ lt b a.
Hypothesis lt_negtrans : ∀ a b c, ¬ lt a b → ¬ lt b c → ¬ lt a c.

Local Abbreviation ins := (insert_by key (λ kx ky, bool_decide (lt kx ky))).
Local Abbreviation descending := (descending key lt).

Lemma insert_by_perm x l : ins x l ≡ₚ x :: l.
Proof.
  induction l as [|y l IH]; simpl; [done|].
  case_bool_decide; [|done]. rewrite IH. apply Permutation_swap.
Qed.

Lemma insert_by_descending x l : descending l → descending (ins x l).
Proof.
  induction 1 as [|y l Hl IH Hy]; simpl.
  - repeat constructor.
  - case_bool_decide as Hxy.
    + constructor; [done|].
      rewrite (insert_by_perm x l). constructor; [by apply lt_asym | done].
    + constructor; [by constructor|].
      constructor; [done|].
      eapply Forall_impl; [exact Hy|]. intros z Hz. by eapply lt_negtrans.
Qed.

Lemma py_sort_reverse_perm l : py_sort_reverse key lt l ≡ₚ l.
Proof.
  induction l as [|x l IH]; simpl; [done|].
  fold (py_sort_reverse key lt l). by rewrite (insert_by_perm x), IH.
Qed.

Lemma py_sort_reverse_descending l : descending (py_sort_reverse key lt l).
Proof.
  induction l as [|x l IH]; simpl; [constructor|].
  by apply insert_by_descending.
Qed.

(** In a descending list a record strictly above another one comes first. *)
Lemma descending_precedes l i j a b :
  descending l → l !! i = Some a → l !! j = Some b →
  lt (key b) (key a) → (i < j)%nat.
Proof.
  intros Hl Ha Hb Hlt.
  destruct (decide (i < j)%nat) as [|Hge]; [done|]. exfalso.
  destruct (decide (i = j)) as [->|Hne].
  - rewrite Ha in Hb. injection Hb as ->. by eapply lt_asym.
  - assert (j < i)%nat as Hji by lia.
    revert i j Ha Hb Hji Hge Hne.
    induction Hl as [|y l Hl IH Hy]; intros i j Ha Hb Hji _ _; [done|].
    destruct j as [|j]; destruct i as [|i]; try lia; simpl in *.
    + injection Hb as ->. rewrite Forall_forall in Hy.
      apply (Hy a); [|done]. by eapply list_elem_of_lookup_2.
    + apply (IH i j); [done..|lia|lia|lia].
Qed.

End PySortFacts.

(** ** The content pipeline *)

Module ContentFacts.
Import Content.

(** Order facts on [Qc], through [lra] on the underlying fractions. *)
Ltac qc_order :=
  repeat match goal with
         | H : @eq Qc ?x ?y |- _ =>
             assert (this x == this y)%Q by (rewrite H; apply Qeq_refl); clear H
         end;
  unfold Qclt, Qcle in *; lra.

Lemma tuple_lt_asym a b : tuple_lt a b → ¬ tuple_lt b a.
Proof. unfold tuple_lt. intros [?|[??]] [?|[??]]; qc_order. Qed.

Lemma tuple_lt_negtrans a b c : ¬ tuple_lt a b → ¬ tuple_lt b c → ¬ tuple_lt a c.
Proof.
  unfold tuple_lt. intros Hab Hbc Hac.
  destruct (Qc_dec a.1 b.1) as [[?|?]|?]; [by apply Hab; left| |].
  - destruct (Qc_dec b.1 c.1) as [[?|?]|?]; [by apply Hbc; left| |];
      destruct Hac as [?|[??]]; qc_order.
  - destruct (Qc_dec b.1 c.1) as [[?|?]|?]; [by apply Hbc; left| |].
    + destruct Hac as [?|[??]]; qc_order.
    + destruct (Qclt_le_dec a.2 b.2); [by apply Hab; right|].
      destruct (Qclt_le_dec b.2 c.2); [by apply Hbc; right|].
      destruct Hac as [?|[??]]; qc_order.
Qed.

Lemma mapM_res_total {X Y} (f : X → res Y) (l : list X) :
  Forall (λ x, ∃ y, f x = Ok y) l → ∃ ys, mapM f l = Ok ys.
Proof.
  induction 1 as [|x l [y Hy] _ [ys Hys]]; simpl; [by eexists|].
  exists (y :: ys). rewrite Hy. simpl. by rewrite Hys.
Qed.

Lemma mapM_res_inv {X Y} (f : X → res Y) (l : list X) (ys : list Y) :
  mapM f l = Ok ys → Forall2 (λ x y, f x = Ok y) l ys.
Proof.
  revert ys. induction l as [|x l IH]; intros ys; simpl.
  - intros [= <-]. constructor.
  - destruct (f x) as [y|] eqn:Hy; simpl; [|done].
    destruct (mapM f l) as [ys'|]; simpl; [|done].
    intros [= <-]. constructor; [done|]. by apply IH.
Qed.

Section Pipeline.
Context (MEDIA_URL : string).
Implicit Types (movies_qs : list Movie) (tv_shows_qs : list TVShow).

Lemma add_providers_ok (l : list ProviderInfo) (acc : Providers) :
  Forall (λ provider_info, type provider_info ≠ "available") l →
  ∃ providers, for_each add_provider l acc = Ok providers.
Proof.
  intros Hall. revert acc. induction Hall as [|x l Hx _ IH]; intros acc; simpl; [by eexists|].
  assert (∃ acc', add_provider acc x = Ok acc') as [acc' ->]; [|apply IH].
  unfold add_provider.
  destruct (String.eqb_spec (type x) "available") as [Heq|_]; [done|].
  repeat case_match; eauto.
Qed.

Lemma process_content_item_ok (it : item) watchlist_ids (media : string) :
  groupable (base it) →
  (media = "movie" ∧ (∃ m, it = IMovie m)) ∨ media = "tv" →
  ∃ d, process_content_item MEDIA_URL it watchlist_ids media = Ok d.
Proof.
  intros Hg Hmedia. unfold process_content_item, _extract_providers_for_item.
  destruct (add_providers_ok _ empty_providers Hg) as [providers ->]. simpl.
  destruct Hmedia as [[-> [m ->]]| ->]; simpl; by eexists.
Qed.

(** C1: the list [popular] hands to the paginator holds the processed movies
    and shows, ordered by (popularity, rating) from high to low: a record
    with higher popularity comes first, and with equal popularity the one
    with the higher rating comes first.  The list is produced whenever no
    availability row has the type ['available']. *)
Theorem popular_sorted_by_popularity_then_rating movies_qs tv_shows_qs watchlist_ids :
  (∀ dicts,
     all_content_dicts MEDIA_URL movies_qs tv_shows_qs watchlist_ids = Ok dicts →
     ∃ movies shows,
       Forall2 (λ m d, process_content_item MEDIA_URL (IMovie m) watchlist_ids "movie" = Ok d)
         movies_qs movies
       ∧ Forall2 (λ t d, process_content_item MEDIA_URL (ITV t) watchlist_ids "tv" = Ok d)
           tv_shows_qs shows
       ∧ dicts ≡ₚ movies ++ shows
       ∧ ∀ i j a b, dicts !! i = Some a → dicts !! j = Some b →
           ((popularity b < popularity a)%Qc → (i < j)%nat)
           ∧ (popularity a = popularity b → (rating b < rating a)%Qc → (i < j)%nat))
  ∧ (Forall (λ m, groupable (movie_base m)) movies_qs →
     Forall (λ t, groupable (tv_base t)) tv_shows_qs →
     ∃ dicts, all_content_dicts MEDIA_URL movies_qs tv_shows_qs watchlist_ids = Ok dicts).
Proof.
  split.
  - intros dicts Hrun. unfold all_content_dicts in Hrun.
    destruct (mapM _ movies_qs) as [movies|] eqn:Hm; simpl in Hrun; [|done].
    destruct (mapM _ tv_shows_qs) as [shows|] eqn:Ht; simpl in Hrun; [|done].
    injection Hrun as <-. exists movies, shows.
    split; [by apply mapM_res_inv in Hm|]. split; [by apply mapM_res_inv in Ht|].
    split; [apply py_sort_reverse_perm|].
    intros i j a b Ha Hb.
    pose proof (py_sort_reverse_descending sort_key tuple_lt
                  tuple_lt_asym tuple_lt_negtrans (movies ++ shows)) as Hsorted.
    split.
    + intros Hlt.
      eapply (descending_precedes sort_key tuple_lt); eauto using tuple_lt_asym.
      by left.
    + intros Heq Hlt.
      eapply (descending_precedes sort_key tuple_lt); eauto using tuple_lt_asym.
      by right.
  - intros Hmovies Hshows. unfold all_content_dicts.
    destruct (mapM_res_total
                (λ it, process_content_item MEDIA_URL (IMovie it) watchlist_ids "movie")
                movies_qs) as [movies ->].
    { eapply Forall_impl; [exact Hmovies|]. intros m Hg.
      apply process_content_item_ok; [done|]. left. eauto. }
    destruct (mapM_res_total
                (λ it, process_content_item MEDIA_URL (ITV it) watchlist_ids "tv")
                tv_shows_qs) as [shows ->].
    { eapply Forall_impl; [exact Hshows|]. intros t Hg.
      apply process_content_item_ok; [done|]. by right. }
    simpl. by eexists.
Qed.

End Pipeline.

(** The example of the specification: a movie with popularity 100 and rating
    7, a show with popularity 100 and rating 6 and a show with popularity 50
    and rating 9 come out in that order. *)
Example popular_sorts_the_three :
  (λ d, (id d, media_type d)) <$>
    default [] (match all_content_dicts "/media/" example_movies example_shows [] with
                | Ok l => Some l | Raise _ => None end)
  = [("102", "movie"); ("202", "tv"); ("201", "tv"); ("101", "movie")].
Proof. vm_compute. reflexivity. Qed.

End ContentFacts.

(** ** Friend requests *)

Module SocialFacts.
Import Social.

Lemma filter_none {X} (p : X → bool) (l : list X) :
  Forall (λ x, p x = false) l → List.filter p l = [].
Proof. induction 1 as [|x l Hx _ IH]; simpl; [done|]. by rewrite Hx. Qed.

Lemma send_creates_pending (a b : user) (d : db) :
  a ≠ b → Forall (λ r, between a b r = false) (friend_requests d) →
  send_friend_request a b d =
    (Ok true,
     mkDb (users d)
       (friend_requests d ++ [mkFriendRequest (next_pk (friend_requests d)) a b "pending"])).
Proof.
  intros Hab Hnone. unfold send_friend_request, create.
  destruct (Z.eqb_spec a b); [done|].
  rewrite (filter_none _ _ Hnone).
  assert (existsb (λ r, (from_user r =? a) && (to_user r =? b)) (friend_requests d) = false)
    as ->; [|done].
  apply not_true_is_false. rewrite existsb_exists. intros (r & Hin & Hr).
  rewrite Forall_forall in Hnone. apply list_elem_of_In, Hnone in Hin.
  unfold between in Hin. rewrite Hr in Hin. done.
Qed.

Lemma accept_pending (a b : user) (rows : list FriendRequest) (us : list user) (k : Z) :
  Forall (λ r, between a b r = false) rows →
  accept_friend_request b a (mkDb us (rows ++ [mkFriendRequest k a b "pending"])) =
    (Ok true,
     mkDb us
       (((λ r', if pk r' =? k then mkFriendRequest k a b "accepted" else r') <$> rows)
        ++ [mkFriendRequest k a b "accepted"])).
Proof.
  intros Hnone. unfold accept_friend_request, set_status. simpl.
  rewrite List.filter_app. simpl. rewrite !Z.eqb_refl. simpl.
  rewrite filter_none; [simpl|].
  - unfold save. simpl. rewrite fmap_app. simpl. by rewrite Z.eqb_refl.
  - eapply Forall_impl; [exact Hnone|]. intros r Hr. simpl in Hr.
    unfold between in Hr. apply orb_false_elim in Hr as [Hr _].
    by rewrite Hr.
Qed.

Lemma friend_of_accepted (self other : user) (d : db) (r : FriendRequest) :
  r ∈ friend_requests d → status r = "accepted" →
  (from_user r = self ∧ to_user r = other) ∨ (to_user r = self ∧ from_user r = other) →
  other ∈ users d → other ∈ get_friends self d.
Proof.
  intros Hr Hst Hdir Hu. unfold get_friends.
  apply list_elem_of_In, filter_In. split; [by apply list_elem_of_In|].
  apply bool_decide_eq_true. apply elem_of_app.
  destruct Hdir as [[Hf Ht]|[Ht Hf]]; [left|right].
  - apply list_elem_of_fmap. exists r. split; [done|].
    apply list_elem_of_In, filter_In. split; [by apply list_elem_of_In|].
    rewrite Hf, Hst, Z.eqb_refl. done.
  - apply list_elem_of_fmap. exists r. split; [done|].
    apply list_elem_of_In, filter_In. split; [by apply list_elem_of_In|].
    rewrite Ht, Hst, Z.eqb_refl. done.
Qed.

(** C5: for two distinct users with no request row between them, the
    request of A to B is created, B's acceptance succeeds, and afterwards
    each of the two is in the other's friend list. *)
Theorem friend_request_symmetry (a b : user) (d : db) :
  a ≠ b → a ∈ users d → b ∈ users d →
  Forall (λ r, between a b r = false) (friend_requests d) →
  ∃ d1 d2,
    send_friend_request a b d = (Ok true, d1)
    ∧ accept_friend_request b a d1 = (Ok true, d2)
    ∧ b ∈ get_friends a d2
    ∧ a ∈ get_friends b d2.
Proof.
  intros Hab Ha Hb Hnone. eexists _, _.
  split; [by apply send_creates_pending|].
  split; [by apply accept_pending|].
  set (k := next_pk (friend_requests d)).
  split.
  - apply (friend_of_accepted a b _ (mkFriendRequest k a b "accepted")); simpl;
      [apply elem_of_app; right; apply list_elem_of_singleton; done|done|by left|done].
  - apply (friend_of_accepted b a _ (mkFriendRequest k a b "accepted")); simpl;
      [apply elem_of_app; right; apply list_elem_of_singleton; done|done|by right|done].
Qed.

Lemma friend_request_symmetry_witness :
  ∃ d1 d2,
    send_friend_request 1 2 example_db = (Ok true, d1)
    ∧ accept_friend_request 2 1 d1 = (Ok true, d2)
    ∧ 2 ∈ get_friends 1 d2
    ∧ 1 ∈ get_friends 2 d2.
Proof.
  apply (friend_request_symmetry 1 2 example_db).
  - discriminate.
  - repeat constructor.
  - repeat constructor.
  - repeat constructor.
Defined.

End SocialFacts.

(** ** Badges and counters *)

Module BadgesFacts.
Import Badges.

(** *** The evaluator only adds grants *)

Global Instance extends_refl : Reflexive extends.
Proof. by intros d. Qed.

Global Instance extends_trans : Transitive extends.
Proof.
  intros d1 d2 d3 (?&?&?) (?&?&?). repeat split; [congruence..|by etrans].
Qed.

Lemma get_or_create_extends u badge d : extends d (get_or_create u badge d).2.
Proof.
  unfold get_or_create.
  destruct (List.filter _ _) as [|? [|? ?]]; simpl; [|done..].
  repeat split; simpl. by apply prefix_app_r.
Qed.

Lemma award_loop_extends u counter bs d : extends d (award_loop u counter bs d).2.
Proof.
  revert d. induction bs as [|badge bs IH]; intros d; simpl; [done|].
  destruct (counter >=? requirement_count badge); [|done].
  pose proof (get_or_create_extends u badge d) as Hg.
  destruct (get_or_create u badge d) as [[[]|e] d']; simpl in *; [|done].
  by etrans.
Qed.

Lemma then_extends d m k :
  extends d m.2 → (∀ d', extends d' (k d').2) → extends d (then_ m k).2.
Proof.
  intros Hm Hk. destruct m as [[[]|e] d']; simpl in *; [|done].
  by etrans.
Qed.

Lemma award_badges_extends u c1 c2 c3 c4 d :
  extends d (award_badges u c1 c2 c3 c4 d).2.
Proof.
  unfold award_badges.
  repeat (apply then_extends; [apply award_loop_extends|intros ?]).
  apply award_loop_extends.
Qed.

(** C4: a grant that exists is still there after the evaluator has run,
    whatever the four counters are; the evaluator only appends to the table
    of grants. *)
Theorem badge_grants_monotonic u c1 c2 c3 c4 d (grant : UserBadge) :
  grant ∈ user_badges d →
  grant ∈ user_badges (award_badges u c1 c2 c3 c4 d).2
  ∧ user_badges d `prefix_of` user_badges (award_badges u c1 c2 c3 c4 d).2.
Proof.
  intros Hin. destruct (award_badges_extends u c1 c2 c3 c4 d) as (_ & _ & Hpre).
  split; [|done]. destruct Hpre as [k ->]. apply elem_of_app. by left.
Qed.

(** The same for the evaluator as the profile page runs it, with the
    counters it computes from any later state of the watched table. *)
Corollary badge_grants_survive_profile_view u d (grant : UserBadge) :
  grant ∈ user_badges d → grant ∈ user_badges (evaluate_badges u d).2.
Proof.
  intros Hin. unfold evaluate_badges.
  destruct (award_badges_extends u
              (watched_movie_count (compute_counters u d))
              (watched_tv_count (compute_counters u d))
              (reviews_written (compute_counters u d))
              (total_watch_hours (compute_counters u d)) d) as (_ & _ & [k ->]).
  apply elem_of_app. by left.
Qed.

Lemma badge_grants_monotonic_witness :
  mkUserBadge 1 7 ∈ user_badges (award_badges 1 0 0 0 0 example_db).2
  ∧ user_badges example_db `prefix_of` user_badges (award_badges 1 0 0 0 0 example_db).2.
Proof.
  apply (badge_grants_monotonic 1 0 0 0 0 example_db (mkUserBadge 1 7)).
  repeat constructor.
Defined.

(** *** The watch-time counter *)

Lemma sum_runtime_or_0 (l : list WatchedMovie) :
  match sum_runtime l with
  | Some total => if total =? 0 then 0 else total
  | None => 0
  end = foldr Z.add 0 (omap runtime l).
Proof.
  unfold sum_runtime. destruct l as [|w l]; [done|].
  by destruct (Z.eqb_spec (foldr Z.add 0 (omap runtime (w :: l))) 0).
Qed.

Lemma omap_cons_Some {X Y} (f : X → option Y) x y l :
  f x = Some y → omap f (x :: l) = y :: omap f l.
Proof. intros H. simpl. by rewrite H. Qed.

Lemma minutes_by_entry (l : list WatchedMovie) :
  foldr Z.add 0 (omap runtime (List.filter (λ w, negb (runtime_isnull w)) l))
  + (count (is_type "movie") (List.filter runtime_isnull l) * 120
     + count (is_type "tv") (List.filter runtime_isnull l) * 400)
  = foldr Z.add 0 (entry_minutes <$> l).
Proof.
  unfold count. induction l as [|w l IH]; [done|].
  rewrite fmap_cons. cbn [List.filter foldr].
  destruct (runtime w) as [minutes|] eqn:Hr.
  - assert (runtime_isnull w = false) as -> by (unfold runtime_isnull; by rewrite Hr).
    assert (entry_minutes w = minutes) as -> by (unfold entry_minutes; by rewrite Hr).
    cbn [negb]. rewrite (omap_cons_Some _ _ _ _ Hr). cbn [foldr]. lia.
  - assert (runtime_isnull w = true) as -> by (unfold runtime_isnull; by rewrite Hr).
    cbn [negb List.filter].
    assert (entry_minutes w =
            if is_type "movie" w then 120 else if is_type "tv" w then 400 else 0) as ->
      by (unfold entry_minutes; by rewrite Hr).
    destruct (is_type "movie" w) eqn:Hm.
    + assert (is_type "tv" w = false) as ->.
      { unfold is_type in *. apply String.eqb_eq in Hm. by rewrite Hm. }
      cbn [length]. lia.
    + destruct (is_type "tv" w); cbn [length]; lia.
Qed.

(** C9: the watch-time counter the evaluator compares with the thresholds of
    the watch-hours badges is the total of the specification: stored
    runtimes, 120 minutes for a movie and 400 for a show without one, in
    whole hours. *)
Theorem watch_time_counter_is_total_hours u d :
  total_watch_hours (compute_counters u d) = spec_watch_hours u d
  ∧ ∃ movies shows reviews,
      evaluate_badges u d = award_badges u movies shows reviews (spec_watch_hours u d) d.
Proof.
  assert (total_watch_hours (compute_counters u d) = spec_watch_hours u d) as H.
  { unfold compute_counters, spec_watch_hours. simpl.
    by rewrite sum_runtime_or_0, minutes_by_entry. }
  split; [done|]. unfold evaluate_badges. rewrite H. eauto.
Qed.

(** A viewer with a 150 minute movie, a movie and a show without runtime:
    670 minutes, 11 hours. *)
Example watch_time_670_minutes :
  total_watch_minutes (compute_counters 1 example_db) = 670
  ∧ total_watch_hours (compute_counters 1 example_db) = 11.
Proof. by vm_compute. Qed.

End BadgesFacts.

(** ** The TMDB client *)

Module TmdbFacts.
Import Tmdb.

Section Client.
Context (api : request → res json).

(** *** Keyword search *)

(** The request the loop of [keyword_search] sends for one keyword. *)
Local Abbreviation discover_request i := ("discover/movie", [("with_keywords", i)]).

Local Abbreviation discover_body :=
  (λ (_ : option json) keyword,
     keyword_id ← py_index keyword "id";
     r ← api (discover_request keyword_id);
     Ok (Some r)).

Lemma discover_loop_last (keywords : list json) (acc : option json) :
  keywords ≠ [] →
  Forall (λ kw, ∃ i r, py_index kw "id" = Ok i ∧ api (discover_request i) = Ok r)
    keywords →
  ∃ kw i r,
    last keywords = Some kw ∧ py_index kw "id" = Ok i
    ∧ api (discover_request i) = Ok r
    ∧ for_each discover_body keywords acc = Ok (Some r).
Proof.
  intros Hne Hall. revert acc.
  induction Hall as [|kw l (i & r & Hi & Hr) Hall IH]; intros acc; [done|].
  destruct l as [|kw' l].
  - exists kw, i, r. simpl. rewrite Hi. simpl. rewrite Hr. done.
  - destruct (IH ltac:(done) (Some r)) as (kw1 & i1 & r1 & Hlast & Hi1 & Hr1 & Hloop).
    exists kw1, i1, r1. split; [done|]. split; [done|]. split; [done|].
    change (for_each discover_body (kw :: kw' :: l) acc)
      with (s' ← discover_body acc kw; for_each discover_body (kw' :: l) s').
    cbv beta. rewrite Hi. simpl. rewrite Hr. simpl. exact Hloop.
Qed.

(** C8: when the keyword lookup lists at least one keyword and the discover
    requests for the first three succeed, [keyword_search] looks at no more
    than three keywords and returns the discover answer of the last of
    them, as it is. *)
Theorem keyword_search_returns_last (q : string) (body : json) (keywords : list json) :
  api ("search/keyword", [("query", JStr q)]) = Ok body →
  py_index body "results" = Ok (JList keywords) →
  keywords ≠ [] →
  Forall (λ kw, ∃ i r, py_index kw "id" = Ok i ∧ api (discover_request i) = Ok r)
    (take 3 keywords) →
  ∃ kw i r,
    (length (take 3 keywords) ≤ 3)%nat
    ∧ last (take 3 keywords) = Some kw
    ∧ py_index kw "id" = Ok i
    ∧ api (discover_request i) = Ok r
    ∧ keyword_search api q = Ok r.
Proof.
  intros Hbody Hres Hne Hall.
  destruct (discover_loop_last (take 3 keywords) None) as (kw & i & r & Hlast & Hi & Hr & Hloop);
    [by destruct keywords|done|].
  exists kw, i, r. split; [rewrite length_take; lia|]. do 3 (split; [done|]).
  assert (py_get body "results" = Ok (JList keywords)) as Hget.
  { destruct body as [| | | | | |d]; try discriminate. simpl in Hres |- *.
    unfold py_get, py_get_default. by destruct (assoc "results" d); simplify_eq. }
  assert (truthy (JList keywords) = true) as Htruthy by by destruct keywords.
  unfold keyword_search. rewrite Hbody. cbn [mbind res_bind].
  rewrite Hget. cbn [mbind res_bind]. rewrite Htruthy. cbn [negb].
  rewrite Hres. cbn [mbind res_bind py_first_three py_iter].
  rewrite Hloop. done.
Qed.

(** *** Multi search *)




End Client.

(** *** What the first-seen selection keeps *)









Lemma keyword_search_returns_last_witness :
  ∃ kw i r,
    (length (take 3 example_keywords) ≤ 3)%nat
    ∧ last (take 3 example_keywords) = Some kw
    ∧ py_index kw "id" = Ok i
    ∧ example_api ("discover/movie", [("with_keywords", i)]) = Ok r
    ∧ keyword_search example_api "Matrix" = Ok r.
Proof.
  refine (keyword_search_returns_last example_api "Matrix" _ example_keywords
            eq_refl eq_refl _ _).
  - discriminate.
  - repeat constructor; (eexists _, _; split; reflexivity).
Defined.

(** The answer is the one of the second keyword; the movie of the first
    keyword is not in it. *)
Example keyword_search_not_a_union :
  keyword_search example_api "Matrix" = Ok (results_body [movie_item 2 "Keyword Movie 1"]).
Proof. reflexivity. Qed.

End TmdbFacts.

(** ** The provider refresh *)

Module ProvidersFacts.
Import Providers.

(** *** A failure inside the atomic block *)

(** C6, on the code: the second movie of the batch fails on the entry
    without id, after its old row is deleted and one new row is written.
    The exception is caught inside the decorated function, the block is left
    normally and the partial writes are committed: the old row of movie 42
    is gone and the one new row stays.  The rows of movie 43, processed
    before, are committed as well. *)
Lemma failed_update_commits_partial_writes :
  let c := (handle_loop example_fetch MovieProvider "movie" example_batch (0, 0)
              example_conn).2 in
  handle_loop example_fetch MovieProvider "movie" example_batch (0, 0) example_conn
    = ((1, 1), c)
  ∧ rows_of MovieProvider 43 c
    = [mkAvailability 43 2 "US" "flatrate"; mkAvailability 43 3 "US" "flatrate";
       mkAvailability 43 2 "US" "buy"]
  ∧ rows_of MovieProvider 42 example_conn = [mkAvailability 42 1 "US" "flatrate"]
  ∧ rows_of MovieProvider 42 c = [mkAvailability 42 2 "US" "flatrate"]
  ∧ needs_rollback c = false.
Proof. by vm_compute. Qed.

(** The same update alone: it reports a failure and leaves the partial
    writes behind. *)
Lemma failed_update_is_not_rolled_back :
  (update_movie_providers 42 broken_response example_conn).1 = Ok false
  ∧ (update_movie_providers 42 broken_response example_conn).2 ≠ example_conn.
Proof. split; [by vm_compute|]. vm_compute. discriminate. Qed.

(** A failure of the database itself marks the block, and the update is
    undone. *)
Lemma integrity_error_is_rolled_back :
  update_movie_providers 42 repeated_response example_conn = (Ok false, example_conn).
Proof. by vm_compute. Qed.

(** *** Running an update again *)

Lemma preserved_refl l : preserved l l.
Proof. by intros k _. Qed.

Lemma preserved_trans l1 l2 l3 : preserved l1 l2 → preserved l2 l3 → preserved l1 l3.
Proof.
  intros H12 H23 k Hk. rewrite <- (H12 k Hk). apply H23. by rewrite (H12 k Hk).
Qed.

Lemma lookup_app k l1 l2 : lookup k (l1 ++ l2) = lookup k l1 ++ lookup k l2.
Proof. apply List.filter_app. Qed.

(** A provider added under an id that was not there keeps the lookups. *)
Lemma preserved_new l p : lookup (Some (sp_tmdb_id p)) l = [] → preserved l (l ++ [p]).
Proof.
  intros Hnew k Hk. rewrite lookup_app. unfold lookup at 2. simpl.
  case_bool_decide as Heq; [|by rewrite app_nil_r].
  subst k. by rewrite Hnew in Hk.
Qed.

Lemma set_streaming_providers_id c : set_streaming_providers (streaming_providers c) c = c.
Proof. by destruct c. Qed.

Lemma set_streaming_providers_twice l l' c :
  set_streaming_providers l (set_streaming_providers l' c) = set_streaming_providers l c.
Proof. done. Qed.

Section Replay.
Context (t : table) (item : Z).

Lemma frame_refl c : frame t item c c.
Proof. by repeat split. Qed.

Lemma frame_trans c1 c2 c3 : frame t item c1 c2 → frame t item c2 c3 → frame t item c1 c3.
Proof. intros (?&?&?) (?&?&?). repeat split; [congruence..|auto]. Qed.

Lemma stable_lift {A} (r : res A) : stable t item (lift r).
Proof.
  intros c r' c' [= <- <-]. split; [apply preserved_refl|]. split; [apply frame_refl|].
  destruct r; [done|]. unfold lift. by rewrite set_streaming_providers_id.
Qed.

Lemma stable_ret {A} (a : A) : stable t item (mret a).
Proof. apply (stable_lift (Ok a)). Qed.

Lemma stable_bind {A B} (m : M A) (f : A → M B) :
  stable t item m → (∀ a, stable t item (f a)) → stable t item (m ≫= f).
Proof.
  intros Hm Hf c r c' Hrun. unfold mbind, M_bind in Hrun |- *.
  destruct (m c) as [[a|e] c1] eqn:Hmc.
  - destruct (Hm _ _ _ Hmc) as (Hp1 & Hf1 & Hre1).
    destruct (Hf a _ _ _ Hrun) as (Hp2 & Hf2 & Hre2).
    split; [by eapply preserved_trans|]. split; [by eapply frame_trans|].
    destruct r as [b|e].
    + intros l Hl. rewrite (Hre1 l) by by eapply preserved_trans. by apply Hre2.
    + by rewrite (Hre1 (streaming_providers c')).
  - injection Hrun as <- <-.
    destruct (Hm _ _ _ Hmc) as (Hp1 & Hf1 & Hre1).
    split; [done|]. split; [done|]. by rewrite Hre1.
Qed.

Lemma stable_for_ {X} (body : X → M unit) (xs : list X) :
  (∀ x, stable t item (body x)) → stable t item (for_ body xs).
Proof.
  intros Hbody. induction xs as [|x xs IH]; simpl.
  - apply stable_ret.
  - apply stable_bind; [done|]. by intros _.
Qed.

Lemma rows_set_rows l c : rows t (set_rows t l c) = l.
Proof. by destruct t. Qed.

Lemma rows_other_set_rows l c : rows (other t) (set_rows t l c) = rows (other t) c.
Proof. by destruct t. Qed.

Lemma rows_set_streaming_providers t' l c : rows t' (set_streaming_providers l c) = rows t' c.
Proof. by destruct t'. Qed.

Lemma set_rows_set_streaming_providers l rs c :
  set_rows t rs (set_streaming_providers l c) = set_streaming_providers l (set_rows t rs c).
Proof. by destruct t. Qed.

Lemma frame_set_streaming_providers l c : frame t item c (set_streaming_providers l c).
Proof. unfold frame, rows_of. by rewrite !rows_set_streaming_providers. Qed.

Lemma stable_create (p : StreamingProvider) (region type : string) :
  stable t item (create t item p region type).
Proof.
  intros c r c' Hrun. unfold create in Hrun.
  set (row := mkAvailability item (sp_pk p) region type) in *.
  case_bool_decide as Hrow; injection Hrun as <- <-.
  - split; [apply preserved_refl|]. split.
    + unfold frame, rows_of. by destruct t.
    + simpl. rewrite set_streaming_providers_id. unfold create. fold row.
      by rewrite bool_decide_eq_true_2.
  - split; [destruct t; apply preserved_refl|]. split.
    + unfold frame, rows_of. rewrite rows_other_set_rows, rows_set_rows.
      rewrite !List.filter_app. simpl. rewrite Z.eqb_refl. simpl.
      split; [done|]. split; [by rewrite app_nil_r|].
      intros Hnd. apply NoDup_app. split; [done|]. split; [|apply NoDup_singleton].
      intros x Hx ->%list_elem_of_singleton. apply Hrow.
      apply list_elem_of_In in Hx. apply filter_In in Hx as [Hx _].
      by apply list_elem_of_In.
    + intros l _. unfold create. fold row. rewrite rows_set_streaming_providers.
      rewrite bool_decide_eq_false_2 by done.
      by rewrite set_rows_set_streaming_providers.
Qed.

Lemma stable_StreamingProvider_get_or_create (tmdb_id name logo_path display_priority : json) :
  stable t item (StreamingProvider_get_or_create tmdb_id name logo_path display_priority).
Proof.
  intros c r c' Hrun.
  assert (∀ e, (r, c') = (Raise e, c) →
            preserved (streaming_providers c) (streaming_providers c')
            ∧ frame t item c c'
            ∧ match r with
              | Ok _ => True
              | Raise _ =>
                  StreamingProvider_get_or_create tmdb_id name logo_path display_priority
                    (set_streaming_providers (streaming_providers c') c) = (r, c')
              end) as Hraise.
  { intros e [= -> ->]. split; [apply preserved_refl|]. split; [apply frame_refl|].
    by rewrite set_streaming_providers_id. }
  unfold StreamingProvider_get_or_create in Hrun.
  destruct (to_int_field tmdb_id) as [k|e] eqn:Hk;
    [|injection Hrun as <- <-; exact (Hraise _ eq_refl)].
  fold (lookup k (streaming_providers c)) in Hrun.
  destruct (lookup k (streaming_providers c)) as [|p [|p' ps]] eqn:Hlook.
  - destruct (to_int_field display_priority) as [priority|e] eqn:Hd;
      [|injection Hrun as <- <-; exact (Hraise _ eq_refl)].
    destruct k as [i|], (to_char_field name) as [n|] eqn:Hn,
      (to_char_field logo_path) as [lp|] eqn:Hl, priority as [d|];
      try (injection Hrun as <- <-; exact (Hraise _ eq_refl)).
    injection Hrun as <- <-.
    set (p := mkStreamingProvider _ n i lp d).
    assert (preserved (streaming_providers c) (streaming_providers c ++ [p])) as Hp
      by by apply preserved_new.
    split; [done|]. split; [apply frame_set_streaming_providers|].
    intros l Hpl. unfold StreamingProvider_get_or_create. rewrite Hk. simpl.
    assert (lookup (Some i) l = [p]) as Hfound.
    { rewrite (Hpl (Some i)); simpl; rewrite lookup_app, Hlook; simpl;
        unfold lookup; simpl; by rewrite bool_decide_eq_true_2. }
    fold (lookup (Some i) l). by rewrite Hfound.
  - injection Hrun as <- <-.
    split; [apply preserved_refl|]. split; [apply frame_refl|].
    intros l Hpl. unfold StreamingProvider_get_or_create. rewrite Hk. simpl.
    fold (lookup k l). by rewrite (Hpl k), Hlook by by rewrite Hlook.
  - injection Hrun as <- <-; exact (Hraise _ eq_refl).
Qed.

Lemma stable_get_or_create_provider (provider_data : json) :
  stable t item (get_or_create_provider provider_data).
Proof.
  unfold get_or_create_provider.
  repeat (apply stable_bind; [apply stable_lift|intros ?]).
  apply stable_StreamingProvider_get_or_create.
Qed.

Lemma stable_process_offers (region : string) (region_data : json) (offer : string) :
  stable t item (process_offers t item region region_data offer).
Proof.
  unfold process_offers. apply stable_bind; [apply stable_lift|intros offers].
  apply stable_for_. intros provider_data.
  apply stable_bind; [apply stable_get_or_create_provider|intros provider].
  apply stable_create.
Qed.

Lemma stable_process_region (entry : string * json) :
  stable t item (process_region t item entry).
Proof.
  destruct entry as [region region_data]. unfold process_region.
  destruct (negb _); [apply stable_ret|].
  repeat (apply stable_bind; [apply stable_process_offers|intros _]).
  apply stable_process_offers.
Qed.

Lemma stable_after_delete (providers_data : json) :
  stable t item (after_delete t item providers_data).
Proof.
  unfold after_delete. apply stable_bind; [apply stable_lift|intros regions].
  apply stable_bind; [apply stable_for_, stable_process_region|intros _].
  apply stable_ret.
Qed.

Lemma filter_others_twice (l : list Availability) :
  List.filter (λ r, negb (content r =? item))
    (List.filter (λ r, negb (content r =? item)) l)
  = List.filter (λ r, negb (content r =? item)) l.
Proof.
  induction l as [|r l IH]; simpl; [done|].
  destruct (content r =? item) eqn:Hr; simpl; [done|]. by rewrite Hr, IH.
Qed.

Lemma filter_item_of_others (l : list Availability) :
  List.filter (λ r, content r =? item) (List.filter (λ r, negb (content r =? item)) l) = [].
Proof.
  induction l as [|r l IH]; simpl; [done|].
  destruct (content r =? item) eqn:Hr; simpl; [done|]. by rewrite Hr.
Qed.

(** The state after the delete of a second run is the state after the
    delete of the first run, with the provider table the first run left. *)
Lemma delete_after_commit (c c' : conn) :
  let deleted c := set_rows t (List.filter (λ r, negb (content r =? item)) (rows t c)) c in
  frame t item (deleted c) c' →
  needs_rollback c' = needs_rollback c →
  deleted c' = set_streaming_providers (streaming_providers c') (deleted c).
Proof.
  intros deleted (Hother & Hrows & _) Hflag. unfold deleted in *.
  rewrite rows_other_set_rows in Hother. rewrite rows_set_rows in Hrows.
  rewrite filter_others_twice in Hrows. rewrite Hrows.
  destruct t, c, c'; simpl in *; by subst.
Qed.

Lemma set_needs_rollback_id (c : conn) :
  needs_rollback c = false → set_needs_rollback false c = c.
Proof. destruct c. simpl. by intros ->. Qed.

(** *** What a run writes *)

Lemma set_rows_keeps_providers (l : list Availability) (c : conn) :
  streaming_providers (set_rows t l c) = streaming_providers c.
Proof. by destruct t. Qed.

Lemma writes_ext {A} (m : M A) (e e' : list StreamingProvider → list Availability) :
  (∀ l, e l = e' l) → writes t m e → writes t m e'.
Proof.
  intros Heq Hm c a c' Hrun. destruct (Hm c a c' Hrun) as (Hp & Hflag & Hrows).
  split; [done|]. split; [done|]. intros l Hl. rewrite <- Heq. by apply Hrows.
Qed.

Lemma writes_ret {A} (a : A) : writes t (mret a) (λ _, []).
Proof.
  intros c a' c' [= _ <-]. split; [apply preserved_refl|]. split; [done|].
  intros l _. by rewrite app_nil_r.
Qed.

Lemma writes_lift_bind {A B} (r : res A) (f : A → M B)
    (e : list StreamingProvider → list Availability) :
  (∀ a, r = Ok a → writes t (f a) e) → writes t (lift r ≫= f) e.
Proof.
  intros Hf c b c' Hrun. unfold mbind, M_bind, lift in Hrun.
  destruct r as [a|]; [|done]. by eapply Hf.
Qed.

Lemma writes_bind {A B} (m : M A) (f : A → M B)
    (e1 e2 : list StreamingProvider → list Availability) :
  writes t m e1 → (∀ a, writes t (f a) e2) → writes t (m ≫= f) (λ l, e1 l ++ e2 l).
Proof.
  intros Hm Hf c b c' Hrun. unfold mbind, M_bind in Hrun.
  destruct (m c) as [[a|] c1] eqn:Hmc; [|done].
  destruct (Hm _ _ _ Hmc) as (Hp1 & Hflag1 & Hrows1).
  destruct (Hf a _ _ _ Hrun) as (Hp2 & Hflag2 & Hrows2).
  split; [by eapply preserved_trans|]. split; [congruence|].
  intros l Hl. rewrite (Hrows2 l Hl), (Hrows1 l), app_assoc; [done|].
  by eapply preserved_trans.
Qed.

Lemma omap_cons_option {X Y} (g : X → option Y) (x : X) (xs : list X) :
  omap g (x :: xs) = option_list (g x) ++ omap g xs.
Proof. cbn. by destruct (g x). Qed.

Lemma writes_for_omap {X} (body : X → M unit)
    (g : list StreamingProvider → X → option Availability) (xs : list X) :
  (∀ x, writes t (body x) (λ l, option_list (g l x))) →
  writes t (for_ body xs) (λ l, omap (g l) xs).
Proof.
  intros Hbody. induction xs as [|x xs IH]; [apply writes_ret|].
  cbn [for_]. eapply writes_ext; [|apply writes_bind; [apply Hbody|intros _; apply IH]].
  intros l. cbv beta. by rewrite omap_cons_option.
Qed.

Lemma writes_for_concat {X} (body : X → M unit)
    (g : list StreamingProvider → X → list Availability) (xs : list X) :
  (∀ x, writes t (body x) (λ l, g l x)) →
  writes t (for_ body xs) (λ l, concat (g l <$> xs)).
Proof.
  intros Hbody. induction xs as [|x xs IH]; [apply writes_ret|].
  cbn [for_]. eapply writes_ext; [|apply writes_bind; [apply Hbody|intros _; apply IH]].
  done.
Qed.

(** The provider [get_or_create_provider] returns is, from then on, the one
    provider the table holds under the id of the entry. *)
Lemma get_or_create_provider_found (provider_data : json) (c c' : conn)
    (p : StreamingProvider) :
  get_or_create_provider provider_data c = (Ok p, c') →
  preserved (streaming_providers c) (streaming_providers c')
  ∧ needs_rollback c' = needs_rollback c
  ∧ rows t c' = rows t c
  ∧ ∃ k, (v ← py_index provider_data "provider_id"; to_int_field v) = Ok k
         ∧ lookup k (streaming_providers c') = [p].
Proof.
  unfold get_or_create_provider, mbind at 1 2 3 4, M_bind, lift.
  destruct (py_index provider_data "provider_id") as [tmdb_id|]; [|done].
  destruct (py_index provider_data "provider_name") as [name|]; [|done].
  destruct (py_get_default provider_data "logo_path" _) as [logo_path|]; [|done].
  destruct (py_get_default provider_data "display_priority" _) as [priority|]; [|done].
  cbn [mbind res_bind]. unfold StreamingProvider_get_or_create.
  destruct (to_int_field tmdb_id) as [k|]; [|done].
  fold (lookup k (streaming_providers c)).
  destruct (lookup k (streaming_providers c)) as [|q [|q' qs]] eqn:Hlook; [| |done].
  - destruct (to_int_field priority) as [d|]; [|done].
    destruct k as [i|], (to_char_field name) as [n|], (to_char_field logo_path) as [lp|],
      d as [d|]; try done.
    intros [= <- <-]. split; [by apply preserved_new|]. split; [done|].
    split; [apply rows_set_streaming_providers|]. exists (Some i). split; [done|].
    cbn [streaming_providers set_streaming_providers]. rewrite lookup_app, Hlook.
    unfold lookup. cbn. by rewrite bool_decide_eq_true_2.
  - intros [= <- <-]. split; [apply preserved_refl|]. split; [done|]. split; [done|].
    by exists k.
Qed.

Lemma writes_offer (region offer : string) (provider_data : json) :
  writes t (provider ← get_or_create_provider provider_data;
            create t item provider region offer)
    (λ l, option_list (offer_row l item region offer provider_data)).
Proof.
  intros c [] c' Hrun. unfold mbind, M_bind in Hrun.
  destruct (get_or_create_provider provider_data c) as [[p|] c1] eqn:Hp; [|done].
  destruct (get_or_create_provider_found _ _ _ _ Hp) as (Hpres & Hflag & Hrows & k & Hk & Hlook).
  unfold create in Hrun. case_bool_decide; [done|]. injection Hrun as <-.
  split; [by rewrite set_rows_keeps_providers|].
  split; [by destruct t|]. intros l Hl.
  rewrite rows_set_rows, Hrows. f_equal.
  unfold offer_row, provider_pk. rewrite Hk.
  rewrite set_rows_keeps_providers in Hl.
  by rewrite (Hl k), Hlook by by rewrite Hlook.
Qed.

Lemma writes_process_offers (region : string) (region_data : json) (offer : string) :
  writes t (process_offers t item region region_data offer)
    (λ l, omap (offer_row l item region offer) (listed_offers region_data offer)).
Proof.
  unfold process_offers. apply writes_lift_bind. intros offers Hoffers.
  unfold listed_offers. rewrite Hoffers.
  apply (writes_for_omap _ (λ l, offer_row l item region offer)).
  intros provider_data. apply writes_offer.
Qed.

Lemma writes_process_region (entry : string * json) :
  writes t (process_region t item entry) (λ l, region_rows l item entry).
Proof.
  destruct entry as [region region_data]. unfold process_region, region_rows. cbn [fst snd].
  case_bool_decide; cbn [negb]; [|apply writes_ret].
  apply writes_bind; [apply writes_process_offers|intros _].
  apply writes_bind; [apply writes_process_offers|intros _].
  apply writes_process_offers.
Qed.

Lemma writes_after_delete (providers_data : json) :
  writes t (after_delete t item providers_data) (λ l, response_rows l item providers_data).
Proof.
  unfold after_delete. apply writes_lift_bind. intros regions Hregions.
  destruct providers_data; try done. injection Hregions as ->. cbn [response_rows].
  eapply writes_ext; [|apply writes_bind;
                        [apply (writes_for_concat _ (λ l, region_rows l item)),
                           writes_process_region
                        |intros _; apply writes_ret]].
  intros l. apply app_nil_r.
Qed.

Lemma response_rows_of_item (l : list StreamingProvider) (providers_data : json) :
  List.filter (λ r, content r =? item) (response_rows l item providers_data)
  = response_rows l item providers_data.
Proof.
  assert (∀ region offer xs,
            List.filter (λ r, content r =? item) (omap (offer_row l item region offer) xs)
            = omap (offer_row l item region offer) xs) as Homap.
  { intros region offer xs. induction xs as [|x xs IH]; [done|].
    rewrite omap_cons_option, List.filter_app, IH. f_equal.
    unfold offer_row. destruct (provider_pk l x); [|done].
    cbn. by rewrite Z.eqb_refl. }
  destruct providers_data as [| | | | | |d]; try done. cbn [response_rows].
  induction d as [|entry d IH]; [done|].
  rewrite fmap_cons. cbn [concat]. rewrite List.filter_app, IH. f_equal.
  unfold region_rows. case_bool_decide; [|done].
  by rewrite !List.filter_app, !Homap.
Qed.

(** A run that answers [True] has deleted the rows the item had and has
    written the rows of the response. *)
Lemma update_providers_replaces (providers_data : json) (c c' : conn) :
  update_providers t item providers_data c = (Ok true, c') →
  rows_of t item c' = response_rows (streaming_providers c') item providers_data.
Proof.
  set (deleted := set_rows t
         (List.filter (λ r, negb (content r =? item)) (rows t (set_needs_rollback false c)))
         (set_needs_rollback false c)).
  assert (replace_rows t item providers_data (set_needs_rollback false c)
          = after_delete t item providers_data deleted) as Hreplace by done.
  unfold update_providers, atomic, try_except. rewrite Hreplace.
  destruct (after_delete t item providers_data deleted) as [[b|e] c1] eqn:Hrun;
    [|unfold mret, M_ret; destruct (needs_rollback c1); by intros [=]].
  destruct (writes_after_delete providers_data _ _ _ Hrun) as (_ & Hflag & Hrows).
  assert (needs_rollback c1 = false) as -> by (rewrite Hflag; by destruct t).
  intros [= -> <-]. unfold rows_of.
  rewrite (Hrows _ (preserved_refl _)), List.filter_app, response_rows_of_item.
  unfold deleted. by rewrite rows_set_rows, filter_item_of_others.
Qed.

(** An update that starts on an unmarked connection, run again. *)
Lemma update_providers_again (providers_data : json) (c : conn) :
  needs_rollback c = false →
  NoDup (rows_of t item c) →
  let once := update_providers t item providers_data c in
  update_providers t item providers_data once.2 = once
  ∧ NoDup (rows_of t item once.2).
Proof.
  intros Hflag Hnodup once.
  set (deleted c := set_rows t (List.filter (λ r, negb (content r =? item)) (rows t c)) c).
  assert (∀ c0, replace_rows t item providers_data c0
                = after_delete t item providers_data (deleted c0)) as Hreplace by done.
  destruct (after_delete t item providers_data (deleted c)) as [r c'] eqn:Hrun.
  destruct (stable_after_delete providers_data _ _ _ Hrun) as (_ & Hframe & Hreplay).
  assert (once = (Ok (match r with Ok b => b | Raise _ => false end),
                  if needs_rollback c' then c else c')) as Honce.
  { unfold once, update_providers, atomic, try_except.
    rewrite set_needs_rollback_id by done. rewrite Hreplace, Hrun.
    destruct r; unfold mret, M_ret; by destruct (needs_rollback c'). }
  rewrite Honce. simpl.
  destruct (needs_rollback c') eqn:Hflag'.
  - split; [exact Honce|done].
  - split.
    + unfold update_providers, atomic, try_except.
      rewrite set_needs_rollback_id by done. rewrite Hreplace.
      assert (deleted c' = set_streaming_providers (streaming_providers c') (deleted c))
        as -> by (apply (delete_after_commit c c'); [done|congruence]).
      assert (after_delete t item providers_data
                (set_streaming_providers (streaming_providers c') (deleted c))
              = (r, c')) as ->.
      { destruct r; [|done].
        rewrite (Hreplay _ (preserved_refl _)).
        by rewrite set_streaming_providers_id. }
      destruct r; unfold mret, M_ret; by rewrite Hflag'.
    + destruct Hframe as (_ & _ & Hkeep). apply Hkeep.
      unfold rows_of, deleted. rewrite rows_set_rows, filter_item_of_others.
      constructor.
Qed.

(** C7: run twice in a row on the same response, the update of one item
    ends in the state of the first run, with the same answer: the rows of
    the item are the same, and they hold no duplicate.  A run that answers
    [True] has replaced the rows: whatever rows the item had before, it has
    afterwards exactly the rows the response lists (for the allowed
    regions, flatrate then rent then buy, in the order of the response),
    and so has the second run. *)
Theorem update_providers_idempotent (providers_data : json) (c : conn) :
  NoDup (rows_of t item c) →
  let once := update_providers t item providers_data c in
  let twice := update_providers t item providers_data once.2 in
  twice = once
  ∧ rows_of t item twice.2 = rows_of t item once.2
  ∧ NoDup (rows_of t item once.2)
  ∧ (once.1 = Ok true →
     rows_of t item once.2
       = response_rows (streaming_providers once.2) item providers_data
     ∧ rows_of t item twice.2
       = response_rows (streaming_providers twice.2) item providers_data).
Proof.
  intros Hnodup once twice.
  assert (once = update_providers t item providers_data (set_needs_rollback false c))
    as Honce by by destruct c.
  destruct (update_providers_again providers_data (set_needs_rollback false c))
    as [Htwice Hnd]; [done|by destruct t, c|].
  rewrite <- Honce in Htwice, Hnd. fold twice in Htwice.
  split; [done|]. split; [by rewrite Htwice|]. split; [done|].
  intros Htrue. rewrite Htwice.
  assert (rows_of t item once.2
          = response_rows (streaming_providers once.2) item providers_data); [|done].
  apply (update_providers_replaces providers_data c).
  transitivity (once.1, once.2); [apply surjective_pairing|by rewrite Htrue].
Qed.

End Replay.

Lemma update_providers_idempotent_witness :
  let once := update_movie_providers 42 complete_response example_conn in
  let twice := update_movie_providers 42 complete_response once.2 in
  twice = once
  ∧ rows_of MovieProvider 42 twice.2 = rows_of MovieProvider 42 once.2
  ∧ NoDup (rows_of MovieProvider 42 once.2)
  ∧ rows_of MovieProvider 42 example_conn = [mkAvailability 42 1 "US" "flatrate"]
  ∧ rows_of MovieProvider 42 once.2
    = [mkAvailability 42 2 "US" "flatrate"; mkAvailability 42 3 "US" "flatrate";
       mkAvailability 42 2 "US" "buy"]
  ∧ rows_of MovieProvider 42 twice.2
    = response_rows (streaming_providers twice.2) 42 complete_response.
Proof.
  destruct (update_providers_idempotent MovieProvider 42 complete_response example_conn)
    as (Htwice & Hrows & Hnd & Hreplaced).
  { repeat constructor. by intros ?%elem_of_nil. }
  destruct (Hreplaced eq_refl) as [Honce Hsecond].
  split; [exact Htwice|]. split; [exact Hrows|]. split; [exact Hnd|].
  split; [reflexivity|]. split; [exact Honce|exact Hsecond].
Defined.

(** After the first run movie 42 has the three rows of the response. *)
Example update_replaces_the_rows :
  rows_of MovieProvider 42 (update_movie_providers 42 complete_response example_conn).2
  = [mkAvailability 42 2 "US" "flatrate"; mkAvailability 42 3 "US" "flatrate";
     mkAvailability 42 2 "US" "buy"].
Proof. by vm_compute. Qed.

End ProvidersFacts.

(** ** More on friend requests *)

Module SocialMore.
Import Social.

Lemma get_friends_spec (self other : user) (d : db) :
  other ∈ get_friends self d ↔
    other ∈ users d
    ∧ ∃ r, r ∈ friend_requests d ∧ status r = "accepted"
           ∧ ((from_user r = self ∧ to_user r = other)
              ∨ (to_user r = self ∧ from_user r = other)).
Proof.
  unfold get_friends. rewrite list_elem_of_In, filter_In, <- list_elem_of_In.
  rewrite bool_decide_eq_true, elem_of_app, !list_elem_of_fmap.
  split.
  - intros [Hu [(r & -> & Hr)|(r & -> & Hr)]]; (split; [done|]); exists r;
      apply list_elem_of_In, filter_In in Hr as [Hr Hp];
      apply andb_prop in Hp as [Hself Hst];
      apply Z.eqb_eq in Hself; apply String.eqb_eq in Hst;
      (split; [by apply list_elem_of_In|]); (split; [done|]); auto.
  - intros [Hu (r & Hr & Hst & Hdir)]. split; [done|].
    destruct Hdir as [[Hf Ht]|[Ht Hf]]; [left|right]; exists r; (split; [done|]);
      apply list_elem_of_In, filter_In; (split; [by apply list_elem_of_In|]);
      rewrite ?Hf, ?Ht, Hst, Z.eqb_refl; done.
Qed.

(** X1: friendship is symmetric: among existing users, [b] is a friend of [a]
    exactly when [a] is a friend of [b]. *)
Theorem friendship_is_symmetric (a b : user) (d : db) :
  a ∈ users d → b ∈ users d →
  (b ∈ get_friends a d ↔ a ∈ get_friends b d).
Proof.
  intros Ha Hb. rewrite !get_friends_spec.
  split; intros [_ (r & Hr & Hst & Hdir)]; (split; [done|]); exists r;
    (split; [done|]); (split; [done|]); tauto.
Qed.

Lemma friendship_is_symmetric_witness :
  3 ∈ get_friends 1 example_db ↔ 1 ∈ get_friends 3 example_db.
Proof.
  apply (friendship_is_symmetric 1 3 example_db); repeat constructor.
Defined.

(** *** An answered request stays answered *)

Lemma get_Ok_singleton {R} (l : list R) (r : R) : get l = Ok r → l = [r].
Proof. destruct l as [|x [|y l]]; simpl; by intros [= ->]. Qed.

Lemma filter_nil_iff {X} (p : X → bool) (l : list X) :
  List.filter p l = [] ↔ ∀ x, x ∈ l → p x = false.
Proof.
  split.
  - intros Hnil x Hx. apply not_true_is_false. intros Hp.
    assert (In x (List.filter p l)) as Hin by (apply filter_In; by rewrite <- list_elem_of_In).
    by rewrite Hnil in Hin.
  - intros Hall. induction l as [|x l IH]; simpl; [done|].
    rewrite (Hall x) by by left. apply IH. intros y Hy. apply Hall. by right.
Qed.

Lemma set_status_final (new_status other_status : string) (self from : user) (d d' : db) :
  new_status ≠ "pending" →
  set_status new_status self from d = (Ok true, d') →
  set_status other_status self from d' = (Ok false, d').
Proof.
  intros Hnew. unfold set_status.
  set (p := λ r, (from_user r =? from) && (to_user r =? self)
                 && String.eqb (status r) "pending").
  destruct (get (List.filter p (friend_requests d))) as [r|e] eqn:Hget;
    [|destruct e; intros [=]].
  apply get_Ok_singleton in Hget. intros [= <-]. simpl.
  assert (List.filter p
            ((λ r', if pk r' =? pk r
                    then mkFriendRequest (pk r) (from_user r) (to_user r) new_status
                    else r') <$> friend_requests d) = []) as ->; [|done].
  apply filter_nil_iff. intros x' (x & -> & Hx)%list_elem_of_fmap.
  destruct (pk x =? pk r) eqn:Hpk.
  - unfold p. simpl. apply andb_false_intro2.
    by apply String.eqb_neq.
  - apply not_true_is_false. intros Hp.
    assert (In x (List.filter p (friend_requests d))) as Hin
      by (apply filter_In; by rewrite <- list_elem_of_In).
    rewrite Hget in Hin. destruct Hin as [->|[]]. by rewrite Z.eqb_refl in Hpk.
Qed.

(** X2: once a request is accepted or rejected, the receiver can neither accept
    nor reject it again: both calls return [False] and change nothing. *)
Theorem answered_request_is_final (self from : user) (d d' : db) :
  accept_friend_request self from d = (Ok true, d')
  ∨ reject_friend_request self from d = (Ok true, d') →
  accept_friend_request self from d' = (Ok false, d')
  ∧ reject_friend_request self from d' = (Ok false, d').
Proof.
  unfold accept_friend_request, reject_friend_request.
  intros [H|H]; split; by eapply set_status_final; [|exact H].
Qed.

Lemma answered_request_is_final_witness :
  ∃ d', reject_friend_request 2 1 pending_db = (Ok true, d')
        ∧ accept_friend_request 2 1 d' = (Ok false, d')
        ∧ reject_friend_request 2 1 d' = (Ok false, d').
Proof.
  eexists. split; [reflexivity|].
  apply (answered_request_is_final 2 1 pending_db). right. reflexivity.
Defined.

(** *** A rejected request *)

Lemma set_status_rows (new_status : string) (self from : user) (d d' : db) :
  new_status ≠ "pending" →
  set_status new_status self from d = (Ok true, d') →
  (∃ r, r ∈ friend_requests d' ∧ from_user r = from ∧ to_user r = self
        ∧ status r = new_status)
  ∧ List.filter (λ r, (from_user r =? from) && (to_user r =? self)
                      && String.eqb (status r) "pending") (friend_requests d') = [].
Proof.
  intros Hnew Hrun. split.
  - unfold set_status in Hrun.
    destruct (get _) as [r|e] eqn:Hget; [|destruct e; by inversion Hrun].
    apply get_Ok_singleton in Hget. injection Hrun as <-.
    assert (In r (List.filter
                    (λ r, (from_user r =? from) && (to_user r =? self)
                          && String.eqb (status r) "pending") (friend_requests d))) as Hr
      by (rewrite Hget; by left).
    apply filter_In in Hr as [Hr Hp]. apply list_elem_of_In in Hr.
    apply andb_prop in Hp as [Hp _]. apply andb_prop in Hp as [Hfrom Hto].
    apply Z.eqb_eq in Hfrom. apply Z.eqb_eq in Hto.
    exists (mkFriendRequest (pk r) (from_user r) (to_user r) new_status).
    split; [|done]. cbn [save friend_requests]. apply list_elem_of_fmap.
    exists r. by rewrite Z.eqb_refl.
  - pose proof (set_status_final new_status "accepted" self from d d' Hnew Hrun) as Hagain.
    unfold set_status in Hagain.
    destruct (List.filter _ (friend_requests d')) as [|x [|y l]]; [done|done|done].
Qed.

(** X3: a rejected request stays in the table: it leaves the pending list of
    the receiver, and it blocks the pair, for neither of the two can send
    the other a new request afterwards. *)
Theorem rejected_request_blocks_the_pair (self from : user) (d d' : db) :
  reject_friend_request self from d = (Ok true, d') →
  (∀ r, r ∈ get_pending_requests self d' → from_user r ≠ from)
  ∧ send_friend_request from self d' = (Ok false, d')
  ∧ send_friend_request self from d' = (Ok false, d').
Proof.
  unfold reject_friend_request. intros Hrun.
  destruct (set_status_rows "rejected" self from d d') as [(r & Hr & Hfrom & Hto & _) Hnone];
    [done..|].
  split; [|split].
  - intros x Hx Hx_from. unfold get_pending_requests in Hx.
    apply list_elem_of_In, filter_In in Hx as [Hx Hp]. apply andb_prop in Hp as [Hx_to Hst].
    assert (In x []) as []. rewrite <- Hnone. apply filter_In. split; [done|].
    by rewrite Hx_from, Z.eqb_refl, Hx_to, Hst.
  - unfold send_friend_request. destruct (from =? self); [done|].
    assert (In r (List.filter (between from self) (friend_requests d'))) as Hin.
    { apply filter_In. split; [by apply list_elem_of_In|].
      unfold between. by rewrite Hfrom, Hto, !Z.eqb_refl. }
    by destruct (List.filter (between from self) (friend_requests d')).
  - unfold send_friend_request. destruct (self =? from); [done|].
    assert (In r (List.filter (between self from) (friend_requests d'))) as Hin.
    { apply filter_In. split; [by apply list_elem_of_In|].
      unfold between. rewrite Hfrom, Hto, !Z.eqb_refl. by rewrite orb_true_r. }
    by destruct (List.filter (between self from) (friend_requests d')).
Qed.

Lemma rejected_request_blocks_the_pair_witness :
  ∃ d', reject_friend_request 2 1 pending_db = (Ok true, d')
    ∧ (∀ r, r ∈ get_pending_requests 2 d' → from_user r ≠ 1)
    ∧ send_friend_request 1 2 d' = (Ok false, d')
    ∧ send_friend_request 2 1 d' = (Ok false, d').
Proof.
  eexists. split; [reflexivity|].
  apply (rejected_request_blocks_the_pair 2 1 pending_db). reflexivity.
Defined.

(** *** Requests that are refused *)

Lemma send_Ok_true (a b : user) (d d' : db) :
  send_friend_request a b d = (Ok true, d') →
  a ≠ b
  ∧ List.filter (between a b) (friend_requests d) = []
  ∧ d' = mkDb (users d)
           (friend_requests d ++ [mkFriendRequest (next_pk (friend_requests d)) a b "pending"]).
Proof.
  unfold send_friend_request, create.
  destruct (Z.eqb_spec a b); [by intros [=]|].
  destruct (List.filter (between a b) (friend_requests d)); [|by intros [=]].
  destruct (existsb _ _); [by intros [=]|]. by intros [= <-].
Qed.

(** X4: a user cannot send a request to themselves, and after a request from
    [a] to [b] is created neither [a] nor [b] can create a second one
    between the two: the call returns [False] and the table is unchanged. *)
Theorem no_second_request (a b : user) (d d' : db) :
  send_friend_request a a d = (Ok false, d)
  ∧ (send_friend_request a b d = (Ok true, d') →
     send_friend_request a b d' = (Ok false, d')
     ∧ send_friend_request b a d' = (Ok false, d')).
Proof.
  split.
  - unfold send_friend_request. by rewrite Z.eqb_refl.
  - intros (Hab & _ & ->)%send_Ok_true. unfold send_friend_request. simpl.
    destruct (Z.eqb_spec a b); [done|]. destruct (Z.eqb_spec b a); [done|].
    rewrite !List.filter_app. simpl. unfold between at 2 4. simpl.
    rewrite !Z.eqb_refl. simpl. rewrite orb_true_r. simpl.
    split; by destruct (List.filter _ (friend_requests d)).
Qed.

(** *** Unfriending *)

Lemma unfriend_rows (a b : user) (d : db) :
  friend_requests (unfriend a b d).2
  = List.filter (λ r, negb (between a b r)) (friend_requests d).
Proof.
  unfold unfriend. simpl. induction (friend_requests d) as [|r l IH]; simpl; [done|].
  destruct (between a b r) eqn:Hr; simpl.
  - destruct (String.eqb (status r) "accepted"); simpl; [done|]. by rewrite Hr.
  - rewrite Hr. simpl. by rewrite IH.
Qed.

Lemma unfriend_elem_of (a b : user) (d : db) (r : FriendRequest) :
  r ∈ friend_requests (unfriend a b d).2 ↔ r ∈ friend_requests d ∧ between a b r = false.
Proof.
  rewrite unfriend_rows, list_elem_of_In, filter_In, <- list_elem_of_In.
  by rewrite negb_true_iff.
Qed.

(** X5: after [a.unfriend(b)] neither is the other's friend, the friends [a]
    has apart from [b] are the ones [a] had, and, [a] and [b] being two
    users, a new request from [a] to [b] is accepted by the model. *)
Theorem unfriend_clears_the_pair (a b : user) (d : db) :
  let d' := (unfriend a b d).2 in
  (b ∉ get_friends a d')
  ∧ (a ∉ get_friends b d')
  ∧ (∀ c, c ≠ b → (c ∈ get_friends a d' ↔ c ∈ get_friends a d))
  ∧ (a ≠ b → ∃ d'', send_friend_request a b d' = (Ok true, d'')).
Proof.
  intros d'. unfold d'. repeat split.
  - rewrite get_friends_spec. intros [_ (r & [_ Hr]%unfriend_elem_of & _ & Hdir)].
    unfold between in Hr. destruct Hdir as [[Hf Ht]|[Ht Hf]];
      rewrite Hf, Ht, !Z.eqb_refl in Hr; simpl in Hr; by rewrite ?orb_true_r in Hr.
  - rewrite get_friends_spec. intros [_ (r & [_ Hr]%unfriend_elem_of & _ & Hdir)].
    unfold between in Hr. destruct Hdir as [[Hf Ht]|[Ht Hf]];
      rewrite Hf, Ht, !Z.eqb_refl in Hr; simpl in Hr; by rewrite ?orb_true_r in Hr.
  - rewrite !get_friends_spec. intros [Hu (r & [Hr _]%unfriend_elem_of & Hst & Hdir)].
    split; [done|]. eauto.
  - rewrite !get_friends_spec. intros [Hu (r & Hr & Hst & Hdir)].
    split; [done|]. exists r. split; [|done]. apply unfriend_elem_of. split; [done|].
    unfold between. destruct Hdir as [[Hf Ht]|[Ht Hf]]; rewrite Hf, Ht;
      destruct (Z.eqb_spec a a), (Z.eqb_spec c b), (Z.eqb_spec a b), (Z.eqb_spec c a);
      simpl; try done; congruence.
  - intros Hab. eexists. unfold send_friend_request, create.
    destruct (Z.eqb_spec a b); [done|].
    assert (List.filter (between a b) (friend_requests (unfriend a b d).2) = []) as Hnone.
    { apply filter_nil_iff. by intros r [_ Hr]%unfriend_elem_of. }
    rewrite Hnone.
    assert (existsb (λ r, (from_user r =? a) && (to_user r =? b))
              (friend_requests (unfriend a b d).2) = false) as ->; [|done].
    apply not_true_is_false. rewrite existsb_exists. intros (r & Hin & Hr).
    apply list_elem_of_In, unfriend_elem_of in Hin as [_ Hin].
    unfold between in Hin. by rewrite Hr in Hin.
Qed.

(** *** The table stays well formed *)

Lemma pk_le_max (rows : list FriendRequest) (r : FriendRequest) :
  r ∈ rows → pk r ≤ foldr Z.max 0 (pk <$> rows).
Proof.
  induction 1 as [r l|r x l _ IH]; rewrite fmap_cons; simpl; lia.
Qed.

Lemma next_pk_fresh (rows : list FriendRequest) : next_pk rows ∉ pk <$> rows.
Proof.
  intros (r & Hpk & Hr%pk_le_max)%list_elem_of_fmap. unfold next_pk in Hpk. lia.
Qed.

Lemma filter_length_ext {X} (p q : X → bool) (l l' : list X) :
  Forall2 (λ x y, p x = q y) l l' →
  length (List.filter p l) = length (List.filter q l').
Proof.
  induction 1 as [|x y l l' Hxy _ IH]; simpl; [done|].
  rewrite Hxy. destruct (q y); simpl; by rewrite IH.
Qed.

Lemma NoDup_fmap_filter {X Y} (f : X → Y) (p : X → bool) (l : list X) :
  NoDup (f <$> l) → NoDup (f <$> List.filter p l).
Proof.
  induction l as [|x l IH]; [done|].
  rewrite fmap_cons, NoDup_cons. intros [Hx Hl]. cbn [List.filter].
  destruct (p x); [|by apply IH].
  rewrite fmap_cons, NoDup_cons. split; [|by apply IH].
  intros (y & Hy & Hin)%list_elem_of_fmap. apply Hx, list_elem_of_fmap.
  exists y. split; [done|].
  apply list_elem_of_In. eapply proj1. apply filter_In. by apply list_elem_of_In.
Qed.

Lemma filter_filter_length {X} (p q : X → bool) (l : list X) :
  (length (List.filter p (List.filter q l)) ≤ length (List.filter p l))%nat.
Proof.
  induction l as [|x l IH]; simpl; [done|].
  destruct (q x), (p x) eqn:Hp; simpl; rewrite ?Hp; simpl; lia.
Qed.

Lemma between_new_row (a b c e : user) (k : Z) (s : string) (r : FriendRequest) :
  between c e (mkFriendRequest k a b s) = true → between c e r = between a b r.
Proof.
  unfold between. simpl. intros H.
  apply orb_prop in H as [H|H]; apply andb_prop in H as [H1 H2];
    apply Z.eqb_eq in H1; apply Z.eqb_eq in H2; subst; [done|].
  apply orb_comm.
Qed.

(** X6: the four operations keep the table well formed: primary keys stay
    distinct and no pair of users ever gets a second row, in either
    direction. *)
Theorem friend_requests_stay_well_formed (a b : user) (d : db) :
  well_formed d →
  well_formed (send_friend_request a b d).2
  ∧ well_formed (accept_friend_request a b d).2
  ∧ well_formed (reject_friend_request a b d).2
  ∧ well_formed (unfriend a b d).2.
Proof.
  intros [Hpk Hpair].
  assert (∀ s, well_formed (set_status s a b d).2) as Hset.
  { intros s. unfold set_status.
    destruct (get _) as [r|e] eqn:Hget; [|by destruct e].
    apply get_Ok_singleton in Hget.
    assert (r ∈ friend_requests d) as Hr.
    { apply list_elem_of_In. eapply proj1. apply filter_In. rewrite Hget. by left. }
    set (f := λ r', if pk r' =? pk r
                    then mkFriendRequest (pk r) (from_user r) (to_user r) s else r').
    assert (∀ x, x ∈ friend_requests d →
                 pk (f x) = pk x ∧ from_user (f x) = from_user x ∧ to_user (f x) = to_user x)
      as Hf.
    { intros x Hx. unfold f. destruct (Z.eqb_spec (pk x) (pk r)) as [Heq|]; [|done].
      simpl. split; [done|].
      apply list_elem_of_lookup in Hx as [i Hi]. apply list_elem_of_lookup in Hr as [j Hj].
      assert (i = j) as ->.
      { eapply NoDup_lookup; [exact Hpk|..]; rewrite list_lookup_fmap.
        - by rewrite Hi.
        - rewrite Hj. simpl. by rewrite Heq. }
      by simplify_eq. }
    split; simpl.
    - replace (pk <$> (f <$> friend_requests d)) with (pk <$> friend_requests d); [done|].
      rewrite <- list_fmap_compose. apply list_fmap_ext.
      intros i x Hx%list_elem_of_lookup_2. simpl. by destruct (Hf x Hx) as [-> _].
    - intros c e. rewrite <- (Hpair c e). apply Nat.eq_le_incl, filter_length_ext.
      apply Forall2_fmap_l, Forall_Forall2_diag, Forall_forall. intros x Hx.
      destruct (Hf x Hx) as (_ & Hfrom & Hto). unfold compose, between.
      unfold f in Hfrom, Hto. by rewrite Hfrom, Hto. }
  split; [|split; [apply Hset|split; [apply Hset|]]].
  - destruct (send_friend_request a b d) as [[[]|e] d'] eqn:Hsend;
      try (unfold send_friend_request, create in Hsend; repeat case_match; by simplify_eq).
    apply send_Ok_true in Hsend as (Hab & Hnone & ->). split; simpl.
    + rewrite fmap_app. apply NoDup_app. split; [done|]. split; [|apply NoDup_singleton].
      intros x Hx ->%list_elem_of_singleton. by apply (next_pk_fresh (friend_requests d)).
    + intros c e. rewrite List.filter_app, length_app. simpl.
      destruct (between c e (mkFriendRequest _ a b "pending")) eqn:Hnew; simpl.
      * assert (List.filter (between c e) (friend_requests d) = []) as ->; [|simpl; lia].
        apply filter_nil_iff. intros x Hx. rewrite (between_new_row _ _ _ _ _ _ _ Hnew).
        by eapply filter_nil_iff.
      * specialize (Hpair c e). lia.
  - split.
    + rewrite unfriend_rows. by apply NoDup_fmap_filter.
    + intros c e. rewrite unfriend_rows. etrans; [apply filter_filter_length|apply Hpair].
Qed.

Lemma friend_requests_stay_well_formed_witness :
  well_formed (send_friend_request 1 2 example_db).2
  ∧ well_formed (accept_friend_request 1 2 example_db).2
  ∧ well_formed (reject_friend_request 1 2 example_db).2
  ∧ well_formed (unfriend 1 2 example_db).2.
Proof.
  apply (friend_requests_stay_well_formed 1 2 example_db). split.
  - repeat constructor. by intros ?%elem_of_nil.
  - intros c e. simpl. destruct (between c e _); simpl; lia.
Defined.

End SocialMore.

(** ** More on sorting *)

Section PySortMore.
Context {A K : Type} (key : A → K).

Lemma insert_by_perm_any (follows : K → K → bool) (x : A) (l : list A) :
  insert_by key follows x l ≡ₚ x :: l.
Proof.
  induction l as [|y l IH]; simpl; [done|].
  destruct (follows (key x) (key y)); [|done]. rewrite IH. apply Permutation_swap.
Qed.

Lemma py_sort_perm (lt : K → K → Prop) `{!RelDecision lt} (l : list A) :
  py_sort key lt l ≡ₚ l.
Proof.
  induction l as [|x l IH]; simpl; [done|].
  fold (py_sort key lt l). by rewrite insert_by_perm_any, IH.
Qed.

(** The descending sort is stable: the records with one key keep the order
    they came in. *)
Lemma py_sort_reverse_stable `{!EqDecision K} (lt : K → K → Prop) `{!RelDecision lt}
    (k : K) (l : list A) :
  (∀ a, ¬ lt a a) →
  List.filter (λ y, bool_decide (key y = k)) (py_sort_reverse key lt l)
  = List.filter (λ y, bool_decide (key y = k)) l.
Proof.
  intros Hirr.
  assert (∀ x l0,
            List.filter (λ y, bool_decide (key y = k))
              (insert_by key (λ kx ky, bool_decide (lt kx ky)) x l0)
            = List.filter (λ y, bool_decide (key y = k)) (x :: l0)) as Hins.
  { intros x l0. induction l0 as [|y l0 IH]; [done|].
    cbn [insert_by]. case_bool_decide as Hxy; [|done].
    cbn [List.filter] in IH |- *. rewrite IH.
    destruct (bool_decide_reflect (key x = k)) as [Hx|Hx],
      (bool_decide_reflect (key y = k)) as [Hy|Hy]; try done.
    rewrite Hx, Hy in Hxy. by apply Hirr in Hxy. }
  induction l as [|x l IH]; [done|].
  cbn [py_sort_reverse foldr]. fold (py_sort_reverse key lt l).
  rewrite Hins. cbn [List.filter]. by rewrite IH.
Qed.

End PySortMore.

(** ** More on the badge evaluator *)

Module BadgesMore.
Import Badges BadgesFacts.

Lemma badges_of_type_elem_of (t : string) (d : db) (b : Badge) :
  b ∈ badges_of_type t d ↔ b ∈ badges d ∧ requirement_type b = t.
Proof.
  unfold badges_of_type. rewrite py_sort_perm.
  rewrite list_elem_of_In, filter_In, <- list_elem_of_In.
  by rewrite String.eqb_eq.
Qed.

Lemma badges_of_type_extends (t : string) (d d' : db) :
  extends d d' → badges_of_type t d' = badges_of_type t d.
Proof. intros (_ & Hb & _). unfold badges_of_type. by rewrite Hb. Qed.

Lemma grants_of_elem_of (u : user) (k : Z) (d : db) (ub : UserBadge) :
  ub ∈ grants_of u k d ↔ ub ∈ user_badges d ∧ ub = mkUserBadge u k.
Proof.
  unfold grants_of. rewrite list_elem_of_In, filter_In, <- list_elem_of_In.
  rewrite andb_true_iff, !Z.eqb_eq. destruct ub as [u' k']; simpl.
  split; [by intros [? [-> ->]]|by intros [? [= -> ->]]].
Qed.

Lemma grants_of_app (u : user) (k : Z) (d : db) (row : UserBadge) :
  grants_of u k (mkDb (watched_movies d) (badges d) (user_badges d ++ [row]))
  = grants_of u k d ++ (if decide (row = mkUserBadge u k) then [row] else []).
Proof.
  unfold grants_of. simpl. rewrite List.filter_app. f_equal. simpl.
  destruct row as [u' k']; simpl.
  destruct (Z.eqb_spec u' u), (Z.eqb_spec k' k); simpl; case_decide; by simplify_eq.
Qed.

(** *** One call of [get_or_create] *)

Lemma get_or_create_Ok (u : user) (b : Badge) (d d' : db) :
  get_or_create u b d = (Ok (), d') →
  length (grants_of u (badge_pk b) d') = 1%nat
  ∧ (∀ k, length (grants_of u k d) = 1%nat → length (grants_of u k d') = 1%nat).
Proof.
  unfold get_or_create. fold (grants_of u (badge_pk b) d).
  destruct (grants_of u (badge_pk b) d) as [|g [|g' gs]] eqn:Hg; intros [= <-].
  - split.
    + rewrite grants_of_app, Hg. by rewrite decide_True.
    + intros k Hk. rewrite grants_of_app. case_decide as Heq; [|by rewrite app_nil_r].
      injection Heq as <-. by rewrite Hg in Hk.
  - by rewrite Hg.
Qed.

Lemma get_or_create_once (u : user) (b : Badge) (d : db) :
  length (grants_of u (badge_pk b) d) = 1%nat → get_or_create u b d = (Ok (), d).
Proof.
  unfold get_or_create. fold (grants_of u (badge_pk b) d).
  by destruct (grants_of u (badge_pk b) d) as [|g [|g' gs]].
Qed.

Lemma get_or_create_new_rows (u : user) (b : Badge) (d : db) (g : UserBadge) :
  g ∈ user_badges (get_or_create u b d).2 →
  g ∈ user_badges d ∨ g = mkUserBadge u (badge_pk b).
Proof.
  unfold get_or_create. destruct (List.filter _ _) as [|? [|? ?]]; simpl; auto.
  intros [?|?%list_elem_of_singleton]%elem_of_app; auto.
Qed.

Lemma get_or_create_NoDup (u : user) (b : Badge) (d : db) :
  NoDup (user_badges d) →
  ∃ d', get_or_create u b d = (Ok (), d') ∧ NoDup (user_badges d').
Proof.
  intros Hnd. unfold get_or_create. fold (grants_of u (badge_pk b) d).
  destruct (grants_of u (badge_pk b) d) as [|g [|g' gs]] eqn:Hg.
  - eexists. split; [done|]. simpl. apply NoDup_app. split; [done|].
    split; [|apply NoDup_singleton]. intros x Hx ->%list_elem_of_singleton.
    assert (mkUserBadge u (badge_pk b) ∈ grants_of u (badge_pk b) d) as Hin
      by by apply grants_of_elem_of.
    rewrite Hg in Hin. by apply elem_of_nil in Hin.
  - by eexists.
  - exfalso.
    assert (NoDup (grants_of u (badge_pk b) d)) as Hnd'
      by by apply NoDup_ListNoDup, List.NoDup_filter, NoDup_ListNoDup.
    rewrite Hg in Hnd'.
    assert (g ∈ grants_of u (badge_pk b) d ∧ g' ∈ grants_of u (badge_pk b) d) as [H1 H2].
    { rewrite Hg. split; [by left|right; by left]. }
    apply grants_of_elem_of in H1 as [_ ->]. apply grants_of_elem_of in H2 as [_ ->].
    apply NoDup_cons in Hnd' as [Hnot _]. apply Hnot. by left.
Qed.

(** *** One award loop *)

Section Loop.
Context (u : user) (counter : Z).

Lemma award_loop_Ok (bs : list Badge) (d d' : db) :
  award_loop u counter bs d = (Ok (), d') →
  (∀ b, b ∈ bs → requirement_count b ≤ counter →
        length (grants_of u (badge_pk b) d') = 1%nat)
  ∧ (∀ k, length (grants_of u k d) = 1%nat → length (grants_of u k d') = 1%nat).
Proof.
  revert d. induction bs as [|b bs IH]; intros d; simpl.
  - intros [= <-]. split; [by intros b ?%elem_of_nil|done].
  - destruct (Z.geb_spec counter (requirement_count b)) as [Hge|Hlt].
    + destruct (get_or_create u b d) as [[[]|e] d1] eqn:Hg; [|done].
      intros Hloop. destruct (get_or_create_Ok _ _ _ _ Hg) as [Hb Hkeep].
      destruct (IH _ Hloop) as [Hbs Hkeep'].
      split; [|by auto]. intros b' [->|Hin]%elem_of_cons Hreq; auto.
    + intros Hloop. destruct (IH _ Hloop) as [Hbs Hkeep'].
      split; [|done]. intros b' [->|Hin]%elem_of_cons Hreq; [lia|auto].
Qed.

Lemma award_loop_replay (bs : list Badge) (d : db) :
  (∀ b, b ∈ bs → requirement_count b ≤ counter →
        length (grants_of u (badge_pk b) d) = 1%nat) →
  award_loop u counter bs d = (Ok (), d).
Proof.
  induction bs as [|b bs IH]; intros Hall; simpl; [done|].
  destruct (Z.geb_spec counter (requirement_count b)) as [Hge|Hlt].
  - rewrite get_or_create_once by (apply Hall; [by left|lia]).
    apply IH. intros b' Hb'. apply Hall. by right.
  - apply IH. intros b' Hb'. apply Hall. by right.
Qed.

Lemma award_loop_new_rows (bs : list Badge) (d : db) (g : UserBadge) :
  g ∈ user_badges (award_loop u counter bs d).2 →
  g ∈ user_badges d
  ∨ ∃ b, b ∈ bs ∧ requirement_count b ≤ counter ∧ g = mkUserBadge u (badge_pk b).
Proof.
  revert d. induction bs as [|b bs IH]; intros d; simpl; [auto|].
  destruct (Z.geb_spec counter (requirement_count b)) as [Hge|Hlt].
  - pose proof (get_or_create_new_rows u b d g) as Hnew.
    destruct (get_or_create u b d) as [[[]|e] d1] eqn:Hg; simpl in *.
    + intros [Hin|(b' & ? & ? & ?)]%IH.
      * destruct (Hnew Hin) as [?| ->]; [by left|]. right. exists b.
        split; [by left|]. split; [lia|done].
      * right. exists b'. split; [by right|done].
    + intros Hin. destruct (Hnew Hin) as [?| ->]; [by left|]. right. exists b.
      split; [by left|]. split; [lia|done].
  - intros [Hin|(b' & ? & ? & ?)]%IH; [by left|].
    right. exists b'. split; [by right|done].
Qed.

Lemma award_loop_NoDup (bs : list Badge) (d : db) :
  NoDup (user_badges d) →
  ∃ d', award_loop u counter bs d = (Ok (), d') ∧ NoDup (user_badges d').
Proof.
  revert d. induction bs as [|b bs IH]; intros d Hnd; simpl; [by eexists|].
  destruct (counter >=? requirement_count b); [|by apply IH].
  destruct (get_or_create_NoDup u b d Hnd) as (d1 & -> & Hnd1). by apply IH.
Qed.

End Loop.

(** *** The four loops together *)

Section Evaluator.
Context (u : user) (movies shows reviews hours : Z).

Local Abbreviation run d := (award_badges u movies shows reviews hours d).

(** The evaluator as a chain of the four loops, each started on the state
    the one before left. *)
Lemma award_badges_chain (d d' : db) :
  run d = (Ok (), d') →
  ∃ d1 d2 d3,
    award_loop u movies (badges_of_type "movies_watched" d) d = (Ok (), d1)
    ∧ award_loop u shows (badges_of_type "tv_shows_watched" d) d1 = (Ok (), d2)
    ∧ award_loop u reviews (badges_of_type "reviews_written" d) d2 = (Ok (), d3)
    ∧ award_loop u hours (badges_of_type "watch_hours" d) d3 = (Ok (), d').
Proof.
  unfold award_badges, then_.
  pose proof (award_loop_extends u movies (badges_of_type "movies_watched" d) d) as H1.
  destruct (award_loop u movies _ d) as [[[]|?] d1] eqn:E1; [|done]. simpl in H1.
  pose proof (award_loop_extends u shows (badges_of_type "tv_shows_watched" d1) d1) as H2.
  rewrite (badges_of_type_extends _ _ _ H1) in H2 |- *.
  destruct (award_loop u shows _ d1) as [[[]|?] d2] eqn:E2; [|done]. simpl in H2.
  assert (extends d d2) as H12 by by etrans.
  pose proof (award_loop_extends u reviews (badges_of_type "reviews_written" d2) d2) as H3.
  rewrite (badges_of_type_extends _ _ _ H12) in H3 |- *.
  destruct (award_loop u reviews _ d2) as [[[]|?] d3] eqn:E3; [|done]. simpl in H3.
  assert (extends d d3) as H13 by by etrans.
  rewrite (badges_of_type_extends _ _ _ H13).
  intros Hlast. by exists d1, d2, d3.
Qed.

Lemma earned_once (d d' : db) (b : Badge) :
  run d = (Ok (), d') → b ∈ badges d → earned movies shows reviews hours b →
  length (grants_of u (badge_pk b) d') = 1%nat.
Proof.
  intros (d1 & d2 & d3 & H1 & H2 & H3 & H4)%award_badges_chain Hb Hearned.
  apply award_loop_Ok in H1 as [G1 K1]. apply award_loop_Ok in H2 as [G2 K2].
  apply award_loop_Ok in H3 as [G3 K3]. apply award_loop_Ok in H4 as [G4 K4].
  destruct Hearned as [[Ht ?]|[[Ht ?]|[[Ht ?]|[Ht ?]]]].
  - apply K4, K3, K2, G1; [|done]. by apply badges_of_type_elem_of.
  - apply K4, K3, G2; [|done]. by apply badges_of_type_elem_of.
  - apply K4, G3; [|done]. by apply badges_of_type_elem_of.
  - apply G4; [|done]. by apply badges_of_type_elem_of.
Qed.

(** X7: when the evaluator finishes, the viewer holds every badge whose
    threshold the counter of its kind has reached, each exactly once. *)
Theorem earned_badges_are_granted (d d' : db) (b : Badge) :
  run d = (Ok (), d') → b ∈ badges d → earned movies shows reviews hours b →
  mkUserBadge u (badge_pk b) ∈ user_badges d'
  ∧ length (grants_of u (badge_pk b) d') = 1%nat.
Proof.
  intros Hrun Hb Hearned. pose proof (earned_once d d' b Hrun Hb Hearned) as Honce.
  split; [|done].
  destruct (grants_of u (badge_pk b) d') as [|g gs] eqn:Hg; [done|].
  assert (g ∈ grants_of u (badge_pk b) d') as Hin by (rewrite Hg; by left).
  by apply grants_of_elem_of in Hin as [? <-].
Qed.

(** X8: every grant the evaluator adds is a grant of the viewer for a badge
    whose threshold is reached; nobody else gets a row and no unearned badge
    is granted. *)
Theorem new_grants_are_earned (d : db) (g : UserBadge) :
  g ∈ user_badges (run d).2 →
  g ∈ user_badges d
  ∨ ∃ b, b ∈ badges d ∧ earned movies shows reviews hours b
         ∧ g = mkUserBadge u (badge_pk b).
Proof.
  unfold award_badges, then_.
  pose proof (award_loop_extends u movies (badges_of_type "movies_watched" d) d) as H1.
  pose proof (award_loop_new_rows u movies (badges_of_type "movies_watched" d) d g) as N1.
  destruct (award_loop u movies _ d) as [[[]|?] d1]; simpl in *.
  2:{ intros [?|(b & [??]%badges_of_type_elem_of & ? & ?)]%N1; [by left|].
      right. exists b. unfold earned. tauto. }
  pose proof (award_loop_extends u shows (badges_of_type "tv_shows_watched" d1) d1) as H2.
  pose proof (award_loop_new_rows u shows (badges_of_type "tv_shows_watched" d1) d1 g) as N2.
  rewrite (badges_of_type_extends _ _ _ H1) in *.
  destruct (award_loop u shows _ d1) as [[[]|?] d2]; simpl in *.
  2:{ intros [[?|(b & [??]%badges_of_type_elem_of & ? & ?)]%N1
              |(b & [??]%badges_of_type_elem_of & ? & ?)]%N2; [by left|..];
        right; exists b; unfold earned; tauto. }
  assert (extends d d2) as H12 by by etrans.
  pose proof (award_loop_extends u reviews (badges_of_type "reviews_written" d2) d2) as H3.
  pose proof (award_loop_new_rows u reviews (badges_of_type "reviews_written" d2) d2 g) as N3.
  rewrite (badges_of_type_extends _ _ _ H12) in *.
  destruct (award_loop u reviews _ d2) as [[[]|?] d3]; simpl in *.
  2:{ intros [[[?|(b & [??]%badges_of_type_elem_of & ? & ?)]%N1
               |(b & [??]%badges_of_type_elem_of & ? & ?)]%N2
              |(b & [??]%badges_of_type_elem_of & ? & ?)]%N3; [by left|..];
        right; exists b; unfold earned; tauto. }
  assert (extends d d3) as H13 by by etrans.
  rewrite (badges_of_type_extends _ _ _ H13).
  intros [[[[?|(b & [??]%badges_of_type_elem_of & ? & ?)]%N1
            |(b & [??]%badges_of_type_elem_of & ? & ?)]%N2
           |(b & [??]%badges_of_type_elem_of & ? & ?)]%N3
          |(b & [??]%badges_of_type_elem_of & ? & ?)]%award_loop_new_rows; [by left|..];
    right; exists b; unfold earned; tauto.
Qed.

(** X9: a second evaluation with the same counters changes nothing: it ends
    without error in the state the first one left. *)
Theorem evaluator_is_idempotent (d d' : db) :
  run d = (Ok (), d') → run d' = (Ok (), d').
Proof.
  intros Hrun. pose proof (award_badges_extends u movies shows reviews hours d) as Hext.
  rewrite Hrun in Hext. simpl in Hext.
  assert (∀ t counter,
            (∀ b, b ∈ badges_of_type t d → requirement_count b ≤ counter →
                  earned movies shows reviews hours b) →
            award_loop u counter (badges_of_type t d') d' = (Ok (), d')) as Hloop.
  { intros t counter Hearned. apply award_loop_replay. intros b Hb Hreq.
    rewrite (badges_of_type_extends _ _ _ Hext) in Hb.
    apply (earned_once d d' b Hrun); [by apply badges_of_type_elem_of in Hb as [? _]|].
    by apply Hearned. }
  unfold award_badges, then_.
  rewrite !Hloop; [done|..]; intros b [_ Ht]%badges_of_type_elem_of Hreq;
    unfold earned; tauto.
Qed.

(** X10: on a table of grants without duplicate rows the evaluator never raises,
    and it leaves the table without duplicates. *)
Theorem evaluator_keeps_grants_unique (d : db) :
  NoDup (user_badges d) →
  ∃ d', run d = (Ok (), d') ∧ NoDup (user_badges d').
Proof.
  intros Hnd. unfold award_badges, then_.
  destruct (award_loop_NoDup u movies (badges_of_type "movies_watched" d) d Hnd)
    as (d1 & -> & Hnd1).
  destruct (award_loop_NoDup u shows (badges_of_type "tv_shows_watched" d1) d1 Hnd1)
    as (d2 & -> & Hnd2).
  destruct (award_loop_NoDup u reviews (badges_of_type "reviews_written" d2) d2 Hnd2)
    as (d3 & -> & Hnd3).
  by apply award_loop_NoDup.
Qed.

End Evaluator.

Lemma earned_badges_are_granted_witness :
  mkUserBadge 1 8 ∈ user_badges (award_badges 1 2 1 1 11 example_db).2
  ∧ length (grants_of 1 8 (award_badges 1 2 1 1 11 example_db).2) = 1%nat.
Proof.
  apply (earned_badges_are_granted 1 2 1 1 11 example_db _ (mkBadge 8 "First Steps" 1 "movies_watched")).
  - reflexivity.
  - repeat constructor.
  - left. split; [reflexivity|simpl; lia].
Defined.

Lemma new_grants_are_earned_witness :
  mkUserBadge 1 9 ∈ user_badges example_db
  ∨ ∃ b, b ∈ badges example_db ∧ earned 2 1 1 11 b ∧ mkUserBadge 1 9 = mkUserBadge 1 (badge_pk b).
Proof.
  apply (new_grants_are_earned 1 2 1 1 11 example_db (mkUserBadge 1 9)).
  vm_compute. repeat constructor.
Defined.

Lemma evaluator_is_idempotent_witness :
  award_badges 1 2 1 1 11 (award_badges 1 2 1 1 11 example_db).2
  = (Ok (), (award_badges 1 2 1 1 11 example_db).2).
Proof.
  apply (evaluator_is_idempotent 1 2 1 1 11 example_db). reflexivity.
Defined.

Lemma evaluator_keeps_grants_unique_witness :
  ∃ d', award_badges 1 2 1 1 11 example_db = (Ok (), d') ∧ NoDup (user_badges d').
Proof.
  apply (evaluator_keeps_grants_unique 1 2 1 1 11 example_db).
  repeat constructor. by intros ?%elem_of_nil.
Defined.

End BadgesMore.

(** ** More on the provider refresh *)

Module ProvidersMore.
Import Providers ProvidersFacts.

(** *** Steps that keep a property *)

Section Preserves.
Context (I : conn → Prop).

Lemma preserves_lift {A} (r : res A) : preserves I (lift r).
Proof. by intros c r' c' [= <- <-]. Qed.

Lemma preserves_ret {A} (a : A) : preserves I (mret a).
Proof. apply (preserves_lift (Ok a)). Qed.

Lemma preserves_bind {A B} (m : M A) (f : A → M B) :
  preserves I m → (∀ a, preserves I (f a)) → preserves I (m ≫= f).
Proof.
  intros Hm Hf c r c' Hrun Hc. unfold mbind, M_bind in Hrun.
  destruct (m c) as [[a|e] c1] eqn:Hmc.
  - eapply Hf; [exact Hrun|]. by eapply Hm.
  - injection Hrun as <- <-. by eapply Hm.
Qed.

Lemma preserves_for_ {X} (body : X → M unit) (xs : list X) :
  (∀ x, x ∈ xs → preserves I (body x)) → preserves I (for_ body xs).
Proof.
  induction xs as [|x xs IH]; intros Hbody; simpl.
  - apply preserves_ret.
  - apply preserves_bind; [apply Hbody; by left|].
    intros _. apply IH. intros y Hy. apply Hbody. by right.
Qed.

End Preserves.

(** How an update ends: the loops run from [start_of_update]; the answer is
    [True] only when they finish, and the writes are kept unless the
    connection got marked. *)
Lemma update_providers_outcome (t : table) (item : Z) (providers_data : json) (c : conn) :
  ∃ r c1,
    after_delete t item providers_data (start_of_update t item c) = (r, c1)
    ∧ update_providers t item providers_data c
      = (Ok (match r with Ok b => b | Raise _ => false end),
         if needs_rollback c1 then set_needs_rollback false c else c1).
Proof.
  destruct (after_delete t item providers_data (start_of_update t item c)) as [r c1] eqn:Hrun.
  exists r, c1. split; [done|].
  unfold update_providers, atomic, try_except.
  change (replace_rows t item providers_data (set_needs_rollback false c))
    with (after_delete t item providers_data (start_of_update t item c)).
  rewrite Hrun. destruct r; unfold mret, M_ret; by destruct (needs_rollback c1).
Qed.

(** *** What one call of [get_or_create] does to the provider table *)

Lemma StreamingProvider_get_or_create_outcome
    (tmdb_id name logo_path display_priority : json) (c c' : conn) (r : res StreamingProvider) :
  StreamingProvider_get_or_create tmdb_id name logo_path display_priority c = (r, c') →
  c' = c
  ∨ ∃ p, lookup (Some (sp_tmdb_id p)) (streaming_providers c) = []
         ∧ sp_pk p = next_pk (streaming_providers c)
         ∧ c' = set_streaming_providers (streaming_providers c ++ [p]) c.
Proof.
  unfold StreamingProvider_get_or_create.
  destruct (to_int_field tmdb_id) as [k|e]; [|intros [= _ <-]; by left].
  fold (lookup k (streaming_providers c)).
  destruct (lookup k (streaming_providers c)) as [|p [|p' ps]] eqn:Hlook;
    [|intros [= _ <-]; by left..].
  destruct (to_int_field display_priority) as [priority|e]; [|intros [= _ <-]; by left].
  destruct k as [i|], (to_char_field name) as [n|], (to_char_field logo_path) as [lp|],
    priority as [d|]; try (intros [= _ <-]; by left).
  intros [= _ <-]. right. by eexists (mkStreamingProvider _ n i lp d).
Qed.

Lemma get_or_create_provider_outcome (provider_data : json) (c c' : conn)
    (r : res StreamingProvider) :
  get_or_create_provider provider_data c = (r, c') →
  c' = c
  ∨ ∃ p, lookup (Some (sp_tmdb_id p)) (streaming_providers c) = []
         ∧ sp_pk p = next_pk (streaming_providers c)
         ∧ c' = set_streaming_providers (streaming_providers c ++ [p]) c.
Proof.
  unfold get_or_create_provider, mbind, M_bind, lift.
  destruct (py_index provider_data "provider_id"); [|intros [= _ <-]; by left].
  destruct (py_index provider_data "provider_name"); [|intros [= _ <-]; by left].
  destruct (py_get_default provider_data "logo_path" _); [|intros [= _ <-]; by left].
  destruct (py_get_default provider_data "display_priority" _); [|intros [= _ <-]; by left].
  apply StreamingProvider_get_or_create_outcome.
Qed.

Lemma create_outcome (t : table) (item : Z) (p : StreamingProvider) (region type : string)
    (c c' : conn) (r : res unit) :
  create t item p region type c = (r, c') →
  c' = mark_for_rollback c
  ∨ c' = set_rows t (rows t c ++ [mkAvailability item (sp_pk p) region type]) c.
Proof. unfold create. case_bool_decide; intros [= _ <-]; auto. Qed.

(** *** The loops of an update, for any property of the two kinds of step *)

Section Loops.
Context (t : table) (item : Z) (I : conn → Prop).
Hypothesis I_provider : ∀ c p,
  lookup (Some (sp_tmdb_id p)) (streaming_providers c) = [] →
  sp_pk p = next_pk (streaming_providers c) →
  I c → I (set_streaming_providers (streaming_providers c ++ [p]) c).
Hypothesis I_mark : ∀ c, I c → I (mark_for_rollback c).
Hypothesis I_row : ∀ c p region type,
  region ∈ ALLOWED_REGIONS → type ∈ ["flatrate"; "rent"; "buy"] →
  I c → I (set_rows t (rows t c ++ [mkAvailability item (sp_pk p) region type]) c).

Lemma preserves_process_offers (region : string) (region_data : json) (offer : string) :
  region ∈ ALLOWED_REGIONS → offer ∈ ["flatrate"; "rent"; "buy"] →
  preserves I (process_offers t item region region_data offer).
Proof.
  intros Hregion Hoffer. unfold process_offers.
  apply preserves_bind; [apply preserves_lift|intros offers].
  apply preserves_for_. intros provider_data _. apply preserves_bind.
  - intros c r c' [->|(p & ? & ? & ->)]%get_or_create_provider_outcome Hc; auto.
  - intros provider c r c' [->| ->]%create_outcome Hc; auto.
Qed.

Lemma preserves_process_region (entry : string * json) :
  preserves I (process_region t item entry).
Proof.
  destruct entry as [region region_data]. unfold process_region.
  case_bool_decide as Hregion; simpl; [|apply preserves_ret].
  repeat (apply preserves_bind; [|intros _]);
    apply preserves_process_offers; (done || (repeat constructor)).
Qed.

Lemma preserves_after_delete (providers_data : json) :
  preserves I (after_delete t item providers_data).
Proof.
  unfold after_delete. apply preserves_bind; [apply preserves_lift|intros regions].
  apply preserves_bind; [|intros _; apply preserves_ret].
  apply preserves_for_. intros entry _. apply preserves_process_region.
Qed.

End Loops.

(** *** The rows an update leaves alone *)

Lemma filter_other_item (j item : Z) (l : list Availability) :
  j ≠ item →
  List.filter (λ r, content r =? j) (List.filter (λ r, negb (content r =? item)) l)
  = List.filter (λ r, content r =? j) l.
Proof.
  intros Hj. induction l as [|r l IH]; [done|]. cbn [List.filter].
  destruct (content r =? item) eqn:Hi; cbn [negb List.filter].
  - apply Z.eqb_eq in Hi. rewrite IH.
    by rewrite (proj2 (Z.eqb_neq (content r) j)) by lia.
  - destruct (content r =? j); by rewrite IH.
Qed.

Lemma rows_set_needs_rollback (t : table) (b : bool) (c : conn) :
  rows t (set_needs_rollback b c) = rows t c.
Proof. by destruct t. Qed.

Lemma update_providers_frame (t : table) (item : Z) (providers_data : json) (c : conn) :
  ∃ b c', update_providers t item providers_data c = (Ok b, c')
    ∧ rows (other t) c' = rows (other t) c
    ∧ List.filter (λ r, negb (content r =? item)) (rows t c')
      = List.filter (λ r, negb (content r =? item)) (rows t c).
Proof.
  destruct (update_providers_outcome t item providers_data c) as (r & c1 & Hrun & ->).
  eexists _, _. split; [done|].
  destruct (stable_after_delete t item _ _ _ _ Hrun) as (_ & (Hother & Hrows & _) & _).
  unfold start_of_update in Hother, Hrows.
  rewrite rows_other_set_rows in Hother.
  rewrite rows_set_rows, filter_others_twice in Hrows.
  rewrite !rows_set_needs_rollback in *.
  destruct (needs_rollback c1); [by rewrite !rows_set_needs_rollback|done].
Qed.

(** X11: an update of one content item never raises, whatever the response
    is; it leaves the table of the other kind of content as it was, and in
    its own table it leaves the rows of every other item as they were. *)
Theorem update_touches_one_item (t : table) (item : Z) (providers_data : json) (c : conn)
    (j : Z) :
  let run := update_providers t item providers_data c in
  (∃ b, run.1 = Ok b)
  ∧ rows (other t) run.2 = rows (other t) c
  ∧ (j ≠ item → rows_of t j run.2 = rows_of t j c).
Proof.
  destruct (update_providers_frame t item providers_data c) as (b & c' & -> & Ho & Hr).
  simpl. split; [by exists b|]. split; [done|].
  intros Hj. unfold rows_of.
  by rewrite <- (filter_other_item j item (rows t c')), Hr, filter_other_item.
Qed.

(** *** The rows an update writes *)

Lemma rows_of_set_streaming_providers (t : table) (item : Z) l (c : conn) :
  rows_of t item (set_streaming_providers l c) = rows_of t item c.
Proof. by destruct t. Qed.

Lemma rows_of_set_needs_rollback (t : table) (item : Z) (b : bool) (c : conn) :
  rows_of t item (set_needs_rollback b c) = rows_of t item c.
Proof. by destruct t. Qed.

Lemma rows_of_new_row (t : table) (item : Z) (row : Availability) (c : conn) :
  content row = item →
  rows_of t item (set_rows t (rows t c ++ [row]) c) = rows_of t item c ++ [row].
Proof.
  intros Hrow. unfold rows_of. rewrite rows_set_rows, List.filter_app.
  cbn [List.filter]. by rewrite Hrow, Z.eqb_refl.
Qed.

Lemma rows_of_start_of_update (t : table) (item : Z) (c : conn) :
  rows_of t item (start_of_update t item c) = [].
Proof.
  unfold rows_of, start_of_update. by rewrite rows_set_rows, filter_item_of_others.
Qed.

(** X12: after an update the rows of the item are either the ones it had
    (the update was undone) or every one of them is for an allowed region
    and carries one of the three offer types: nothing else is ever written,
    also when the update fails half way. *)
Theorem updated_rows_are_allowed (t : table) (item : Z) (providers_data : json) (c : conn) :
  let c' := (update_providers t item providers_data c).2 in
  rows_of t item c' = rows_of t item c ∨ Forall allowed_row (rows_of t item c').
Proof.
  destruct (update_providers_outcome t item providers_data c) as (r & c1 & Hrun & ->).
  simpl. destruct (needs_rollback c1); [left; apply rows_of_set_needs_rollback|right].
  refine (preserves_after_delete t item (λ c, Forall allowed_row (rows_of t item c))
            _ _ _ providers_data _ _ _ Hrun _).
  - intros c0 p _ _. by rewrite rows_of_set_streaming_providers.
  - intros c0. unfold mark_for_rollback. by rewrite rows_of_set_needs_rollback.
  - intros c0 p region type Hregion Htype Hc0. rewrite rows_of_new_row by done.
    apply Forall_app. split; [done|]. by apply Forall_singleton.
  - rewrite rows_of_start_of_update. constructor.
Qed.

(** *** The provider table *)

Lemma next_pk_above (l : list StreamingProvider) (p : StreamingProvider) :
  p ∈ l → sp_pk p < next_pk l.
Proof.
  unfold next_pk. induction l as [|q l IH]; [by intros ?%elem_of_nil|].
  rewrite fmap_cons. cbn [foldr].
  intros [->|Hp%IH]%elem_of_cons; lia.
Qed.

Lemma lookup_nil_not_elem (k : Z) (l : list StreamingProvider) :
  lookup (Some k) l = [] → k ∉ sp_tmdb_id <$> l.
Proof.
  intros Hnil (p & -> & Hp)%list_elem_of_fmap.
  assert (p ∈ lookup (Some (sp_tmdb_id p)) l) as Hin.
  { apply list_elem_of_In, filter_In. split; [by apply list_elem_of_In|].
    by apply bool_decide_eq_true_2. }
  rewrite Hnil in Hin. by apply elem_of_nil in Hin.
Qed.

Lemma providers_unique_new (c : conn) (p : StreamingProvider) :
  lookup (Some (sp_tmdb_id p)) (streaming_providers c) = [] →
  sp_pk p = next_pk (streaming_providers c) →
  providers_unique c →
  providers_unique (set_streaming_providers (streaming_providers c ++ [p]) c).
Proof.
  intros Hnew Hpk [Hids Hpks]. unfold providers_unique. cbn [streaming_providers
    set_streaming_providers]. rewrite !fmap_app. split.
  - apply NoDup_app. split; [done|]. split; [|apply NoDup_singleton].
    intros k Hk ->%list_elem_of_singleton. by apply lookup_nil_not_elem in Hnew.
  - apply NoDup_app. split; [done|]. split; [|apply NoDup_singleton].
    intros k (q & -> & Hq)%list_elem_of_fmap Heq%list_elem_of_singleton.
    apply next_pk_above in Hq. lia.
Qed.

Lemma streaming_providers_set_rows (t : table) l (c : conn) :
  streaming_providers (set_rows t l c) = streaming_providers c.
Proof. by destruct t. Qed.

(** X13: an update keeps the provider table in order: when no two
    providers share a TMDB id or a primary key before, none do after; and
    the providers that were there stay, unchanged and in place, new ones
    being added behind them. *)
Theorem update_keeps_providers (t : table) (item : Z) (providers_data : json) (c : conn) :
  providers_unique c →
  let c' := (update_providers t item providers_data c).2 in
  providers_unique c' ∧ streaming_providers c `prefix_of` streaming_providers c'.
Proof.
  intros Hc.
  destruct (update_providers_outcome t item providers_data c) as (r & c1 & Hrun & ->).
  simpl. destruct (needs_rollback c1); [by split|].
  refine (preserves_after_delete t item
            (λ c0, providers_unique c0
                   ∧ streaming_providers c `prefix_of` streaming_providers c0)
            _ _ _ providers_data _ _ _ Hrun _).
  - intros c0 p Hnew Hpk [Hu Hp]. split; [by apply providers_unique_new|].
    cbn [streaming_providers set_streaming_providers]. by apply prefix_app_r.
  - by intros c0.
  - intros c0 p region type _ _. unfold providers_unique.
    by rewrite streaming_providers_set_rows.
  - unfold start_of_update, providers_unique. rewrite streaming_providers_set_rows.
    by split.
Qed.

Lemma update_keeps_providers_witness :
  let c' := (update_movie_providers 42 complete_response example_conn).2 in
  providers_unique c' ∧ streaming_providers example_conn `prefix_of` streaming_providers c'.
Proof.
  apply (update_keeps_providers MovieProvider 42 complete_response example_conn).
  split; simpl; apply NoDup_singleton.
Defined.

(** *** Regions outside the allowed list *)

Lemma for_process_region_allowed (t : table) (item : Z) (d : list (string * json))
    (c : conn) :
  for_ (process_region t item) d c
  = for_ (process_region t item)
      (List.filter (λ e, bool_decide (e.1 ∈ ALLOWED_REGIONS)) d) c.
Proof.
  revert c. induction d as [|[region region_data] d IH]; intros c; [done|].
  cbn [List.filter fst]. destruct (bool_decide (region ∈ ALLOWED_REGIONS)) eqn:Hregion.
  - cbn [for_]. unfold mbind, M_bind.
    destruct (process_region t item (region, region_data) c) as [[[]|e] c1]; [apply IH|done].
  - cbn [for_]. unfold mbind, M_bind, process_region. rewrite Hregion. simpl. apply IH.
Qed.

(** X14: the entries of a response for regions outside [ALLOWED_REGIONS]
    play no part: an update on the response and an update on the response
    without them end with the same answer and the same database, however
    those entries look. *)
Theorem other_regions_are_ignored (t : table) (item : Z) (d : list (string * json))
    (c : conn) :
  update_providers t item (JDict d) c
  = update_providers t item
      (JDict (List.filter (λ e, bool_decide (e.1 ∈ ALLOWED_REGIONS)) d)) c.
Proof.
  unfold update_providers, atomic, try_except, replace_rows, mbind, M_bind, delete_for, lift.
  cbn [py_items]. by rewrite for_process_region_allowed.
Qed.

(** *** The loop of the command *)

Section HandleFacts.
Context (fetch_watch_providers : string → Z → json) (t : table) (media_type : string).

Lemma handle_loop_cons (it : Item) (items : list Item) (updated skipped : Z) (c : conn) :
  ∃ (b : bool) c',
    handle_loop fetch_watch_providers t media_type (it :: items) (updated, skipped) c
          = handle_loop fetch_watch_providers t media_type items
              (if b then (updated + 1, skipped) else (updated, skipped + 1)) c'
    ∧ rows (other t) c' = rows (other t) c
    ∧ List.filter (λ r, negb (content r =? item_pk it)) (rows t c')
      = List.filter (λ r, negb (content r =? item_pk it)) (rows t c)
    ∧ (truthy (fetch_watch_providers media_type (item_tmdb_id it)) = false →
       b = false ∧ c' = c).
Proof.
  cbn [handle_loop].
  destruct (truthy (fetch_watch_providers media_type (item_tmdb_id it))).
  - destruct (update_providers_frame t (item_pk it)
                (fetch_watch_providers media_type (item_tmdb_id it)) c)
      as (b & c' & -> & Ho & Hr).
    exists b, c'. by destruct b.
  - by exists false, c.
Qed.

(** X15: one loop of the command counts every item of the batch once, as
    updated or as skipped; it leaves the table of the other kind of content
    as it was, and the rows of the items outside the batch as they were. *)
Theorem handle_loop_counts_every_item (items : list Item) (updated skipped : Z) (c : conn)
    (j : Z) :
  let run := handle_loop fetch_watch_providers t media_type items (updated, skipped) c in
  run.1.1 + run.1.2 = updated + skipped + Z.of_nat (length items)
  ∧ updated ≤ run.1.1 ∧ skipped ≤ run.1.2
  ∧ rows (other t) run.2 = rows (other t) c
  ∧ (j ∉ item_pk <$> items → rows_of t j run.2 = rows_of t j c).
Proof.
  revert updated skipped c. induction items as [|it items IH]; intros updated skipped c.
  - simpl. repeat split; lia.
  - destruct (handle_loop_cons it items updated skipped c) as (b & c' & -> & Ho & Hr & _).
    cbv zeta in IH |- *. rewrite fmap_cons, not_elem_of_cons.
    destruct b; [specialize (IH (updated + 1) skipped c')
                |specialize (IH updated (skipped + 1) c')];
      destruct IH as (Hsum & Hu & Hs & Hother & Hrows);
      (split; [rewrite Hsum; cbn [length]; lia|]);
      (split; [lia|]); (split; [lia|]); (split; [congruence|]);
      intros [Hj Hnot]; rewrite (Hrows Hnot); unfold rows_of;
      by rewrite <- (filter_other_item j (item_pk it) (rows t c')), Hr, filter_other_item.
Qed.

(** X16: when the fetch answers nothing for every item of the batch (the
    empty dict that [fetch_watch_providers] returns on every failure), the
    loop skips them all and the database is not written to. *)
Theorem failed_fetches_change_nothing (items : list Item) (updated skipped : Z) (c : conn) :
  (∀ it, it ∈ items → truthy (fetch_watch_providers media_type (item_tmdb_id it)) = false) →
  handle_loop fetch_watch_providers t media_type items (updated, skipped) c
  = ((updated, skipped + Z.of_nat (length items)), c).
Proof.
  revert skipped. induction items as [|it items IH]; intros skipped Hfalsy.
  - simpl. by rewrite Z.add_0_r.
  - destruct (handle_loop_cons it items updated skipped c) as (b & c' & -> & _ & _ & Hskip).
    destruct Hskip as [-> ->]; [apply Hfalsy; left|].
    rewrite IH by (intros; apply Hfalsy; by right).
    do 2 f_equal. cbn [length]. lia.
Qed.

End HandleFacts.

Lemma failed_fetches_change_nothing_witness :
  handle_loop (λ _ _, JDict []) MovieProvider "movie" example_batch (0, 0) example_conn
  = ((0, 0 + Z.of_nat (length example_batch)), example_conn).
Proof.
  apply (failed_fetches_change_nothing (λ _ _, JDict []) MovieProvider "movie"
           example_batch 0 0 example_conn).
  reflexivity.
Defined.

End ProvidersMore.

(** ** More on pagination *)

Module PaginationMore.
Import Pagination PaginationFacts.

Section Facts.
Context {A : Type}.
Implicit Types (items : list A) (pp k : Z).
Local Abbreviation len items := (Z.of_nat (length items)).

Lemma pages_of_covers n pp : 1 ≤ pp → Z.max 1 n ≤ pages_of n pp * pp.
Proof.
  intros Hpp. unfold pages_of.
  pose proof (Z.div_mod (- Z.max 1 n) pp ltac:(lia)) as Hdm.
  pose proof (Z.mod_pos_bound (- Z.max 1 n) pp ltac:(lia)) as Hb.
  nia.
Qed.

Lemma shown_in_range items pp k :
  1 ≤ pp → 1 ≤ k ≤ pages_of (len items) pp →
  shown items (PyInt k) pp = page_items items pp k.
Proof.
  intros Hpp [Hk1 Hk2]. unfold shown. rewrite paginate_results_cases by done.
  cbn [py_int]. destruct (Z.leb_spec 1 k); [|lia].
  by destruct (Z.leb_spec k (pages_of (len items) pp)); [|lia].
Qed.

(** Consecutive chunks of [m] items, [n] of them, make up a list of at most
    [n * m] items. *)
Lemma chunks_concat (m n : nat) items :
  (length items ≤ n * m)%nat →
  concat ((λ i : nat, take m (drop ((i - 1) * m)%nat items)) <$> seq 1 n) = items.
Proof.
  revert items. induction n as [|n IH]; intros items Hlen.
  - destruct items; [done|simpl in Hlen; lia].
  - cbn [seq]. rewrite fmap_cons. cbn [concat].
    etrans; [|apply (take_drop m items)]. f_equal.
    rewrite <- (IH (drop m items)) by (rewrite length_drop; lia).
    f_equal. rewrite <- seq_shift, <- list_fmap_compose.
    apply list_fmap_ext. intros j i Hi. cbn [compose]. rewrite drop_drop.
    apply list_elem_of_lookup_2, elem_of_seq in Hi.
    do 2 f_equal. destruct i as [|i]; [lia|].
    replace (S (S i) - 1)%nat with (S i) by lia.
    replace (S i - 1)%nat with i by lia. simpl. lia.
Qed.

(** X17: the pages of a list are a partition of it: with a positive page
    size, the items shown for the page numbers 1 to the page count, one
    after the other, are the list itself, every item once and in order. *)
Theorem pages_partition_the_items items pp :
  1 ≤ pp →
  concat ((λ i : nat, shown items (PyInt (Z.of_nat i)) pp)
            <$> seq 1 (Z.to_nat (pages_of (len items) pp)))
  = items.
Proof.
  intros Hpp.
  pose proof (pages_of_covers (len items) pp Hpp) as Hcover.
  etrans; [|apply (chunks_concat (Z.to_nat pp) (Z.to_nat (pages_of (len items) pp)));
            nia].
  f_equal. apply list_fmap_ext. intros j i Hi.
  apply list_elem_of_lookup_2, elem_of_seq in Hi.
  rewrite shown_in_range by lia. unfold page_items. do 2 f_equal. nia.
Qed.


(** X18: whatever the page argument is, the page shown for a list that is
    not empty holds at least one item and at most a page full, and these
    are consecutive items of the list; for the empty list the page is the
    empty page 1. *)
Theorem shown_page_is_never_empty items pp (arg : pyarg) :
  1 ≤ pp →
  ∃ pg, paginate_results items arg pp = Ok pg
    ∧ (items ≠ [] → 1 ≤ len (page_object_list pg) ≤ pp)
    ∧ (items = [] → pg = mkPage [] 1)
    ∧ ∃ before after, items = before ++ page_object_list pg ++ after.
Proof.
  intros Hpp.
  pose proof (pages_of_pos (len items) pp Hpp) as Hnp.
  pose proof (pages_of_last (len items) pp Hpp) as Hlast.
  assert (∀ k, 1 ≤ k ≤ pages_of (len items) pp →
            (items ≠ [] → 1 ≤ len (page_items items pp k) ≤ pp)
            ∧ (items = [] → mkPage (page_items items pp k) k = mkPage [] 1)
            ∧ ∃ before after, items = before ++ page_items items pp k ++ after) as Hpage.
  { intros k Hk. unfold page_items. split; [|split].
    - intros Hne. rewrite length_take, length_drop.
      assert (1 ≤ len items) by (destruct items; [done|simpl; lia]). nia.
    - intros ->. rewrite drop_nil, take_nil. f_equal.
      cbn [length] in Hlast, Hk. nia.
    - exists (take (Z.to_nat ((k - 1) * pp)) items),
        (drop (Z.to_nat pp) (drop (Z.to_nat ((k - 1) * pp)) items)).
      by rewrite take_drop, take_drop. }
  rewrite paginate_results_cases by done.
  destruct (py_int arg) as [n|e]; [|eexists; split; [done|apply Hpage; lia]].
  destruct (Z.leb_spec 1 n), (Z.leb_spec n (pages_of (len items) pp)); simpl;
    (eexists; split; [done|apply Hpage; lia]).
Qed.

(** X19: for the arguments of the model (an [int], [None], or a str of
    ASCII characters) the profile page paginates like [paginate_results]
    with twelve items per page whenever [int()] accepts the argument, out
    of range included; but an argument [int()] rejects, which
    [paginate_results] answers with page 1, makes it raise
    [PageNotAnInteger]. *)
Theorem profile_page_only_catches_empty_page items (arg : pyarg) :
  ascii_arg arg →
  match py_int arg with
  | Ok _ => profile_page items arg = paginate_results items arg 12
  | Raise _ =>
      profile_page items arg = Raise PageNotAnInteger
      ∧ paginate_results items arg 12 = Ok (mkPage (page_items items 12 1) 1)
  end.
Proof.
  intros _. destruct (py_int arg) as [n|e] eqn:Harg.
  - unfold profile_page, paginate_results.
    destruct (page (new_paginator items 12) arg) as [pg|e] eqn:Hpage; [done|].
    destruct e; try done.
    unfold page, validate_number in Hpage. rewrite Harg in Hpage.
    destruct (n <? 1); [done|]. rewrite num_pages_new in Hpage by lia. simpl in Hpage.
    by destruct (n >? _).
  - split.
    + unfold profile_page. by rewrite (page_not_integer items 12 arg e).
    + rewrite paginate_results_cases by lia. by rewrite Harg.
Qed.

End Facts.

Lemma pages_partition_the_items_witness :
  concat ((λ i : nat, shown thirty (PyInt (Z.of_nat i)) 10) <$> seq 1 3) = thirty.
Proof. apply (pages_partition_the_items thirty 10). lia. Defined.

Lemma profile_page_only_catches_empty_page_witness :
  (profile_page thirty (PyStr "abc") = Raise PageNotAnInteger
   ∧ paginate_results thirty (PyStr "abc") 12 = Ok (mkPage (Z.of_nat <$> seq 0 12) 1))
  ∧ (profile_page thirty (PyStr (String (ascii_of_nat 28) "5")) = Raise PageNotAnInteger
     ∧ paginate_results thirty (PyStr (String (ascii_of_nat 28) "5")) 12
       = Ok (mkPage (Z.of_nat <$> seq 0 12) 1))
  ∧ profile_page thirty (PyStr "5") = paginate_results thirty (PyStr "5") 12.
Proof.
  split; [|split].
  - exact (profile_page_only_catches_empty_page thirty (PyStr "abc") eq_refl).
  - exact (profile_page_only_catches_empty_page thirty
             (PyStr (String (ascii_of_nat 28) "5")) eq_refl).
  - exact (profile_page_only_catches_empty_page thirty (PyStr "5") eq_refl).
Defined.

Lemma shown_page_is_never_empty_witness :
  ∃ pg, paginate_results thirty (PyStr "7") 10 = Ok pg
    ∧ (thirty ≠ [] → 1 ≤ Z.of_nat (length (page_object_list pg)) ≤ 10)
    ∧ (thirty = [] → pg = mkPage [] 1)
    ∧ ∃ before after, thirty = before ++ page_object_list pg ++ after.
Proof. apply (shown_page_is_never_empty thirty 10 (PyStr "7")). lia. Defined.

End PaginationMore.

(** ** More on the content pipeline *)

Module ContentMore.
Import Content ContentFacts.

(** *** The provider buckets *)

Lemma add_provider_loop (l : list ProviderInfo) (acc : Providers) :
  for_each add_provider l acc
  = if existsb (λ provider_info, String.eqb (type provider_info) "available") l
    then Raise AttributeError
    else Ok (mkProviders (flatrate acc ++ offers "flatrate" l) (rent acc ++ offers "rent" l)
               (buy acc ++ offers "buy" l) (available acc)).
Proof.
  revert acc. induction l as [|x l IH]; intros acc.
  - destruct acc. simpl. by rewrite !app_nil_r.
  - cbn [for_each existsb]. set (loop := for_each add_provider l) in *.
    unfold add_provider. fold (provider_data_of x).
    unfold offers. cbn [List.filter].
    destruct (String.eqb_spec (type x) "flatrate") as [Hf|Hf];
      [rewrite Hf; cbn [String.eqb Ascii.eqb Bool.eqb orb mbind res_bind]; rewrite IH;
       cbn [flatrate rent buy available fmap list_fmap]; by rewrite <- app_assoc|].
    destruct (String.eqb_spec (type x) "rent") as [Hr|Hr];
      [rewrite Hr; cbn [String.eqb Ascii.eqb Bool.eqb orb mbind res_bind]; rewrite IH;
       cbn [flatrate rent buy available fmap list_fmap]; by rewrite <- app_assoc|].
    destruct (String.eqb_spec (type x) "buy") as [Hb|Hb];
      [rewrite Hb; cbn [String.eqb Ascii.eqb Bool.eqb orb mbind res_bind]; rewrite IH;
       cbn [flatrate rent buy available fmap list_fmap]; by rewrite <- app_assoc|].
    destruct (String.eqb_spec (type x) "available") as [Ha|Ha]; [done|].
    cbn [orb mbind res_bind]. by rewrite IH.
Qed.

Lemma nonempty_offers (offer : string) (l : list ProviderInfo) :
  nonempty (offers offer l)
  = existsb (λ provider_info, String.eqb (type provider_info) offer) l.
Proof.
  unfold offers. induction l as [|x l IH]; [done|]. cbn [List.filter existsb].
  by destruct (String.eqb (type x) offer).
Qed.

Lemma existsb_offer_types (l : list ProviderInfo) :
  existsb (λ provider_info, String.eqb (type provider_info) "flatrate") l
  || existsb (λ provider_info, String.eqb (type provider_info) "rent") l
  || existsb (λ provider_info, String.eqb (type provider_info) "buy") l
  = existsb (λ provider_info, bool_decide (type provider_info ∈ offer_types)) l.
Proof.
  induction l as [|x l IH]; [done|]. cbn [existsb]. rewrite <- IH.
  assert (bool_decide (type x ∈ offer_types)
          = String.eqb (type x) "flatrate" || String.eqb (type x) "rent"
            || String.eqb (type x) "buy") as ->.
  { unfold offer_types.
    destruct (String.eqb_spec (type x) "flatrate") as [->|Hf]; [done|].
    destruct (String.eqb_spec (type x) "rent") as [->|Hr]; [done|].
    destruct (String.eqb_spec (type x) "buy") as [->|Hb]; [done|].
    apply bool_decide_eq_false_2. rewrite !elem_of_cons, elem_of_nil. tauto. }
  repeat match goal with |- context [String.eqb ?a ?b] => destruct (String.eqb a b) end;
    repeat match goal with |- context [existsb ?f ?l] => destruct (existsb f l) end; done.
Qed.

Lemma extract_providers_spec (it : item) :
  let rows := bc_providers_list (base it) in
  _extract_providers_for_item it
  = if existsb (λ provider_info, String.eqb (type provider_info) "available") rows
    then Raise AttributeError
    else Ok (mkProviders (offers "flatrate" rows) (offers "rent" rows) (offers "buy" rows)
               (existsb (λ provider_info, bool_decide (type provider_info ∈ offer_types))
                  rows)).
Proof.
  intros rows. unfold _extract_providers_for_item. fold rows. rewrite add_provider_loop.
  destruct (existsb _ rows); [done|]. cbn [mbind res_bind flatrate rent buy empty_providers app].
  by rewrite !nonempty_offers, existsb_offer_types.
Qed.

(** X20: [_extract_providers_for_item] sorts the prefetched rows into
    three buckets by offer type, each in the order of the rows; rows of
    another type are left out; the item counts as available exactly when a
    row of one of the three types exists.  A row of the type ['available']
    makes it raise, because that key of the dict holds a bool. *)
Theorem extract_providers_groups_by_type (it : item) :
  let rows := bc_providers_list (base it) in
  _extract_providers_for_item it
  = if existsb (λ provider_info, String.eqb (type provider_info) "available") rows
    then Raise AttributeError
    else Ok (mkProviders (offers "flatrate" rows) (offers "rent" rows) (offers "buy" rows)
               (existsb (λ provider_info, bool_decide (type provider_info ∈ offer_types))
                  rows)).
Proof. apply extract_providers_spec. Qed.

(** *** Ties in the sort *)

Lemma tuple_lt_irrefl (a : Qc * Qc) : ¬ tuple_lt a a.
Proof. intros H. by apply (tuple_lt_asym a a). Qed.

(** X21: the sort of [popular] is stable: the entries that agree in
    popularity and rating keep the order in which they were processed, the
    movies before the shows and each kind in the order of its queryset. *)
Theorem popular_keeps_ties_in_order (MEDIA_URL : string) (movies_qs : list Movie)
    (tv_shows_qs : list TVShow) (watchlist_ids : list string) (dicts : list ContentDict) :
  all_content_dicts MEDIA_URL movies_qs tv_shows_qs watchlist_ids = Ok dicts →
  ∃ movies shows,
    mapM (λ it, process_content_item MEDIA_URL (IMovie it) watchlist_ids "movie") movies_qs
      = Ok movies
    ∧ mapM (λ it, process_content_item MEDIA_URL (ITV it) watchlist_ids "tv") tv_shows_qs
      = Ok shows
    ∧ ∀ k, List.filter (λ d, bool_decide (sort_key d = k)) dicts
           = List.filter (λ d, bool_decide (sort_key d = k)) movies
             ++ List.filter (λ d, bool_decide (sort_key d = k)) shows.
Proof.
  unfold all_content_dicts. intros Hrun.
  destruct (mapM _ movies_qs) as [movies|]; simpl in Hrun; [|done].
  destruct (mapM _ tv_shows_qs) as [shows|]; simpl in Hrun; [|done].
  injection Hrun as <-. exists movies, shows. split; [done|]. split; [done|].
  intros k. rewrite py_sort_reverse_stable by apply tuple_lt_irrefl.
  apply List.filter_app.
Qed.

Lemma popular_keeps_ties_in_order_witness :
  ∃ movies shows,
    mapM (λ it, process_content_item "/media/" (IMovie it) [] "movie") example_movies
      = Ok movies
    ∧ mapM (λ it, process_content_item "/media/" (ITV it) [] "tv") example_shows = Ok shows
    ∧ ∀ k, List.filter (λ d, bool_decide (sort_key d = k))
             (py_sort_reverse sort_key tuple_lt (movies ++ shows))
           = List.filter (λ d, bool_decide (sort_key d = k)) movies
             ++ List.filter (λ d, bool_decide (sort_key d = k)) shows.
Proof.
  destruct (popular_keeps_ties_in_order "/media/" example_movies example_shows []
              (default [] (match all_content_dicts "/media/" example_movies example_shows []
                           with Ok l => Some l | Raise _ => None end)))
    as (movies & shows & Hm & Hs & Hk); [vm_compute; reflexivity|].
  exists movies, shows. split; [done|]. split; [done|].
  intros k. rewrite <- Hk. f_equal.
  unfold all_content_dicts. by rewrite Hm, Hs.
Defined.

(** *** The URLs *)

Lemma startswith_slash (p : string) :
  startswith "/" p = true → ∃ rest, p = "/" +:+ rest.
Proof.
  unfold startswith. destruct p as [|c rest]; cbn [String.prefix]; [done|].
  destruct (ascii_dec "/" c) as [<-|]; [|done]. by exists rest.
Qed.

(** X22: [get_provider_logo_url] gives no URL exactly for a missing path,
    the empty path and the text ['None'].  For every other path the URL is
    the w92 image base, one slash, and the path without its first
    character when that is a slash: a path without a leading slash gets the
    slash, a path with one is appended as it is (so a path with two leading
    slashes keeps the second). *)
Theorem provider_logo_url_adds_a_missing_slash (logo_path : option string) :
  (get_provider_logo_url logo_path = None
   ↔ logo_path = None ∨ logo_path = Some "" ∨ logo_path = Some "None")
  ∧ ∀ p, logo_path = Some p → p ≠ "" → p ≠ "None" →
      ∃ rest,
        (p = "/" +:+ rest ∨ (p = rest ∧ startswith "/" p = false))
        ∧ get_provider_logo_url logo_path
          = Some ("https://image.tmdb.org/t/p/w92/" +:+ rest).
Proof.
  assert (∀ p, p ≠ "" → p ≠ "None" →
            ∃ rest,
              (p = "/" +:+ rest ∨ (p = rest ∧ startswith "/" p = false))
              ∧ get_provider_logo_url (Some p)
                = Some ("https://image.tmdb.org/t/p/w92/" +:+ rest)) as Hurl.
  { intros p Hne Hnone. unfold get_provider_logo_url.
    rewrite (proj2 (String.eqb_neq p "")), (proj2 (String.eqb_neq p "None")) by done.
    cbn [orb]. destruct (startswith "/" p) eqn:Hslash.
    - destruct (startswith_slash p Hslash) as [rest ->]. exists rest. split; [by left|done].
    - exists p. split; [by right|done]. }
  split.
  - split.
    + destruct logo_path as [p|]; [|by left]. intros Hnone. right.
      destruct (String.eqb_spec p "") as [->|Hne]; [by left|].
      destruct (String.eqb_spec p "None") as [->|Hn]; [by right|].
      destruct (Hurl p Hne Hn) as (rest & _ & Hsome). by rewrite Hsome in Hnone.
    + by intros [->|[->| ->]].
  - intros p -> Hne Hnone. by apply Hurl.
Qed.

(** The paths ["logo.jpg"] and ["/logo.jpg"] give the same URL; ["//logo.jpg"]
    gives another one, with two slashes after the base. *)
Example logo_url_slashes :
  get_provider_logo_url (Some "logo.jpg") = Some "https://image.tmdb.org/t/p/w92/logo.jpg"
  ∧ get_provider_logo_url (Some "/logo.jpg") = Some "https://image.tmdb.org/t/p/w92/logo.jpg"
  ∧ get_provider_logo_url (Some "//logo.jpg")
    = Some "https://image.tmdb.org/t/p/w92//logo.jpg".
Proof. by repeat split. Qed.

(** X23: a poster URL made from a path that is not a local [posters/]
    path is a fixed point of [get_poster_url]: applied to its own result,
    the function changes nothing. *)
Theorem poster_url_is_a_fixed_point (MEDIA_URL p url : string) :
  startswith "posters/" p = false →
  get_poster_url MEDIA_URL (Some p) = Some url →
  get_poster_url MEDIA_URL (Some url) = Some url.
Proof.
  intros Hlocal. unfold get_poster_url. rewrite Hlocal.
  destruct (String.eqb_spec p "") as [->|Hne]; [done|].
  destruct (startswith "http://" p || startswith "https://" p) eqn:Hhttp.
  - intros [= <-]. destruct (String.eqb_spec p ""); [done|]. by rewrite Hlocal, Hhttp.
  - by intros [= <-].
Qed.

Lemma poster_url_is_a_fixed_point_witness :
  get_poster_url "/media/" (Some "https://image.tmdb.org/t/p/w500/matrix.jpg")
  = Some "https://image.tmdb.org/t/p/w500/matrix.jpg".
Proof.
  apply (poster_url_is_a_fixed_point "/media/" "/matrix.jpg"); reflexivity.
Defined.

(** *** The region *)

(** X24: whatever the region parameter is and however [upper] maps it,
    [get_validated_region] answers with one of the seven region codes, which
    is also a region the provider update writes rows for; an answer other
    than the default ['US'] is the parameter in upper case. *)
Theorem validated_region_is_an_updated_region (upper : string → string)
    (region_param : option string) :
  let region := get_validated_region upper region_param in
  region ∈ Providers.ALLOWED_REGIONS
  ∧ region ∈ REGION_CHOICES.*1
  ∧ (region ≠ "US" → ∃ p, region_param = Some p ∧ p ≠ "" ∧ upper p = region).
Proof.
  unfold get_validated_region.
  destruct region_param as [p|]; [|by repeat split; [repeat constructor..|]].
  destruct (String.eqb_spec p "") as [->|Hne]; cbn [negb];
    [by repeat split; [repeat constructor..|]|].
  case_bool_decide as Hvalid; [|by repeat split; [repeat constructor..|]].
  split; [exact Hvalid|]. split; [exact Hvalid|]. intros _. by exists p.
Qed.

(** *** The popular page, from the tables *)

Section Page.
Context (MEDIA_URL : string) (upper : string → string).





(** *** The provider parameters *)










End Page.


(** A provider parameter of 4301 digits: the view raises. *)
Example popular_page_long_provider :
  popular_page "/media/" (λ s, s) example_movie_table example_tv_table (Some "US")
    [String.string_of_list_ascii (repeat "1"%char 4301)] [] (PyInt 1)
  = Raise ValueError.
Proof. by vm_compute. Qed.

End ContentMore.

(** ** More on the TMDB client *)

Module TmdbMore.
Import Tmdb TmdbFacts.

Section Client.
Context (api : request → res json).

(** *** What [search] answers, whatever the upstream does *)

Lemma dedup_step_keeps_keys (it : json) (u u' : list json) (seen seen' : list hkey) :
  dedup_step (u, seen) it = Ok (u', seen') →
  Forall2 (λ x k, item_key x = Some k) u seen → NoDup seen →
  Forall2 (λ x k, item_key x = Some k) u' seen' ∧ NoDup seen'.
Proof.
  unfold dedup_step. destruct (py_get it "id") as [v|] eqn:Hv; cbn [mbind res_bind]; [|done].
  destruct (truthy v) eqn:Htruthy; [|by intros [= <- <-]].
  destruct (py_hash v) as [k|] eqn:Hk; cbn [mbind res_bind]; [|done].
  case_bool_decide as Hseen; intros [= <- <-]; [done|]. intros Hkeys Hnd. split.
  - apply Forall2_app; [done|]. constructor; [|constructor].
    unfold item_key. by rewrite Hv, Htruthy, Hk.
  - apply NoDup_app. split; [done|]. split; [|apply NoDup_singleton].
    by intros x Hx ->%list_elem_of_singleton.
Qed.

Lemma dedup_loop_keeps_keys (l u u' : list json) (seen seen' : list hkey) :
  for_each dedup_step l (u, seen) = Ok (u', seen') →
  Forall2 (λ x k, item_key x = Some k) u seen → NoDup seen →
  Forall2 (λ x k, item_key x = Some k) u' seen' ∧ NoDup seen'.
Proof.
  revert u seen. induction l as [|it l IH]; intros u seen; [by intros [= <- <-]|].
  cbn [for_each]. destruct (dedup_step (u, seen) it) as [[u1 seen1]|] eqn:Hstep;
    cbn [mbind res_bind]; [|done].
  intros Hloop Hkeys Hnd.
  destruct (dedup_step_keeps_keys _ _ _ _ _ Hstep Hkeys Hnd). by eapply IH.
Qed.

Lemma keys_omap (u : list json) (seen : list hkey) :
  Forall2 (λ x k, item_key x = Some k) u seen → omap item_key u = seen.
Proof. induction 1 as [|x k u seen Hx _ IH]; [done|]. cbn. by rewrite Hx, IH. Qed.

(** X26: whenever [search] returns, whatever the upstream answered: the
    search type is one of the three, the answer echoes the query, and its
    list of results is never empty; it is either the one placeholder item
    or a list of items that all carry a truthy id, no two of them the
    same id. *)
Theorem search_answer_is_never_empty (q search_type : string) (page : Z)
    (response : SearchResults) :
  search api q search_type page = Ok response →
  search_type ∈ ["movie"; "tv"; "multi"]
  ∧ query response = q
  ∧ results response ≠ []
  ∧ (results response = [no_results_item]
     ∨ (Forall (λ it, is_Some (item_key it)) (results response)
        ∧ NoDup (omap item_key (results response)))).
Proof.
  unfold search. case_bool_decide as Hty; cbn [negb]; [|done].
  destruct (get_collection_movies api q) as [c|]; cbn [mbind res_bind]; [|done].
  destruct (extend_with [] c) as [a1|]; cbn [mbind res_bind]; [|done].
  destruct (keyword_search api q) as [k|]; cbn [mbind res_bind]; [|done].
  destruct (extend_with a1 k) as [a2|]; cbn [mbind res_bind]; [|done].
  destruct (api _) as [t|]; cbn [mbind res_bind]; [|done].
  destruct (extend_with a2 t) as [a3|]; cbn [mbind res_bind]; [|done].
  destruct (for_each dedup_step a3 ([], [])) as [[u seen]|] eqn:Hloop;
    cbn [mbind res_bind]; [|done].
  destruct (dedup_loop_keeps_keys _ _ _ _ _ Hloop) as [Hkeys Hnd];
    [constructor|constructor|].
  destruct u as [|x u]; intros [= <-]; cbn [query results];
    (split; [done|]); (split; [done|]); (split; [done|]); [by left|right].
  split.
  - eapply Forall2_Forall_l; [exact Hkeys|]. apply Forall_forall. intros ? _ ? ->. eauto.
  - by rewrite (keys_omap _ _ Hkeys).
Qed.

(** *** The loop variable of [keyword_search] *)

Lemma discover_loop_bound (keywords : list json) (acc : option json) :
  (∀ r, api r ≠ Raise UnboundLocalError) →
  match for_each (λ (_ : option json) keyword,
            keyword_id ← py_index keyword "id";
            r ← api ("discover/movie", [("with_keywords", keyword_id)]);
            Ok (Some r)) keywords acc with
  | Ok None => acc = None ∧ keywords = []
  | Ok (Some _) => True
  | Raise e => e ≠ UnboundLocalError
  end.
Proof.
  intros Hapi. revert acc. induction keywords as [|kw l IH]; intros acc.
  - by destruct acc.
  - cbn [for_each].
    destruct (py_index kw "id") as [i|e] eqn:Hi; cbn [mbind res_bind].
    + destruct (api ("discover/movie", [("with_keywords", i)])) as [r|e] eqn:Hr;
        cbn [mbind res_bind]; [|intros ->; by apply (Hapi _) in Hr].
      specialize (IH (Some r)). by destruct (for_each _ l (Some r)) as [[?|]|]; [| destruct IH|].
    + destruct kw; simpl in Hi; try (by injection Hi as <-).
      by destruct (assoc "id" d); [|injection Hi as <-].
Qed.

Lemma substring_empty (s : string) : String.substring 0 3 s = "" → s = "".
Proof. by destruct s. Qed.

(** X27: [keyword_search] reads the loop variable [results] after the
    loop; the loop has always run at least once by then: as long as the
    upstream raises no [UnboundLocalError] of its own, [keyword_search]
    raises none. *)
Theorem keyword_search_result_is_bound (q : string) :
  (∀ r, api r ≠ Raise UnboundLocalError) →
  keyword_search api q ≠ Raise UnboundLocalError.
Proof.
  intros Hapi. unfold keyword_search.
  destruct (api ("search/keyword", [("query", JStr q)])) as [body|e] eqn:Hbody;
    cbn [mbind res_bind]; [|intros [= ->]; by apply (Hapi _) in Hbody].
  destruct body as [| | | | | |d]; try (by cbn).
  cbn [py_get py_get_default mbind res_bind py_index].
  destruct (assoc "results" d) as [found|]; cbn [default from_option id];
    [|by cbn [truthy negb]].
  destruct (truthy found) eqn:Htruthy; cbn [negb]; [|done].
  cbn [mbind res_bind].
  destruct found as [| | | |s|l|]; try done; cbn [py_first_three mbind res_bind py_iter].
  - pose proof (discover_loop_bound (chars (String.substring 0 3 s)) None Hapi) as Hloop.
    destruct (for_each _ _ None) as [[r|]|e]; [done| |by intros [= ->]].
    destruct Hloop as [_ Hnil]. unfold chars in Hnil. apply fmap_nil_inv in Hnil.
    assert (String.substring 0 3 s = "") as Hs.
    { destruct (String.substring 0 3 s); [done|discriminate]. }
    apply substring_empty in Hs. by subst s.
  - pose proof (discover_loop_bound (take 3 l) None Hapi) as Hloop.
    destruct (for_each _ _ None) as [[r|]|e]; [done| |by intros [= ->]].
    destruct Hloop as [_ Hnil]. by destruct l.
Qed.

(** *** Processing an item of a search *)

(** The next statement of a block returns, or the block raises. *)
Ltac run_bind :=
  lazymatch goal with
  | |- mbind _ ?m = _ → _ => destruct m; cbn [mbind res_bind]; [|done]
  end.

Lemma content_item_shape (d : list (string * json)) (region : string) (out : json) :
  content_item api (JDict d) region = Ok out →
  ∃ poster_url overview popularity rating vote_count flatrate rent,
    out = JDict
            [("title", default (default (JStr "") (assoc "name" d)) (assoc "title" d));
             ("poster_url", poster_url);
             ("id", default JNull (assoc "id" d));
             ("media_type", default (JStr "movie") (assoc "media_type" d));
             ("overview", overview);
             ("popularity", popularity);
             ("rating", rating);
             ("vote_count", vote_count);
             ("streaming_providers",
              JDict [("flatrate", JList flatrate); ("rent", JList rent);
                     ("available",
                      JBool (match flatrate, rent with [], [] => false | _, _ => true end))])].
Proof.
  unfold content_item. cbn [py_get py_get_default mbind res_bind].
  match goal with |- context [py_get_default ?si "flatrate"] => generalize si end.
  intros streaming_info. do 7 run_bind.
  intros [= <-]. by eexists _, _, _, _, _, _, _.
Qed.

(** The fields every answer of [process_content_item] has. *)
Lemma process_content_item_shape (d : list (string * json)) (region : string) :
  ∃ title poster_url media_id media_type overview popularity rating vote_count flatrate rent,
    process_content_item api (JDict d) region
    = Ok (JDict
            [("title", title); ("poster_url", poster_url); ("id", media_id);
             ("media_type", media_type); ("overview", overview);
             ("popularity", popularity); ("rating", rating); ("vote_count", vote_count);
             ("streaming_providers",
              JDict [("flatrate", JList flatrate); ("rent", JList rent);
                     ("available",
                      JBool (match flatrate, rent with [], [] => false | _, _ => true end))])])
    ∧ (∀ v, assoc "title" d = Some v → title = v)
    ∧ (∀ v, assoc "id" d = Some v → media_id = v)
    ∧ (∀ v, assoc "media_type" d = Some v → media_type = v).
Proof.
  unfold process_content_item.
  destruct (content_item api (JDict d) region) as [out|] eqn:Hout.
  - destruct (content_item_shape _ _ _ Hout) as (p & o & pop & r & vc & fl & rent & ->).
    eexists _, _, _, _, _, _, _, _, fl, rent. split; [done|].
    repeat split; by intros v ->.
  - cbn. eexists _, _, _, _, _, _, _, _, [], []. split; [done|].
    repeat split; by intros v ->.
Qed.

(** X28: [process_content_item] never raises on an item that is a dict,
    whatever the upstream answers or raises for its two requests: it
    returns a dict that keeps the title, the id and the media type the
    item has, and whose provider block counts as available exactly when it
    lists a flatrate or a rent provider. *)
Theorem process_content_item_never_raises (d : list (string * json)) (region : string) :
  ∃ out flatrate rent,
    process_content_item api (JDict d) region = Ok (JDict out)
    ∧ (∀ v, assoc "title" d = Some v → assoc "title" out = Some v)
    ∧ (∀ v, assoc "id" d = Some v → assoc "id" out = Some v)
    ∧ (∀ v, assoc "media_type" d = Some v → assoc "media_type" out = Some v)
    ∧ assoc "streaming_providers" out
      = Some (JDict [("flatrate", JList flatrate); ("rent", JList rent);
                     ("available", JBool (bool_decide (flatrate ≠ [] ∨ rent ≠ [])))]).
Proof.
  destruct (process_content_item_shape d region)
    as (t & p & i & m & o & pop & r & vc & fl & rent & -> & Ht & Hi & Hm).
  eexists _, fl, rent. split; [done|]. cbn.
  split; [by intros v ->%Ht|]. split; [by intros v ->%Hi|]. split; [by intros v ->%Hm|].
  assert (bool_decide (fl ≠ [] ∨ rent ≠ [])
          = match fl, rent with [], [] => false | _, _ => true end) as ->; [|done].
  destruct fl, rent;
    [apply bool_decide_eq_false_2; by intros [?|?]
    |apply bool_decide_eq_true_2; by right
    |apply bool_decide_eq_true_2; by left..].
Qed.

(** *** The search view *)

Lemma search_result_shape (region : string) (item result : json) :
  search_result api region item = Ok (Some result) →
  ∃ d out title media_id,
    item = JDict d ∧ result = JDict out
    ∧ assoc "id" out = Some (JStr (py_str media_id))
    ∧ assoc "title" out = Some title
    ∧ (∀ v, assoc "title" d = Some v → title = v)
    ∧ (∀ v, assoc "id" d = Some v → media_id = v).
Proof.
  unfold search_result. destruct item as [| | | | | |d]; try done.
  cbn [py_get py_get_default mbind res_bind].
  destruct (match default JNull (assoc "media_type" d) with
            | JStr s => _ | _ => false end); [|done].
  destruct (process_content_item_shape d region)
    as (t & p & i & m & o & pop & r & vc & fl & rent & -> & Ht & Hi & _).
  cbn [mbind res_bind py_index assoc String.eqb Ascii.eqb Bool.eqb py_setitem].
  intros [= <-]. by eexists d, _, t, i.
Qed.

Lemma search_results_Forall (P : json → Prop) (region : string) (items acc : list json) :
  (∀ item result, item ∈ items → search_result api region item = Ok (Some result) →
     P result) →
  Forall P acc → Forall P (search_results api region items acc).
Proof.
  revert acc. induction items as [|item items IH]; intros acc Hstep Hacc; [done|].
  cbn [search_results].
  destruct (search_result api region item) as [[result|]|] eqn:Hitem; [| |done].
  - apply IH; [intros ????; eapply Hstep; [by right|done]|].
    apply Forall_app. split; [done|]. constructor; [|done].
    eapply Hstep; [by left|done].
  - apply IH; [|done]. intros ????; eapply Hstep; [by right|done].
Qed.

(** X29: the search view never fails and never shows a raw id: every
    result it hands to the template is a dict whose id is a string.  When
    the search finds nothing, the view shows exactly one result, titled
    ['No results found'] and with the id ['0'], whatever the upstream
    answers for the detail requests the view then sends for it. *)
Theorem search_view_shows_string_ids (q region : string) :
  Forall (λ result, ∃ out s, result = JDict out ∧ assoc "id" out = Some (JStr s))
    (search_view api q region)
  ∧ (q ≠ "" →
     (∃ response, search api q "multi" 1 = Ok response
                  ∧ results response = [no_results_item]) →
     ∃ out, search_view api q region = [JDict out]
       ∧ assoc "title" out = Some (JStr "No results found")
       ∧ assoc "id" out = Some (JStr "0")).
Proof.
  split.
  - unfold search_view. destruct (String.eqb q ""); [constructor|].
    destruct (search api q "multi" 1) as [response|]; [|constructor].
    apply search_results_Forall; [|constructor].
    intros item result _ (d & out & t & i & _ & -> & Hid & _)%search_result_shape.
    by eexists _, _.
  - intros Hq (response & Hsearch & Hresults). unfold search_view.
    rewrite (proj2 (String.eqb_neq q "")) by done. rewrite Hsearch, Hresults.
    cbn [search_results].
    destruct (search_result api region no_results_item) as [[result|]|] eqn:Hitem.
    + destruct (search_result_shape _ _ _ Hitem)
        as (d & out & t & i & Hd & -> & Hid & Htitle & Ht & Hi).
      injection Hd as <-. exists out. split; [done|].
      rewrite Htitle, Hid, (Ht (JStr "No results found") eq_refl), (Hi (JInt 0) eq_refl).
      done.
    + exfalso. unfold search_result, no_results_item in Hitem.
      cbn [py_get py_get_default mbind res_bind assoc String.eqb Ascii.eqb Bool.eqb default
             orb] in Hitem.
      destruct (process_content_item_shape
                  [("title", JStr "No results found"); ("poster_path", JNull);
                   ("id", JInt 0); ("media_type", JStr "movie");
                   ("overview", JStr "No description available.");
                   ("popularity", JInt 0); ("rating", JInt 0); ("vote_count", JInt 0)] region)
        as (t & p & i & m & o & pop & r & vc & fl & rent & Hrun & _).
      by rewrite Hrun in Hitem.
    + exfalso. unfold search_result, no_results_item in Hitem.
      cbn [py_get py_get_default mbind res_bind assoc String.eqb Ascii.eqb Bool.eqb default
             orb] in Hitem.
      destruct (process_content_item_shape
                  [("title", JStr "No results found"); ("poster_path", JNull);
                   ("id", JInt 0); ("media_type", JStr "movie");
                   ("overview", JStr "No description available.");
                   ("popularity", JInt 0); ("rating", JInt 0); ("vote_count", JInt 0)] region)
        as (t & p & i & m & o & pop & r & vc & fl & rent & Hrun & _).
      by rewrite Hrun in Hitem.
Qed.

End Client.

Lemma search_answer_is_never_empty_witness :
  let response :=
    mkSearchResults "Matrix"
      [movie_item 1 "Collection Movie"; movie_item 2 "Keyword Movie 1"; movie_item 4 "Matrix"] in
  "movie" ∈ ["movie"; "tv"; "multi"]
  ∧ query response = "Matrix"
  ∧ results response ≠ []
  ∧ (results response = [no_results_item]
     ∨ (Forall (λ it, is_Some (item_key it)) (results response)
        ∧ NoDup (omap item_key (results response)))).
Proof.
  apply (search_answer_is_never_empty example_api "Matrix" "movie" 1). reflexivity.
Defined.

(** An upstream that knows nothing: every request is answered with an
    empty list of results. *)
Lemma search_view_shows_string_ids_witness :
  ∃ out, search_view (λ _, Ok (results_body [])) "x" "NO" = [JDict out]
    ∧ assoc "title" out = Some (JStr "No results found")
    ∧ assoc "id" out = Some (JStr "0").
Proof.
  apply (proj2 (search_view_shows_string_ids (λ _, Ok (results_body [])) "x" "NO"));
    [done|].
  eexists. split; reflexivity.
Defined.

Lemma keyword_search_result_is_bound_witness :
  keyword_search example_api "Matrix" ≠ Raise UnboundLocalError.
Proof.
  apply (keyword_search_result_is_bound example_api "Matrix").
  intros [endpoint params]. unfold example_api. by repeat case_match.
Defined.

End TmdbMore.
